(** * last30days: source adapters and the discussion search task

    A shallow embedding of the four source adapters of the last30days skill
    ([scripts/lib/openai_reddit.py], [scripts/lib/twitterapi_x.py],
    [scripts/lib/dailydev.py], [scripts/lib/tubelab_yt.py]) and of the
    discussion search task of [scripts/last30days.py].

    Conventions of the embedding.
    - Python values coming from JSON are the inductive type [pyval]; a dict is
      an association list with distinct keys (a lookup takes the first
      binding of the key).
    - Python integers are [Z].  Python floats are idealised as real numbers:
      rounding, infinities and NaN are not modelled.  An integer of a
      payload that Python converts to a float ([float()], [math.log1p], a
      true division) is an [OverflowError] beyond the range of the floats;
      positions and lengths of lists are converted as they are.
    - Python strings are [string]s of one-byte characters.
    - A computation that may raise returns [exc A]; code that talks to the
      HTTP transport threads an abstract world through the state-and-error
      monad [io].
    - Functions of the Python standard library whose text is not part of the
      repository ([json.loads], [re.search] on the JSON pattern, [strptime],
      [urlencode], [quote], [str()] of compound values, [int()] and [float()]
      of strings) are the fields of the interface [PyLib]. *)

From Stdlib Require Import ZArith List String Ascii Bool Reals Lra Lia Sorted.
From Stdlib Require Import DecimalString.
From Stdlib Require DecimalPos DecimalZ.
Import ListNotations.

Local Open Scope string_scope.
Local Open Scope Z_scope.

(** ** Exceptions and the error monad *)

Inductive exn : Type :=
| HTTPError (msg : string)
| TypeError (msg : string)
| ValueError (msg : string)
| KeyError (msg : string)
| AttributeError (msg : string)
| JSONDecodeError (msg : string)
| OtherError (name msg : string).

(** [type(e).__name__] *)
Definition exn_name (e : exn) : string :=
  match e with
  | HTTPError _ => "HTTPError"
  | TypeError _ => "TypeError"
  | ValueError _ => "ValueError"
  | KeyError _ => "KeyError"
  | AttributeError _ => "AttributeError"
  | JSONDecodeError _ => "JSONDecodeError"
  | OtherError n _ => n
  end.

(** [str(e)] *)
Definition exn_str (e : exn) : string :=
  match e with
  | HTTPError m | TypeError m | ValueError m | KeyError m
  | AttributeError m | JSONDecodeError m | OtherError _ m => m
  end.

Definition is_HTTPError (e : exn) : bool :=
  match e with HTTPError _ => true | _ => false end.

Inductive exc (A : Type) : Type :=
| Ok (a : A)
| Raise (e : exn).
Arguments Ok {A} a.
Arguments Raise {A} e.

Definition ebind {A B : Type} (m : exc A) (k : A -> exc B) : exc B :=
  match m with
  | Ok a => k a
  | Raise e => Raise e
  end.

Declare Scope exc_scope.
Delimit Scope exc_scope with exc.
Notation "x <- m ;; k" := (ebind m (fun x => k))
  (at level 61, m at next level, right associativity) : exc_scope.
Local Open Scope exc_scope.

(** ** Python values *)

Set Warnings "-register-all".

Inductive pyval : Type :=
| PNone
| PBool (b : bool)
| PInt (z : Z)
| PFloat (r : R)
| PStr (s : string)
| PList (l : list pyval)
| PDict (d : list (string * pyval)).

Definition dict : Type := list (string * pyval).

Fixpoint lookup {A : Type} (k : string) (d : list (string * A)) : option A :=
  match d with
  | [] => None
  | (k', v) :: d' => if String.eqb k k' then Some v else lookup k d'
  end.

(** [d.get(k, default)] *)
Definition dict_get (d : dict) (k : string) (default : pyval) : pyval :=
  match lookup k d with
  | Some v => v
  | None => default
  end.

(** [k in d] *)
Definition dict_has (d : dict) (k : string) : bool :=
  match lookup k d with Some _ => true | None => false end.

(** [d[k]] *)
Definition dict_item (d : dict) (k : string) : exc pyval :=
  match lookup k d with
  | Some v => Ok v
  | None => Raise (KeyError ("'" ++ k ++ "'"))
  end.

(** Truth value of a Python object. *)
Definition truthy (v : pyval) : bool :=
  match v with
  | PNone => false
  | PBool b => b
  | PInt z => negb (z =? 0)
  | PFloat r => if Req_dec_T r 0 then false else true
  | PStr s => negb (String.eqb s "")
  | PList l => match l with [] => false | _ => true end
  | PDict d => match d with [] => false | _ => true end
  end.

(** [a or b] *)
Definition py_or (a b : pyval) : pyval := if truthy a then a else b.

Definition is_dict (v : pyval) : bool :=
  match v with PDict _ => true | _ => false end.

Definition is_str (v : pyval) : bool :=
  match v with PStr _ => true | _ => false end.

(** [v.get(k, default)] on a value that need not be a dict. *)
Definition py_get (v : pyval) (k : string) (default : pyval) : exc pyval :=
  match v with
  | PDict d => Ok (dict_get d k default)
  | _ => Raise (AttributeError "get")
  end.

(** ** Strings *)

Definition str_of_Z (z : Z) : string := NilZero.string_of_int (Z.to_int z).

Fixpoint str_contains (needle hay : string) : bool :=
  if String.prefix needle hay then true
  else match hay with
       | EmptyString => false
       | String _ hay' => str_contains needle hay'
       end.

(** Characters for which [str.isspace] holds, among one-byte characters. *)
Definition is_space (c : ascii) : bool :=
  let n := nat_of_ascii c in
  (((9 <=? n) && (n <=? 13)) || ((28 <=? n) && (n <=? 32))
   || (n =? 133) || (n =? 160))%nat.

Fixpoint lstrip_by (p : ascii -> bool) (s : string) : string :=
  match s with
  | EmptyString => EmptyString
  | String c s' => if p c then lstrip_by p s' else s
  end.

Fixpoint rstrip_by (p : ascii -> bool) (s : string) : string :=
  match s with
  | EmptyString => EmptyString
  | String c s' =>
      match rstrip_by p s' with
      | EmptyString => if p c then EmptyString else String c EmptyString
      | r => String c r
      end
  end.

(** [s.strip()] *)
Definition strip (s : string) : string := rstrip_by is_space (lstrip_by is_space s).

Definition in_chars (chars : string) (c : ascii) : bool :=
  existsb (Ascii.eqb c) (list_ascii_of_string chars).

(** [s.lstrip(chars)] *)
Definition lstrip (chars s : string) : string := lstrip_by (in_chars chars) s.

(** [s[:n]] *)
Definition str_take (n : nat) (s : string) : string := substring 0 n s.

Definition lower_char (c : ascii) : ascii :=
  let n := nat_of_ascii c in
  if ((65 <=? n) && (n <=? 90))%nat then ascii_of_nat (n + 32) else c.

(** [s.lower()] on ASCII letters. *)
Fixpoint lower (s : string) : string :=
  match s with
  | EmptyString => EmptyString
  | String c s' => String (lower_char c) (lower s')
  end.

Definition is_digit (c : ascii) : bool :=
  let n := nat_of_ascii c in ((48 <=? n) && (n <=? 57))%nat.

(** ** The standard-library interface *)

Class PyLib : Type := {
  (** [str(v)] for a float, a list or a dict *)
  repr : pyval -> string;
  (** [int(s)] and [float(s)] on a string; [None] is [ValueError] *)
  int_of_str : string -> option Z;
  float_of_str : string -> option R;
  (** [json.loads] *)
  json_loads : string -> exc pyval;
  (** [re.search(pattern, text)]: the text of the match *)
  re_search : string -> string -> option string;
  (** [datetime.strptime(text, format)] and [dt.strftime(format)] *)
  datetime : Type;
  strptime : string -> string -> exc datetime;
  strftime : datetime -> string -> string;
  (** [urllib.parse.urlencode] and [urllib.parse.quote] *)
  urlencode : list (string * pyval) -> string;
  quote : string -> string
}.

Section Values.
Context {L : PyLib}.

(** [str(v)] *)
Definition py_str (v : pyval) : string :=
  match v with
  | PStr s => s
  | PInt z => str_of_Z z
  | PNone => "None"
  | PBool true => "True"
  | PBool false => "False"
  | _ => repr v
  end.

(** Truncation towards zero, as [int()] does on a float. *)
Definition Rtrunc (r : R) : Z :=
  if Rle_dec 0 r then Int_part r else - Int_part (- r).

(** [int(v)] *)
Definition py_int (v : pyval) : exc Z :=
  match v with
  | PInt z => Ok z
  | PBool b => Ok (if b then 1 else 0)
  | PFloat r => Ok (Rtrunc r)
  | PStr s => match int_of_str s with
              | Some z => Ok z
              | None => Raise (ValueError "invalid literal for int()")
              end
  | _ => Raise (TypeError "int() argument")
  end.

(** The integers whose absolute value is below [float_limit] are the ones
    that round to a finite float: the limit lies half-way between the
    largest float, [2^1024 - 2^971], and [2^1024]. *)
Definition float_limit : Z := 2 ^ 1024 - 2 ^ 970.

(** An integer that is converted to a float as it is. *)
Definition fits_float (z : Z) : Prop := (Z.abs z <? float_limit) = true.

(** The conversion of an [int] to a [float], which [float()], the [math]
    functions and arithmetic with a float apply to an integer argument. *)
Definition float_of_int (z : Z) : exc R :=
  if Z.abs z <? float_limit then Ok (IZR z)
  else Raise (OtherError "OverflowError" "int too large to convert to float").

(** [float(v)] *)
Definition py_float (v : pyval) : exc R :=
  match v with
  | PInt z => float_of_int z
  | PBool b => Ok (if b then 1%R else 0%R)
  | PFloat r => Ok r
  | PStr s => match float_of_str s with
              | Some r => Ok r
              | None => Raise (ValueError "could not convert string to float")
              end
  | _ => Raise (TypeError "float() argument")
  end.

(** The real value of a number; a non-number is a [TypeError] in arithmetic,
    comparison with a number and [math] functions. *)
Definition num_val (v : pyval) : exc R :=
  match v with
  | PInt z => Ok (IZR z)
  | PBool b => Ok (if b then 1%R else 0%R)
  | PFloat r => Ok r
  | _ => Raise (TypeError "must be real number")
  end.

(** [max(0, v)]: [v] when [v > 0], else the integer [0]. *)
Definition py_max0 (v : pyval) : exc pyval :=
  r <- num_val v ;;
  Ok (if Rlt_dec 0 r then v else PInt 0).

(** [min(v, n)] for an integer [n]: [n] when [n < v], else [v]. *)
Definition py_min_int (v : pyval) (n : Z) : exc pyval :=
  r <- num_val v ;;
  Ok (if Rlt_dec (IZR n) r then PInt n else v).

(** The argument of a [math] function as a float: an integer is converted,
    a non-number is a [TypeError]. *)
Definition as_float (v : pyval) : exc R :=
  match v with
  | PInt z => float_of_int z
  | _ => num_val v
  end.

(** [math.log1p(v)] *)
Definition log1p (v : pyval) : exc R :=
  r <- as_float v ;;
  if Rle_dec r (-1) then Raise (ValueError "math domain error")
  else Ok (ln (1 + r)).

(** [v / n] for an integer literal [n > 0]: the quotient of two integers is
    rounded once, and is an [OverflowError] when it is beyond the floats. *)
Definition py_div_int (v : pyval) (n : Z) : exc R :=
  match v with
  | PInt z =>
      if Z.abs z <? n * float_limit then Ok (IZR z / IZR n)%R
      else Raise (OtherError "OverflowError"
                    "integer division result too large for a float")
  | _ => r <- num_val v ;; Ok (r / IZR n)%R
  end.

(** [needle in v] *)
Definition py_contains (needle : string) (v : pyval) : exc bool :=
  match v with
  | PStr s => Ok (str_contains needle s)
  | PList l =>
      Ok (existsb (fun x => match x with
                            | PStr t => String.eqb needle t
                            | _ => false
                            end) l)
  | PDict d => Ok (dict_has d needle)
  | _ => Raise (TypeError "argument is not iterable")
  end.

(** [len(v)] *)
Definition py_len (v : pyval) : exc nat :=
  match v with
  | PStr s => Ok (String.length s)
  | PList l => Ok (List.length l)
  | PDict d => Ok (List.length d)
  | _ => Raise (TypeError "object has no len()")
  end.

(** [v[:n]] *)
Definition py_take (n : nat) (v : pyval) : exc pyval :=
  match v with
  | PStr s => Ok (PStr (str_take n s))
  | PList l => Ok (PList (firstn n l))
  | _ => Raise (TypeError "object is not subscriptable by a slice")
  end.

(** [v.strip()] *)
Definition py_strip (v : pyval) : exc string :=
  match v with
  | PStr s => Ok (strip s)
  | _ => Raise (AttributeError "strip")
  end.

End Values.

(** [min(1.0, max(0.0, x))] *)
Definition clamp01 (x : R) : R := Rmin 1 (Rmax 0 x).

(** [for x in v]: the elements a loop over [v] visits (a dict yields its
    keys, a string its characters). *)
Definition py_iter (v : pyval) : exc (list pyval) :=
  match v with
  | PList l => Ok l
  | PStr s => Ok (map (fun c => PStr (String c EmptyString)) (list_ascii_of_string s))
  | PDict d => Ok (map (fun kv => PStr (fst kv)) d)
  | _ => Raise (TypeError "object is not iterable")
  end.

(** [for i, x in enumerate(l)] with a body that either appends one item
    ([Some]), skips the entry with [continue] ([None]) or raises. *)
Fixpoint for_each {A B : Type} (body : nat -> A -> exc (option B))
    (i : nat) (l : list A) : exc (list B) :=
  match l with
  | [] => Ok []
  | x :: l' =>
      o <- body i x ;;
      rest <- for_each body (S i) l' ;;
      Ok (match o with Some b => b :: rest | None => rest end)
  end.

(** ** The HTTP transport and the fixture files *)

(** Modelled from the spec: [lib/http.py] is not among the sources; the
    transport is "an opaque [fetch(url, headers) -> JSON | error]
    capability".  A request reads and changes an abstract world and either
    returns the decoded JSON object or raises.  [fixture_file] is the
    content of a file of the fixtures directory, if it exists. *)
Class Transport : Type := {
  world : Type;
  http_get : string -> list (string * string) -> Z -> world -> exc dict * world;
  http_post : string -> dict -> list (string * string) -> Z -> world -> exc dict * world;
  fixture_file : string -> world -> option (exc dict)
}.

Definition io {T : Transport} (A : Type) : Type := world -> exc A * world.

Definition ret {T : Transport} {A : Type} (a : A) : io A := fun w => (Ok a, w).

Definition throw {T : Transport} {A : Type} (e : exn) : io A := fun w => (Raise e, w).

Definition lift {T : Transport} {A : Type} (m : exc A) : io A := fun w => (m, w).

Definition iobind {T : Transport} {A B : Type} (m : io A) (k : A -> io B) : io B :=
  fun w => match m w with
           | (Ok a, w') => k a w'
           | (Raise e, w') => (Raise e, w')
           end.

(** [try: m  except ...: h e] *)
Definition try_except {T : Transport} {A : Type} (m : io A) (h : exn -> io A) : io A :=
  fun w => match m w with
           | (Ok a, w') => (Ok a, w')
           | (Raise e, w') => h e w'
           end.

Declare Scope io_scope.
Delimit Scope io_scope with io.
Notation "x <~ m ;; k" := (iobind m (fun x => k))
  (at level 61, m at next level, right associativity) : io_scope.

(** [DEPTH_CONFIG.get(depth, DEPTH_CONFIG["default"])]: the subscript is
    evaluated first and raises [KeyError] on a table without that key. *)
Definition config_get {A : Type} (cfg : list (string * A)) (depth : string) : exc A :=
  match lookup "default" cfg with
  | None => Raise (KeyError "'default'")
  | Some dflt => Ok (match lookup depth cfg with Some c => c | None => dflt end)
  end.

(** ** The social adapter: [scripts/lib/twitterapi_x.py] *)

Module Twitterapi_x.

Definition TWITTERAPI_SEARCH_URL : string :=
  "https://api.twitterapi.io/twitter/tweet/advanced_search".

(** Depth configurations: (min_faves, max_pages) *)
Definition DEPTH_CONFIG : list (string * (Z * Z)) :=
  [("quick", (5, 1)); ("default", (3, 2)); ("deep", (2, 3))].

Definition build_query (topic from_date to_date depth : string) : exc string :=
  c <- config_get DEPTH_CONFIG depth ;;
  let min_faves := fst c in
  Ok (topic ++ " since:" ++ from_date ++ " until:" ++ to_date
      ++ " lang:en -filter:retweets min_faves:" ++ str_of_Z min_faves).

Section Search.
Context {L : PyLib} {T : Transport}.

(** The body of [for page in range(max_pages)], iterated: [n] pages remain,
    [page] is the index of the next one. *)
Fixpoint pages (n : nat) (page : nat) (query : string)
    (headers : list (string * string)) (cursor : pyval)
    (all_tweets : list pyval) : io (list pyval) :=
  match n with
  | O => ret all_tweets
  | S n' =>
      let params :=
        ([("query", PStr query); ("queryType", PStr "Top")]
         ++ (if truthy cursor then [("cursor", cursor)] else []))%list in
      let url := TWITTERAPI_SEARCH_URL ++ "?" ++ urlencode params in
      fun w =>
        match http_get url headers 30 w with
        | (Raise e, w') =>
            if is_HTTPError e then
              if Nat.eqb page 0 then (Raise e, w')
              else (Ok all_tweets, w')
            else (Raise e, w')
        | (Ok response, w') =>
            let tweets := dict_get response "tweets" (PList []) in
            if negb (truthy tweets) then (Ok all_tweets, w')
            else
              match py_iter tweets with
              | Raise e => (Raise e, w')
              | Ok ts =>
                  let all_tweets' := (all_tweets ++ ts)%list in
                  if negb (truthy (dict_get response "has_next_page" PNone))
                  then (Ok all_tweets', w')
                  else
                    let cursor' := dict_get response "next_cursor" PNone in
                    if negb (truthy cursor') then (Ok all_tweets', w')
                    else pages n' (S page) query headers cursor' all_tweets' w'
              end
        end
  end.

Definition search_x (api_key topic from_date to_date depth : string)
    (mock_response : option dict) : io dict :=
  match mock_response with
  | Some mock => ret mock
  | None =>
      (c <~ lift (config_get DEPTH_CONFIG depth) ;;
       let max_pages := snd c in
       query <~ lift (build_query topic from_date to_date depth) ;;
       let headers := [("X-API-Key", api_key)] in
       all_tweets <~ pages (Z.to_nat max_pages) 0 query headers PNone [] ;;
       ret [("tweets", PList all_tweets)])%io
  end.

End Search.

(** [re.match(r'^(\d{4})-(\d{2})-(\d{2})', s)]: the three groups. *)
Definition iso_match (s : string) : option (string * string * string) :=
  match s with
  | String y1 (String y2 (String y3 (String y4 (String h1
      (String m1 (String m2 (String h2 (String d1 (String d2 _))))))))) =>
      if forallb is_digit [y1; y2; y3; y4; m1; m2; d1; d2]
         && Ascii.eqb h1 "-" && Ascii.eqb h2 "-"
      then Some (string_of_list_ascii [y1; y2; y3; y4],
                 string_of_list_ascii [m1; m2],
                 string_of_list_ascii [d1; d2])
      else None
  | _ => None
  end.

Section Parse.
Context {L : PyLib}.

Definition _parse_created_at (created_at : pyval) : exc (option string) :=
  match created_at with
  | PStr s0 =>
      if negb (truthy created_at) then Ok None
      else
        let s := strip s0 in
        match iso_match s with
        | Some (y, m, d) => Ok (Some (y ++ "-" ++ m ++ "-" ++ d))
        | None =>
            match strptime s "%a %b %d %H:%M:%S %z %Y" with
            | Ok dt => Ok (Some (strftime dt "%Y-%m-%d"))
            | Raise (ValueError _) => Ok None
            | Raise e => Raise e
            end
        end
  | _ => Ok None
  end.

Local Open Scope R_scope.

Definition _compute_relevance (position total : Z) (tweet : dict) : exc R :=
  let position_score :=
    if (total <=? 1)%Z then 1
    else 1 - 0.5 * (IZR position / IZR (total - 1)) in
  likes <- (m <- py_max0 (py_or (dict_get tweet "likeCount" (PInt 0)) (PInt 0)) ;; log1p m) ;;
  reposts <- (m <- py_max0 (py_or (dict_get tweet "retweetCount" (PInt 0)) (PInt 0)) ;; log1p m) ;;
  replies <- (m <- py_max0 (py_or (dict_get tweet "replyCount" (PInt 0)) (PInt 0)) ;; log1p m) ;;
  quotes <- (m <- py_max0 (py_or (dict_get tweet "quoteCount" (PInt 0)) (PInt 0)) ;; log1p m) ;;
  let raw_engagement :=
    0.55 * likes + 0.25 * reposts + 0.15 * replies + 0.05 * quotes in
  let engagement_score := Rmin 1 (raw_engagement / 7) in
  Ok (0.6 * position_score + 0.4 * engagement_score).

Local Close Scope R_scope.

Record engagement : Type := {
  likes : Z;
  reposts : Z;
  replies : Z;
  quotes : Z
}.

Record item : Type := {
  id : string;
  text : string;
  url : pyval;
  author_handle : string;
  date : option string;
  item_engagement : engagement;
  why_relevant : string;
  relevance : R
}.

(** The body of the loop of [parse_x_response] on entry [i]. *)
Definition parse_tweet (total : Z) (i : nat) (tweet : pyval) : exc (option item) :=
  match tweet with
  | PDict t =>
      let url0 := dict_get t "url" (PStr "") in
      ou <- (if truthy url0 then Ok (Some url0)
             else
               let author := dict_get t "author" (PDict []) in
               username <- (if is_dict author then py_get author "userName" (PStr "")
                            else Ok (PStr "")) ;;
               let tweet_id := dict_get t "id" (PStr "") in
               if truthy username && truthy tweet_id
               then Ok (Some (PStr ("https://x.com/" ++ py_str username
                                    ++ "/status/" ++ py_str tweet_id)))
               else Ok None) ;;
      match ou with
      | None => Ok None
      | Some u =>
          let author := dict_get t "author" (PDict []) in
          handle0 <- (if is_dict author then py_get author "userName" (PStr "")
                      else Ok (PStr "")) ;;
          let handle := lstrip "@" (strip (py_str handle0)) in
          d <- _parse_created_at (dict_get t "createdAt" PNone) ;;
          l <- py_int (py_or (dict_get t "likeCount" (PInt 0)) (PInt 0)) ;;
          rp <- py_int (py_or (dict_get t "retweetCount" (PInt 0)) (PInt 0)) ;;
          rl <- py_int (py_or (dict_get t "replyCount" (PInt 0)) (PInt 0)) ;;
          q <- py_int (py_or (dict_get t "quoteCount" (PInt 0)) (PInt 0)) ;;
          r <- _compute_relevance (Z.of_nat i) total t ;;
          Ok (Some {| id := "X" ++ str_of_Z (Z.of_nat i + 1);
                      text := str_take 500 (strip (py_str (dict_get t "text" (PStr ""))));
                      url := u;
                      author_handle := handle;
                      date := d;
                      item_engagement :=
                        {| likes := l; reposts := rp; replies := rl; quotes := q |};
                      why_relevant := "";
                      relevance := clamp01 r |})
      end
  | _ => Ok None
  end.

Definition parse_x_response (response : dict) : exc (list item) :=
  let tweets := dict_get response "tweets" (PList []) in
  if negb (truthy tweets) then Ok []
  else
    n <- py_len tweets ;;
    ts <- py_iter tweets ;;
    for_each (parse_tweet (Z.of_nat n)) 0 ts.

End Parse.

End Twitterapi_x.

(** [v is not None] *)
Definition is_not_none (v : pyval) : bool :=
  match v with PNone => false | _ => true end.

(** The date of the article and video adapters:
    [if created_at and len(created_at) >= 10: date_str = created_at[:10]]. *)
Definition date_prefix (created_at : pyval) : exc (option pyval) :=
  if truthy created_at then
    n <- py_len created_at ;;
    if (10 <=? n)%nat then d <- py_take 10 created_at ;; Ok (Some d)
    else Ok None
  else Ok None.

(** ** The article adapter: [scripts/lib/dailydev.py] *)

Module Dailydev.

Definition DAILYDEV_SEARCH_URL : string :=
  "https://api.daily.dev/public/v1/search/posts".

Definition DEPTH_CONFIG : list (string * Z) :=
  [("quick", 10); ("default", 20); ("deep", 50)].

Section Search.
Context {L : PyLib} {T : Transport}.

Definition search_dailydev (api_key topic from_date to_date depth : string)
    (mock_response : option dict) : io dict :=
  match mock_response with
  | Some mock => ret mock
  | None =>
      (limit <~ lift (config_get DEPTH_CONFIG depth) ;;
       let headers := [("Authorization", "Bearer " ++ api_key)] in
       let url := DAILYDEV_SEARCH_URL ++ "?q=" ++ topic
                  ++ "&time=month&limit=" ++ str_of_Z limit in
       http_get url headers 30)%io
  end.

End Search.

Section Parse.
Context {L : PyLib}.

Local Open Scope R_scope.

Definition _compute_relevance (position total : Z) (post : dict) : exc R :=
  let pos_score :=
    if (total <=? 1)%Z then 1
    else Rmax 0.1 (1 - (IZR position / IZR (total - 1)) * 0.9) in
  let upvotes := py_or (dict_get post "upvotes" (PInt 0)) (PInt 0) in
  let comments := py_or (dict_get post "comments" (PInt 0)) (PInt 0) in
  read_time <- py_min_int (py_or (dict_get post "readTime" (PInt 0)) (PInt 0)) 20 ;;
  lu <- log1p upvotes ;;
  lc <- log1p comments ;;
  rt <- py_div_int read_time 20 ;;
  let eng_score := 0.55 * lu + 0.40 * lc + 0.05 * rt in
  let eng_normalized := Rmin 1 (eng_score / 7) in
  Ok (0.5 * pos_score + 0.5 * eng_normalized).

Local Close Scope R_scope.

Record engagement : Type := {
  score : pyval;
  num_comments : pyval
}.

Record item : Type := {
  id : string;
  title : string;
  url : string;
  source_name : pyval;
  author_name : pyval;
  author_username : pyval;
  date : option pyval;
  summary : pyval;
  tags : pyval;
  read_time : pyval;
  item_engagement : option engagement;
  why_relevant : string;
  relevance : R
}.

(** The body of the loop of [parse_dailydev_response] on entry [i]. *)
Definition parse_post (total : Z) (i : nat) (post : pyval) : exc (option item) :=
  match post with
  | PDict p =>
      t <- py_strip (dict_get p "title" (PStr "")) ;;
      u <- py_strip (dict_get p "url" (PStr "")) ;;
      if String.eqb t "" || String.eqb u "" then Ok None
      else
        date_str <- date_prefix (dict_get p "createdAt" (PStr "")) ;;
        let author := py_or (dict_get p "author" (PDict [])) (PDict []) in
        an <- py_get author "name" (PStr "") ;;
        au <- py_get author "username" (PStr "") ;;
        let source := py_or (dict_get p "source" (PDict [])) (PDict []) in
        sn <- py_get source "name" (PStr "") ;;
        let upvotes := dict_get p "upvotes" PNone in
        let comments := dict_get p "comments" PNone in
        let eng :=
          if is_not_none upvotes || is_not_none comments
          then Some {| score := upvotes; num_comments := comments |}
          else None in
        let tgs := py_or (dict_get p "tags" (PList [])) (PList []) in
        let rt := dict_get p "readTime" PNone in
        r <- _compute_relevance (Z.of_nat i) total p ;;
        Ok (Some {| id := "DD" ++ str_of_Z (Z.of_nat i + 1);
                    title := t;
                    url := u;
                    source_name := sn;
                    author_name := an;
                    author_username := au;
                    date := date_str;
                    summary := dict_get p "summary" (PStr "");
                    tags := tgs;
                    read_time := rt;
                    item_engagement := eng;
                    why_relevant := "";
                    relevance := r |})
  | _ => Ok None
  end.

Definition parse_dailydev_response (response : dict) : exc (list item) :=
  let posts := dict_get response "posts" (PList []) in
  if negb (truthy posts) then Ok []
  else
    n <- py_len posts ;;
    ps <- py_iter posts ;;
    for_each (parse_post (Z.of_nat n)) 0 ps.

End Parse.

End Dailydev.

(** ** The video adapter: [scripts/lib/tubelab_yt.py] *)

Module Tubelab_yt.

Definition TUBELAB_SEARCH_URL : string := "https://api.tubelab.net/search/outliers".

Definition DEPTH_CONFIG : list (string * Z) :=
  [("quick", 10); ("default", 20); ("deep", 50)].

Section Search.
Context {L : PyLib} {T : Transport}.

Definition search_youtube (api_key topic from_date to_date depth : string)
    (mock_response : option dict) : io dict :=
  match mock_response with
  | Some mock => ret mock
  | None =>
      (limit <~ lift (config_get DEPTH_CONFIG depth) ;;
       let headers := [("Api-Key", api_key)] in
       let url := TUBELAB_SEARCH_URL ++ "?q=" ++ quote topic
                  ++ "&limit=" ++ str_of_Z limit in
       http_get url headers 30)%io
  end.

End Search.

Section Parse.
Context {L : PyLib}.

Local Open Scope R_scope.

Definition _compute_relevance (position total : Z) (video : dict) : exc R :=
  let pos_score :=
    if (total <=? 1)%Z then 1
    else Rmax 0.1 (1 - (IZR position / IZR (total - 1)) * 0.9) in
  let views := py_or (dict_get video "views" (PInt 0)) (PInt 0) in
  let likes := py_or (dict_get video "likes" (PInt 0)) (PInt 0) in
  let comments := py_or (dict_get video "comments" (PInt 0)) (PInt 0) in
  lv <- log1p views ;;
  ll <- log1p likes ;;
  lc <- log1p comments ;;
  let eng_score := 0.50 * lv + 0.30 * ll + 0.20 * lc in
  let eng_normalized := Rmin 1 (eng_score / 14) in
  Ok (0.4 * pos_score + 0.6 * eng_normalized).

Local Close Scope R_scope.

Record engagement : Type := {
  views : pyval;
  likes : pyval;
  num_comments : pyval
}.

Record item : Type := {
  id : string;
  title : string;
  url : string;
  channel_name : pyval;
  channel_id : pyval;
  date : option pyval;
  duration : pyval;
  thumbnail : pyval;
  item_engagement : option engagement;
  why_relevant : string;
  relevance : R
}.

(** The body of the loop of [parse_youtube_response] on entry [i]. *)
Definition parse_video (total : Z) (i : nat) (video : pyval) : exc (option item) :=
  match video with
  | PDict v =>
      let video_id := dict_get v "id" (PStr ("YT" ++ str_of_Z (Z.of_nat i + 1))) in
      t <- py_strip (dict_get v "title" (PStr "")) ;;
      if String.eqb t "" || negb (truthy video_id) then Ok None
      else
        let u := "https://www.youtube.com/watch?v=" ++ py_str video_id in
        date_str <- date_prefix (dict_get v "publishedAt" (PStr "")) ;;
        let vw := dict_get v "views" PNone in
        let lk := dict_get v "likes" PNone in
        let cm := dict_get v "comments" PNone in
        let eng :=
          if is_not_none vw || is_not_none lk || is_not_none cm
          then Some {| views := vw; likes := lk; num_comments := cm |}
          else None in
        r <- _compute_relevance (Z.of_nat i) total v ;;
        Ok (Some {| id := "YT" ++ str_of_Z (Z.of_nat i + 1);
                    title := t;
                    url := u;
                    channel_name := dict_get v "channelName" (PStr "");
                    channel_id := dict_get v "channelId" (PStr "");
                    date := date_str;
                    duration := dict_get v "duration" PNone;
                    thumbnail := dict_get v "thumbnail" (PStr "");
                    item_engagement := eng;
                    why_relevant := "";
                    relevance := r |})
  | _ => Ok None
  end.

Definition parse_youtube_response (response : dict) : exc (list item) :=
  let videos := dict_get response "videos" (PList []) in
  if negb (truthy videos) then Ok []
  else
    n <- py_len videos ;;
    vs <- py_iter videos ;;
    for_each (parse_video (Z.of_nat n)) 0 vs.

End Parse.

End Tubelab_yt.

(** ** The discussion adapter: [scripts/lib/openai_reddit.py] *)

Definition dq : string := String (ascii_of_nat 34) EmptyString.
Definition nl : string := String (ascii_of_nat 10) EmptyString.
Definition quoted (s : string) : string := dq ++ s ++ dq.
Definition lines (l : list string) : string := String.concat nl l.

(** [v == s] for a string literal [s] *)
Definition py_eq_str (v : pyval) (s : string) : bool :=
  match v with PStr t => String.eqb t s | _ => false end.

(** [v[k]] for a string key *)
Definition py_subscript (v : pyval) (k : string) : exc pyval :=
  match v with
  | PDict d => dict_item d k
  | _ => Raise (TypeError "indices must be integers")
  end.

(** Binding of the positional arguments [pos] and the keyword arguments [kw]
    of a call to the parameters of
    [def f(...)], each with its default if it has one: the environment of
    the body, or the [TypeError] of a call that does not fit.  Keywords are
    checked before the number of positional arguments, and that before the
    missing arguments; the texts of the last two messages are shortened. *)
Section Call.

Variable fname : string.
Variable params : list (string * option pyval).

Fixpoint bind_positional (ps : list (string * option pyval)) (pos : list pyval)
    : list (string * pyval) :=
  match ps, pos with
  | (p, _) :: ps', v :: pos' => (p, v) :: bind_positional ps' pos'
  | _, _ => []
  end.

Fixpoint bind_keywords (env : list (string * pyval)) (kw : list (string * pyval))
    : exc (list (string * pyval)) :=
  match kw with
  | [] => Ok env
  | (k, v) :: kw' =>
      match lookup k params with
      | None => Raise (TypeError (fname ++ "() got an unexpected keyword argument '"
                                  ++ k ++ "'"))
      | Some _ =>
          match lookup k env with
          | Some _ => Raise (TypeError (fname ++ "() got multiple values for argument"))
          | None => bind_keywords (env ++ [(k, v)])%list kw'
          end
      end
  end.

Fixpoint bind_defaults (env : list (string * pyval)) (ps : list (string * option pyval))
    : exc (list (string * pyval)) :=
  match ps with
  | [] => Ok env
  | (p, dflt) :: ps' =>
      match lookup p env, dflt with
      | Some _, _ => bind_defaults env ps'
      | None, Some v => bind_defaults (env ++ [(p, v)])%list ps'
      | None, None => Raise (TypeError (fname ++ "() missing a required positional argument"))
      end
  end.

Definition bind_args (pos : list pyval) (kw : list (string * pyval))
    : exc (list (string * pyval)) :=
  env <- bind_keywords (bind_positional params pos) kw ;;
  if (List.length params <? List.length pos)%nat
  then Raise (TypeError (fname ++ "() takes fewer positional arguments than were given"))
  else bind_defaults env params.

End Call.

Module Openai_reddit.

Definition OPENAI_RESPONSES_URL : string := "https://api.openai.com/v1/responses".

(** [REDDIT_SEARCH_PROMPT.format(topic=topic)] *)
Definition REDDIT_SEARCH_PROMPT (topic : string) : string :=
  lines [
    "Search Reddit for discussions about: " ++ topic;
    "";
    "Focus on threads from the last 30 days. Find 15-30 high-quality, relevant threads.";
    "";
    "IMPORTANT: Return ONLY valid JSON in this exact format, no other text:";
    "{";
    "  " ++ quoted "items" ++ ": [";
    "    {";
    "      " ++ quoted "title" ++ ": " ++ quoted "Thread title" ++ ",";
    "      " ++ quoted "url" ++ ": " ++ quoted "https://reddit.com/r/..." ++ ",";
    "      " ++ quoted "subreddit" ++ ": " ++ quoted "subreddit_name" ++ ",";
    "      " ++ quoted "date" ++ ": " ++ quoted "YYYY-MM-DD or null if unknown" ++ ",";
    "      " ++ quoted "why_relevant" ++ ": " ++ quoted "Brief explanation of relevance" ++ ",";
    "      " ++ quoted "relevance" ++ ": 0.85";
    "    }";
    "  ]";
    "}";
    "";
    "Rules:";
    "- relevance is 0.0 to 1.0 (1.0 = highly relevant)";
    "- date must be YYYY-MM-DD format or null";
    "- Include diverse subreddits if applicable";
    "- Prefer threads with substantive discussions";
    "- Do NOT include engagement metrics (upvotes, comments) - those will be fetched separately"
  ].

(** [def search_reddit(api_key, model, topic, mock_response=None)] *)
Definition search_reddit_params : list (string * option pyval) :=
  [("api_key", None); ("model", None); ("topic", None); ("mock_response", Some PNone)].

Section Search.
Context {L : PyLib} {T : Transport}.

(** The body of [search_reddit]. *)
Definition search_reddit_body (api_key model topic mock_response : pyval) : io pyval :=
  if is_not_none mock_response then ret mock_response
  else
    let headers :=
      [("Authorization", "Bearer " ++ py_str api_key);
       ("Content-Type", "application/json")] in
    let payload :=
      [("model", model);
       ("tools", PList [PDict [("type", PStr "web_search");
                               ("filters", PDict [("allowed_domains",
                                                   PList [PStr "reddit.com"])])]]);
       ("include", PList [PStr "web_search_call.action.sources"]);
       ("input", PStr (REDDIT_SEARCH_PROMPT (py_str topic)))] in
    (r <~ http_post OPENAI_RESPONSES_URL payload headers 60 ;; ret (PDict r))%io.

(** A call of [search_reddit] with positional arguments [pos] and keyword
    arguments [kw]. *)
Definition search_reddit (pos : list pyval) (kw : list (string * pyval)) : io pyval :=
  (env <~ lift (bind_args "search_reddit" search_reddit_params pos kw) ;;
   search_reddit_body (dict_get env "api_key" PNone) (dict_get env "model" PNone)
                      (dict_get env "topic" PNone) (dict_get env "mock_response" PNone))%io.

End Search.

(** The module defines no [_extract_core_subject]: looking the attribute up
    raises. *)
Definition _extract_core_subject (topic : string) : exc string :=
  Raise (AttributeError "module 'lib.openai_reddit' has no attribute '_extract_core_subject'").

(** [re.match(r'^\d{4}-\d{2}-\d{2}$', s)]; [$] also matches before a final
    newline. *)
Definition date_match (s : string) : bool :=
  match s with
  | String y1 (String y2 (String y3 (String y4 (String h1
      (String m1 (String m2 (String h2 (String d1 (String d2 rest))))))))) =>
      forallb is_digit [y1; y2; y3; y4; m1; m2; d1; d2]
      && Ascii.eqb h1 "-" && Ascii.eqb h2 "-"
      && (String.eqb rest "" || String.eqb rest nl)
  | _ => false
  end.

Record item : Type := {
  id : string;
  title : string;
  url : pyval;
  subreddit : string;
  date : pyval;
  why_relevant : string;
  relevance : R
}.

Section Parse.
Context {L : PyLib}.

(** [for c in content: ... break] *)
Fixpoint content_text (content : list pyval) (output_text : pyval) : pyval :=
  match content with
  | [] => output_text
  | PDict c :: content' =>
      if py_eq_str (dict_get c "type" PNone) "output_text"
      then dict_get c "text" (PStr "")
      else content_text content' output_text
  | _ :: content' => content_text content' output_text
  end.

(** [for item in output: ... if output_text: break] *)
Fixpoint output_items (output : list pyval) (output_text : pyval) : exc pyval :=
  match output with
  | [] => Ok output_text
  | it :: output' =>
      ot <- match it with
            | PDict d =>
                if py_eq_str (dict_get d "type" PNone) "message" then
                  content <- py_iter (dict_get d "content" (PList [])) ;;
                  Ok (content_text content output_text)
                else if dict_has d "text" then dict_item d "text"
                else Ok output_text
            | PStr s => Ok (PStr s)
            | _ => Ok output_text
            end ;;
      if truthy ot then Ok ot else output_items output' ot
  end.

(** [for choice in response["choices"]: if "message" in choice: ... break] *)
Fixpoint choices_text (choices : list pyval) (output_text : pyval) : exc pyval :=
  match choices with
  | [] => Ok output_text
  | choice :: choices' =>
      b <- py_contains "message" choice ;;
      if b then
        m <- py_subscript choice "message" ;;
        py_get m "content" (PStr "")
      else choices_text choices' output_text
  end.

(** "Try to find the output text" and "Also check for choices". *)
Definition find_output_text (response : pyval) : exc pyval :=
  has_output <- py_contains "output" response ;;
  ot <- (if has_output then
           out <- py_subscript response "output" ;;
           match out with
           | PStr s => Ok (PStr s)
           | PList l => output_items l (PStr "")
           | _ => Ok (PStr "")
           end
         else Ok (PStr "")) ;;
  if negb (truthy ot) then
    has_choices <- py_contains "choices" response ;;
    if has_choices then
      ch <- py_subscript response "choices" ;;
      cs <- py_iter ch ;;
      choices_text cs ot
    else Ok ot
  else Ok ot.

(** "Extract JSON from the response" *)
Definition extract_items (output_text : pyval) : exc pyval :=
  match output_text with
  | PStr s =>
      match re_search ("\{[\s\S]*" ++ quoted "items" ++ "[\s\S]*\}") s with
      | Some m =>
          match json_loads m with
          | Ok data => py_get data "items" (PList [])
          | Raise (JSONDecodeError _) => Ok (PList [])
          | Raise e => Raise e
          end
      | None => Ok (PList [])
      end
  | _ => Raise (TypeError "expected string or bytes-like object")
  end.

(** The body of the loop "Validate and clean items" on entry [i]. *)
Definition clean_item (i : nat) (it : pyval) : exc (option item) :=
  match it with
  | PDict d =>
      let u := dict_get d "url" (PStr "") in
      if negb (truthy u) then Ok None
      else
        has <- py_contains "reddit.com" u ;;
        if negb has then Ok None
        else
          r <- py_float (dict_get d "relevance" (PFloat 0.5)) ;;
          let d0 := dict_get d "date" PNone in
          Ok (Some {| id := "R" ++ str_of_Z (Z.of_nat i + 1);
                      title := strip (py_str (dict_get d "title" (PStr "")));
                      url := u;
                      subreddit := lstrip "r/" (strip (py_str (dict_get d "subreddit" (PStr ""))));
                      date := if truthy d0 && negb (date_match (py_str d0))
                              then PNone else d0;
                      why_relevant := strip (py_str (dict_get d "why_relevant" (PStr "")));
                      relevance := clamp01 r |})
  | _ => Ok None
  end.

(** The loop "Validate and clean items". *)
Definition clean_items (items : pyval) : exc (list item) :=
  its <- py_iter items ;;
  for_each clean_item 0 its.

Definition parse_reddit_response (response : pyval) : exc (list item) :=
  output_text <- find_output_text response ;;
  if negb (truthy output_text) then Ok []
  else
    items <- extract_items output_text ;;
    clean_items items.

End Parse.

End Openai_reddit.

(** ** The discussion search task: [scripts/last30days.py] *)

(** The key under which a set stores [v]; lists and dicts are unhashable. *)
Definition hash_key (v : pyval) : exc pyval :=
  match v with
  | PList _ | PDict _ => Raise (TypeError "unhashable type")
  | _ => Ok v
  end.

(** [a == b] on hashable values. *)
Definition scalar_eqb (a b : pyval) : bool :=
  match a, b with
  | PNone, PNone => true
  | PStr s, PStr t => String.eqb s t
  | _, _ =>
      match num_val a, num_val b with
      | Ok x, Ok y => if Req_dec_T x y then true else false
      | _, _ => false
      end
  end.

Module Last30days.

Section Task.
Context {L : PyLib} {T : Transport}.

Definition load_fixture (name : string) : io dict :=
  fun w => match fixture_file name w with
           | Some r => (r, w)
           | None => (Ok [], w)
           end.

(** [openai_reddit.search_reddit(config["OPENAI_API_KEY"],
    selected_models["openai"], topic, from_date, to_date, depth=depth)] *)
Definition call_search_reddit (config selected_models : dict)
    (topic from_date to_date depth : string) : io pyval :=
  (key <~ lift (dict_item config "OPENAI_API_KEY") ;;
   model <~ lift (dict_item selected_models "openai") ;;
   Openai_reddit.search_reddit
     [key; model; PStr topic; PStr from_date; PStr to_date]
     [("depth", PStr depth)])%io.

(** [{item.get("url") for item in reddit_items}] *)
Fixpoint url_set (items : list Openai_reddit.item) : exc (list pyval) :=
  match items with
  | [] => Ok []
  | it :: items' =>
      k <- hash_key (Openai_reddit.url it) ;;
      ks <- url_set items' ;;
      Ok (k :: ks)
  end.

(** [for item in retry_items: if item.get("url") not in existing_urls:
    reddit_items.append(item)].  The list is updated in place: the items
    appended before an exception stay in it. *)
Fixpoint append_new (existing_urls : list pyval)
    (retry_items reddit_items : list Openai_reddit.item)
    : exc unit * list Openai_reddit.item :=
  match retry_items with
  | [] => (Ok tt, reddit_items)
  | it :: retry_items' =>
      match hash_key (Openai_reddit.url it) with
      | Raise e => (Raise e, reddit_items)
      | Ok k =>
          if existsb (scalar_eqb k) existing_urls
          then append_new existing_urls retry_items' reddit_items
          else append_new existing_urls retry_items' (reddit_items ++ [it])%list
      end
  end.

(** The [try] block of the retry; [except Exception: pass] keeps the list
    as the block left it. *)
Definition retry (config selected_models : dict) (core from_date to_date depth : string)
    (reddit_items : list Openai_reddit.item) : io (list Openai_reddit.item) :=
  fun w =>
    match call_search_reddit config selected_models core from_date to_date depth w with
    | (Raise _, w') => (Ok reddit_items, w')
    | (Ok retry_raw, w') =>
        match Openai_reddit.parse_reddit_response retry_raw with
        | Raise _ => (Ok reddit_items, w')
        | Ok retry_items =>
            match url_set reddit_items with
            | Raise _ => (Ok reddit_items, w')
            | Ok existing_urls =>
                (Ok (snd (append_new existing_urls retry_items reddit_items)), w')
            end
        end
    end.

Definition _search_reddit (topic : string) (config selected_models : dict)
    (from_date to_date depth : string) (mock : bool)
    : io (list Openai_reddit.item * pyval * option string) :=
  (p <~ (if mock then
           f <~ load_fixture "openai_sample.json" ;; ret (PDict f, None)
         else
           try_except
             (r <~ call_search_reddit config selected_models topic from_date to_date depth ;;
              ret (r, None))
             (fun e =>
                if is_HTTPError e
                then ret (PDict [("error", PStr (exn_str e))],
                          Some ("API error: " ++ exn_str e))
                else ret (PDict [("error", PStr (exn_str e))],
                          Some (exn_name e ++ ": " ++ exn_str e)))) ;;
   let raw_openai := fst p in
   let reddit_error := snd p in
   reddit_items <~ lift (Openai_reddit.parse_reddit_response (py_or raw_openai (PDict []))) ;;
   let no_error := match reddit_error with
                   | None => true
                   | Some s => String.eqb s ""
                   end in
   reddit_items' <~
     (if (List.length reddit_items <? 5)%nat && negb mock && no_error then
        core <~ lift (Openai_reddit._extract_core_subject topic) ;;
        if negb (String.eqb (lower core) (lower topic))
        then retry config selected_models core from_date to_date depth reddit_items
        else ret reddit_items
      else ret reddit_items) ;;
   ret (reddit_items', raw_openai, reddit_error))%io.

(** The text with which a credential read from the configuration reaches a
    search function. *)
Definition credential (v : pyval) : string := py_str v.

(** What an [except] clause of a search task records: the error response
    and the error text. *)
Definition error_result (e : exn) : dict * option string :=
  if is_HTTPError e
  then ([("error", PStr (exn_str e))], Some ("API error: " ++ exn_str e))
  else ([("error", PStr (exn_str e))], Some (exn_name e ++ ": " ++ exn_str e)).

(** [raw or {}] for a dict [raw] is [raw]: an empty dict is replaced by an
    empty dict. *)
Definition _search_x (topic : string) (config selected_models : dict)
    (from_date to_date depth : string) (mock : bool)
    : io (list Twitterapi_x.item * dict * option string) :=
  (p <~ (if mock then
           f <~ load_fixture "twitterapi_sample.json" ;; ret (f, None)
         else
           try_except
             (key <~ lift (dict_item config "TWITTERAPI_IO_KEY") ;;
              r <~ Twitterapi_x.search_x (credential key) topic from_date to_date
                     depth None ;;
              ret (r, None))
             (fun e => ret (error_result e))) ;;
   let raw_xai := fst p in
   let x_error := snd p in
   x_items <~ lift (Twitterapi_x.parse_x_response raw_xai) ;;
   ret (x_items, raw_xai, x_error))%io.

Definition _search_dailydev (topic : string) (config : dict)
    (from_date to_date depth : string) (mock : bool)
    : io (list Dailydev.item * dict * option string) :=
  (p <~ (if mock then
           f <~ load_fixture "dailydev_sample.json" ;; ret (f, None)
         else
           try_except
             (key <~ lift (dict_item config "DAILYDEV_API_KEY") ;;
              r <~ Dailydev.search_dailydev (credential key) topic from_date to_date
                     depth None ;;
              ret (r, None))
             (fun e => ret (error_result e))) ;;
   let raw_dailydev := fst p in
   let dailydev_error := snd p in
   dailydev_items <~ lift (Dailydev.parse_dailydev_response raw_dailydev) ;;
   ret (dailydev_items, raw_dailydev, dailydev_error))%io.

Definition _search_youtube (topic : string) (config : dict)
    (from_date to_date depth : string) (mock : bool)
    : io (list Tubelab_yt.item * dict * option string) :=
  (p <~ (if mock then
           f <~ load_fixture "tubelab_sample.json" ;; ret (f, None)
         else
           try_except
             (key <~ lift (dict_item config "TUBELAB_API_KEY") ;;
              r <~ Tubelab_yt.search_youtube (credential key) topic from_date to_date
                     depth None ;;
              ret (r, None))
             (fun e => ret (error_result e))) ;;
   let raw_youtube := fst p in
   let youtube_error := snd p in
   youtube_items <~ lift (Tubelab_yt.parse_youtube_response raw_youtube) ;;
   ret (youtube_items, raw_youtube, youtube_error))%io.

End Task.

End Last30days.

(** ** Configuration: [scripts/lib/env.py] *)

(** [d[k] = v]: the binding of [k] is replaced where it stands, a new key
    is added at the end. *)
Fixpoint set_item {A : Type} (k : string) (v : A) (d : list (string * A))
    : list (string * A) :=
  match d with
  | [] => [(k, v)]
  | (k', v') :: d' =>
      if String.eqb k k' then (k, v) :: d' else (k', v') :: set_item k v d'
  end.

Module Env.

(** [line.partition(sep)] when [sep] occurs in [line]: the text before its
    first occurrence and the text after it; [None] when [sep not in line]. *)
Fixpoint partition (sep : ascii) (line : string) : option (string * string) :=
  match line with
  | EmptyString => None
  | String c line' =>
      if Ascii.eqb c sep then Some (EmptyString, line')
      else match partition sep line' with
           | Some (before, after) => Some (String c before, after)
           | None => None
           end
  end.

(** [s[-1]] and [s[:-1]] *)
Fixpoint last_char (s : string) : option ascii :=
  match s with
  | EmptyString => None
  | String c EmptyString => Some c
  | String _ s' => last_char s'
  end.

Fixpoint drop_last (s : string) : string :=
  match s with
  | EmptyString => EmptyString
  | String c EmptyString => EmptyString
  | String c s' => String c (drop_last s')
  end.

Definition is_quote (c : ascii) : bool :=
  Ascii.eqb c (ascii_of_nat 34) || Ascii.eqb c (ascii_of_nat 39).

(** "Remove quotes if present": a value whose first character is a double
    or a single quote and whose last character is the same one loses both,
    [value = value[1:-1]]. *)
Definition unquote (value : string) : string :=
  match value with
  | EmptyString => value
  | String c rest =>
      if is_quote c
         && match last_char value with Some l => Ascii.eqb l c | None => false end
      then drop_last rest
      else value
  end.

(** The body of [for line in f]. *)
Definition load_line (env : list (string * string)) (line0 : string)
    : list (string * string) :=
  let line := strip line0 in
  if String.eqb line "" || String.prefix "#" line then env
  else
    match partition "=" line with
    | None => env
    | Some (key0, value0) =>
        let key := strip key0 in
        let value := unquote (strip value0) in
        if negb (String.eqb key "") && negb (String.eqb value "")
        then set_item key value env
        else env
    end.

(** [load_env_file(path)]; [file] holds the lines of the file at [path],
    [None] when the path does not exist. *)
Definition load_env_file (file : option (list string)) : list (string * string) :=
  match file with
  | None => []
  | Some file_lines => fold_left load_line file_lines []
  end.

(** [m.get(k)] on a mapping from strings to strings *)
Definition env_get (m : list (string * string)) (k : string) : pyval :=
  match lookup k m with
  | Some v => PStr v
  | None => PNone
  end.

(** [m.get(k, default)] *)
Definition env_get_default (m : list (string * string)) (k default : string) : pyval :=
  match lookup k m with
  | Some v => PStr v
  | None => PStr default
  end.

(** [get_config()]; [environ] is [os.environ] and [file] the content of
    [CONFIG_FILE]. *)
Definition get_config (environ : list (string * string)) (file : option (list string))
    : dict :=
  let file_env := load_env_file file in
  [("OPENAI_API_KEY",
    py_or (env_get environ "OPENAI_API_KEY") (env_get file_env "OPENAI_API_KEY"));
   ("XAI_API_KEY",
    py_or (env_get environ "XAI_API_KEY") (env_get file_env "XAI_API_KEY"));
   ("OPENAI_MODEL_POLICY",
    py_or (env_get environ "OPENAI_MODEL_POLICY")
          (env_get_default file_env "OPENAI_MODEL_POLICY" "auto"));
   ("OPENAI_MODEL_PIN",
    py_or (env_get environ "OPENAI_MODEL_PIN") (env_get file_env "OPENAI_MODEL_PIN"));
   ("XAI_MODEL_POLICY",
    py_or (env_get environ "XAI_MODEL_POLICY")
          (env_get_default file_env "XAI_MODEL_POLICY" "latest"));
   ("XAI_MODEL_PIN",
    py_or (env_get environ "XAI_MODEL_PIN") (env_get file_env "XAI_MODEL_PIN"))].

Definition get_available_sources (config : dict) : string :=
  let has_openai := truthy (dict_get config "OPENAI_API_KEY" PNone) in
  let has_xai := truthy (dict_get config "XAI_API_KEY" PNone) in
  if has_openai && has_xai then "both"
  else if has_openai then "reddit"
  else if has_xai then "x"
  else "none".

Definition validate_sources (requested available : string) : string * option string :=
  if String.eqb available "none" then
    ("none",
     Some "No API keys configured. Please add at least one key to ~/.config/last30days/.env")
  else if String.eqb requested "auto" then (available, None)
  else if String.eqb requested "both" && negb (String.eqb available "both") then
    let missing := if String.eqb available "reddit" then "xAI" else "OpenAI" in
    ("none",
     Some ("Requested both sources but " ++ missing
           ++ " key is missing. Use --sources=auto to use available keys."))
  else if String.eqb requested "reddit" && String.eqb available "x" then
    ("none", Some "Requested Reddit but only xAI key is available.")
  else if String.eqb requested "x" && String.eqb available "reddit" then
    ("none", Some "Requested X but only OpenAI key is available.")
  else (requested, None).

End Env.

(** ** Concrete instances of the interfaces *)

(** A standard library whose [re.search] finds the whole text and whose
    [json.loads] decodes every text to [decoded]; the conversions of
    strings to numbers fail. *)
Definition lib_decoding (decoded : pyval) : PyLib := {|
  repr := fun _ => "";
  int_of_str := fun _ => None;
  float_of_str := fun _ => None;
  json_loads := fun _ => Ok decoded;
  re_search := fun _ text => Some text;
  datetime := unit;
  strptime := fun _ _ => Raise (ValueError "does not match format");
  strftime := fun _ _ => "";
  urlencode := fun _ => "";
  quote := fun s => s
|}.

Definition lib0 : PyLib := lib_decoding PNone.

(** The payload of the end-to-end example of the discussion adapter: entry
    A is a reddit.com thread titled "X", entry B is not on reddit.com. *)
Definition entry_A : dict :=
  [("title", PStr "X");
   ("url", PStr "https://www.reddit.com/r/rust/comments/1");
   ("relevance", PFloat 0.9)].

Definition entry_B : dict :=
  [("title", PStr "Y"); ("url", PStr "https://example.com/post")].

Definition payload_AB : pyval := PDict [("items", PList [PDict entry_A; PDict entry_B])].

Definition item_A : Openai_reddit.item := {|
  Openai_reddit.id := "R1";
  Openai_reddit.title := "X";
  Openai_reddit.url := PStr "https://www.reddit.com/r/rust/comments/1";
  Openai_reddit.subreddit := "";
  Openai_reddit.date := PNone;
  Openai_reddit.why_relevant := "";
  Openai_reddit.relevance := clamp01 0.9
|}.

(** The payload of a thread of the subreddit "r/rust", dated with a text
    that is no date. *)
Definition payload_rust : pyval :=
  PDict [("items",
          PList [PDict [("title", PStr "Borrow checker tips");
                        ("url", PStr "https://www.reddit.com/r/rust/comments/2");
                        ("subreddit", PStr "r/rust");
                        ("date", PStr "last week")]])].


(** A standard library whose [json.loads] rejects every text. *)
Definition lib_broken_json : PyLib := {|
  repr := fun _ => "";
  int_of_str := fun _ => None;
  float_of_str := fun _ => None;
  json_loads := fun _ => Raise (JSONDecodeError "Expecting value");
  re_search := fun _ text => Some text;
  datetime := unit;
  strptime := fun _ _ => Raise (ValueError "does not match format");
  strftime := fun _ _ => "";
  urlencode := fun _ => "";
  quote := fun s => s
|}.

(** A transport that plays a script: the world is the list of the outcomes
    of the requests still to come. *)
Definition play (w : list (exc dict)) : exc dict * list (exc dict) :=
  match w with
  | r :: w' => (r, w')
  | [] => (Raise (HTTPError "connection refused"), [])
  end.

Definition scripted : Transport := {|
  world := list (exc dict);
  http_get := fun _ _ _ => play;
  http_post := fun _ _ _ _ => play;
  fixture_file := fun _ _ => None
|}.

(** ** Runs of the page loop of [search_x] *)

Section Page_loop.
Context {L : PyLib} {T : Transport}.

(** The address of the request for one page. *)
Definition page_url (query : string) (cursor : pyval) : string :=
  Twitterapi_x.TWITTERAPI_SEARCH_URL ++ "?"
  ++ urlencode ([("query", PStr query); ("queryType", PStr "Top")]
                ++ (if truthy cursor then [("cursor", cursor)] else []))%list.

(** The variables of the loop before a page is requested: the index of the
    page, the cursor, the tweets collected so far, and the world. *)
Definition loop_state : Type := nat * pyval * list pyval * world.

(** One page fetched without error that lets the loop go on: it has tweets,
    announces a next page and gives a cursor. *)
Inductive full_page (query : string) (headers : list (string * string))
    : loop_state -> loop_state -> Prop :=
| full_page_intro page cursor all_tweets w response w' ts :
    http_get (page_url query cursor) headers 30 w = (Ok response, w') ->
    truthy (dict_get response "tweets" (PList [])) = true ->
    py_iter (dict_get response "tweets" (PList [])) = Ok ts ->
    truthy (dict_get response "has_next_page" PNone) = true ->
    truthy (dict_get response "next_cursor" PNone) = true ->
    full_page query headers
      (page, cursor, all_tweets, w)
      (S page, dict_get response "next_cursor" PNone, (all_tweets ++ ts)%list, w').

(** [k] such pages in a row. *)
Inductive full_pages (query : string) (headers : list (string * string))
    : nat -> loop_state -> loop_state -> Prop :=
| full_pages_O s : full_pages query headers 0 s s
| full_pages_S k s1 s2 s3 :
    full_page query headers s1 s2 ->
    full_pages query headers k s2 s3 ->
    full_pages query headers (S k) s1 s3.

End Page_loop.

(** A page fetched without error after which the loop stops: it has no
    tweets, or it announces no next page, or it gives no cursor.  [result]
    is the list of tweets the loop ends with. *)
Inductive last_page {L : PyLib} {T : Transport} (query : string)
    (headers : list (string * string)) : loop_state -> list pyval -> world -> Prop :=
| last_page_empty page cursor all_tweets w response w' :
    http_get (page_url query cursor) headers 30 w = (Ok response, w') ->
    truthy (dict_get response "tweets" (PList [])) = false ->
    last_page query headers (page, cursor, all_tweets, w) all_tweets w'
| last_page_end page cursor all_tweets w response w' ts :
    http_get (page_url query cursor) headers 30 w = (Ok response, w') ->
    truthy (dict_get response "tweets" (PList [])) = true ->
    py_iter (dict_get response "tweets" (PList [])) = Ok ts ->
    truthy (dict_get response "has_next_page" PNone) = false
    \/ truthy (dict_get response "next_cursor" PNone) = false ->
    last_page query headers (page, cursor, all_tweets, w) (all_tweets ++ ts)%list w'.

(** A transport that counts the requests made through it. *)
Definition counting (T : Transport) : Transport := {|
  world := (@world T * nat)%type;
  http_get := fun url headers timeout w =>
    let r := @http_get T url headers timeout (fst w) in
    (fst r, (snd r, S (snd w)));
  http_post := fun url payload headers timeout w =>
    let r := @http_post T url payload headers timeout (fst w) in
    (fst r, (snd r, S (snd w)));
  fixture_file := fun name w => @fixture_file T name (fst w)
|}.

(** ** Engagement counters of an item and the raw fields of its entry *)

(** A raw counter that is absent, null, or a number that is not negative. *)
Definition raw_nonneg (v : pyval) : Prop :=
  match v with
  | PNone | PBool _ => True
  | PInt z => 0 <= z
  | PFloat r => (0 <= r)%R
  | _ => False
  end.

(** A raw field that is not a negative number. *)
Definition not_negative (v : pyval) : Prop :=
  forall x, num_val v = Ok x -> (0 <= x)%R.

(** Null or an integer; null or an integer that is not negative. *)
Definition null_or_int (v : pyval) : Prop :=
  match v with PNone | PInt _ => True | _ => False end.


Definition null_or_nonneg_int (v : pyval) : Prop :=
  match v with PNone => True | PInt z => 0 <= z | _ => False end.

(** The counters of a social item are the raw fields of the tweet [t]
    coerced by [int(... or 0)]. *)
Definition x_counters_of {L : PyLib} (t : dict) (e : Twitterapi_x.engagement) : Prop :=
  py_int (py_or (dict_get t "likeCount" (PInt 0)) (PInt 0)) = Ok (Twitterapi_x.likes e)
  /\ py_int (py_or (dict_get t "retweetCount" (PInt 0)) (PInt 0))
     = Ok (Twitterapi_x.reposts e)
  /\ py_int (py_or (dict_get t "replyCount" (PInt 0)) (PInt 0))
     = Ok (Twitterapi_x.replies e)
  /\ py_int (py_or (dict_get t "quoteCount" (PInt 0)) (PInt 0))
     = Ok (Twitterapi_x.quotes e).

(** Each counter is non-negative when its raw field is. *)
Definition x_nonneg_kept (t : dict) (e : Twitterapi_x.engagement) : Prop :=
  (raw_nonneg (dict_get t "likeCount" (PInt 0)) -> 0 <= Twitterapi_x.likes e)
  /\ (raw_nonneg (dict_get t "retweetCount" (PInt 0)) -> 0 <= Twitterapi_x.reposts e)
  /\ (raw_nonneg (dict_get t "replyCount" (PInt 0)) -> 0 <= Twitterapi_x.replies e)
  /\ (raw_nonneg (dict_get t "quoteCount" (PInt 0)) -> 0 <= Twitterapi_x.quotes e).

(** The counters of an article item are the raw fields of the post [p],
    and those that are null or integers are null or non-negative. *)
Definition dailydev_counters_of (p : dict) (e : Dailydev.engagement) : Prop :=
  Dailydev.score e = dict_get p "upvotes" PNone
  /\ Dailydev.num_comments e = dict_get p "comments" PNone
  /\ (null_or_int (Dailydev.score e) -> null_or_nonneg_int (Dailydev.score e))
  /\ (null_or_int (Dailydev.num_comments e)
      -> null_or_nonneg_int (Dailydev.num_comments e)).

(** The same for a video item and the video [v]. *)
Definition youtube_counters_of (v : dict) (e : Tubelab_yt.engagement) : Prop :=
  Tubelab_yt.views e = dict_get v "views" PNone
  /\ Tubelab_yt.likes e = dict_get v "likes" PNone
  /\ Tubelab_yt.num_comments e = dict_get v "comments" PNone
  /\ (null_or_int (Tubelab_yt.views e) -> null_or_nonneg_int (Tubelab_yt.views e))
  /\ (null_or_int (Tubelab_yt.likes e) -> null_or_nonneg_int (Tubelab_yt.likes e))
  /\ (null_or_int (Tubelab_yt.num_comments e)
      -> null_or_nonneg_int (Tubelab_yt.num_comments e)).

(** [entry] is one of the entries of the list under key [k] of a response. *)
Definition entry_of (response : dict) (k : string) (entry : dict) : Prop :=
  exists es, py_iter (dict_get response k (PList [])) = Ok es /\ In (PDict entry) es.

(** ** The URL test of the discussion adapter, as the specification words it *)

(** The [url] field of an entry of the payload. *)
Definition raw_url (entry : pyval) : pyval :=
  match entry with
  | PDict d => dict_get d "url" (PStr "")
  | _ => PStr ""
  end.

(** The entry is an object whose URL is not empty and contains
    ["reddit.com"]. *)
Definition has_reddit_url (entry : pyval) : bool :=
  match entry with
  | PDict d =>
      truthy (dict_get d "url" (PStr ""))
      && match py_contains "reddit.com" (dict_get d "url" (PStr "")) with
         | Ok true => true
         | _ => false
         end
  | _ => false
  end.

(** The entries of the payload of a response: those of the list under
    ["items"] of the JSON object found in its output text; none when the
    response has no output text. *)
Definition payload_entries {L : PyLib} (response : pyval) : exc (list pyval) :=
  output_text <- Openai_reddit.find_output_text response ;;
  if negb (truthy output_text) then Ok []
  else
    items <- Openai_reddit.extract_items output_text ;;
    py_iter items.


(** The URL a tweet without a URL of its own gets from its author and id. *)
Definition status_url {L : PyLib} (t : dict) : pyval :=
  match dict_get t "author" (PDict []) with
  | PDict a =>
      PStr ("https://x.com/" ++ py_str (dict_get a "userName" (PStr ""))
            ++ "/status/" ++ py_str (dict_get t "id" (PStr "")))
  | _ => PNone
  end.

(** Every key and every value of the mapping is a non-empty text. *)
Definition all_filled (env : list (string * string)) : Prop :=
  forall k v, lookup k env = Some v -> k <> "" /\ v <> "".




(** An element of the output list that the search for the output text passes
    over: an object that is no message and has no "text", or a value that is
    neither an object nor a text. *)
Definition passed_over (it : pyval) : Prop :=
  match it with
  | PDict d => py_eq_str (dict_get d "type" PNone) "message" = false
               /\ dict_has d "text" = false
  | PStr _ => False
  | _ => True
  end.

(** A part of the content of a message that is not an output text. *)
Definition other_part (c : pyval) : Prop :=
  match c with
  | PDict d => py_eq_str (dict_get d "type" PNone) "output_text" = false
  | _ => True
  end.

(** * Properties *)

(** ** The query builder and the depth tiers *)

Lemma lookup_other {A : Type} (depth : string) (a b c : A) :
  depth <> "quick" -> depth <> "default" -> depth <> "deep" ->
  lookup depth [("quick", a); ("default", b); ("deep", c)] = None.
Proof.
  intros Hq Hd Hp. simpl.
  destruct (String.eqb_spec depth "quick") as [E | _]; [contradiction |].
  destruct (String.eqb_spec depth "default") as [E | _]; [contradiction |].
  destruct (String.eqb_spec depth "deep") as [E | _]; [contradiction |].
  reflexivity.
Qed.

Lemma config_get_other {A : Type} (depth : string) (a b c : A) :
  depth <> "quick" -> depth <> "default" -> depth <> "deep" ->
  config_get [("quick", a); ("default", b); ("deep", c)] depth = Ok b.
Proof.
  intros Hq Hd Hp. unfold config_get.
  rewrite (lookup_other depth a b c Hq Hd Hp). reflexivity.
Qed.

(** C3. [build_query] returns the topic followed by the window, the
    language filter, the retweet exclusion and [min_faves:m], where [m] is
    5 for quick, 3 for default and 2 for deep; the query for "Claude Code"
    over January 2026 at default depth is the string of the specification. *)
Theorem build_query_exact :
  (forall topic from_date to_date,
      Twitterapi_x.build_query topic from_date to_date "quick"
      = Ok (topic ++ " since:" ++ from_date ++ " until:" ++ to_date
            ++ " lang:en -filter:retweets min_faves:5")
      /\ Twitterapi_x.build_query topic from_date to_date "default"
         = Ok (topic ++ " since:" ++ from_date ++ " until:" ++ to_date
               ++ " lang:en -filter:retweets min_faves:3")
      /\ Twitterapi_x.build_query topic from_date to_date "deep"
         = Ok (topic ++ " since:" ++ from_date ++ " until:" ++ to_date
               ++ " lang:en -filter:retweets min_faves:2"))
  /\ Twitterapi_x.build_query "Claude Code" "2026-01-01" "2026-01-31" "default"
     = Ok "Claude Code since:2026-01-01 until:2026-01-31 lang:en -filter:retweets min_faves:3".
Proof.
  split.
  - intros topic from_date to_date. repeat split; reflexivity.
  - reflexivity.
Qed.

(** C10. A depth other than "quick", "default" and "deep" is treated as
    "default": [build_query] and [search_x] use [min_faves:3] and run the
    page loop for two pages, and the article and the video search ask for
    20 results. *)
Theorem unknown_depth_is_default {L : PyLib} {T : Transport}
    (depth api_key topic from_date to_date : string) (mock : option dict) :
  depth <> "quick" -> depth <> "default" -> depth <> "deep" ->
  Twitterapi_x.build_query topic from_date to_date depth
  = Twitterapi_x.build_query topic from_date to_date "default"
  /\ Twitterapi_x.build_query topic from_date to_date depth
     = Ok (topic ++ " since:" ++ from_date ++ " until:" ++ to_date
           ++ " lang:en -filter:retweets min_faves:3")
  /\ Twitterapi_x.search_x api_key topic from_date to_date depth mock
     = Twitterapi_x.search_x api_key topic from_date to_date "default" mock
  /\ Twitterapi_x.search_x api_key topic from_date to_date depth None
     = (all_tweets <~ Twitterapi_x.pages 2 0
          (topic ++ " since:" ++ from_date ++ " until:" ++ to_date
           ++ " lang:en -filter:retweets min_faves:3")
          [("X-API-Key", api_key)] PNone [] ;;
        ret [("tweets", PList all_tweets)])%io
  /\ Dailydev.search_dailydev api_key topic from_date to_date depth mock
     = Dailydev.search_dailydev api_key topic from_date to_date "default" mock
  /\ Dailydev.search_dailydev api_key topic from_date to_date depth None
     = http_get (Dailydev.DAILYDEV_SEARCH_URL ++ "?q=" ++ topic
                 ++ "&time=month&limit=20")
                [("Authorization", "Bearer " ++ api_key)] 30
  /\ Tubelab_yt.search_youtube api_key topic from_date to_date depth mock
     = Tubelab_yt.search_youtube api_key topic from_date to_date "default" mock
  /\ Tubelab_yt.search_youtube api_key topic from_date to_date depth None
     = http_get (Tubelab_yt.TUBELAB_SEARCH_URL ++ "?q=" ++ quote topic
                 ++ "&limit=20")
                [("Api-Key", api_key)] 30.
Proof.
  intros Hq Hd Hp.
  assert (Hx : config_get Twitterapi_x.DEPTH_CONFIG depth = Ok (3, 2))
    by (apply config_get_other; assumption).
  assert (Hdd : config_get Dailydev.DEPTH_CONFIG depth = Ok 20)
    by (apply config_get_other; assumption).
  assert (Hyt : config_get Tubelab_yt.DEPTH_CONFIG depth = Ok 20)
    by (apply config_get_other; assumption).
  assert (Hb : Twitterapi_x.build_query topic from_date to_date depth
               = Ok (topic ++ " since:" ++ from_date ++ " until:" ++ to_date
                     ++ " lang:en -filter:retweets min_faves:3")).
  { unfold Twitterapi_x.build_query. rewrite Hx. reflexivity. }
  repeat split.
  - rewrite Hb. reflexivity.
  - exact Hb.
  - unfold Twitterapi_x.search_x. destruct mock; [reflexivity |].
    rewrite Hx, Hb. reflexivity.
  - unfold Twitterapi_x.search_x. rewrite Hx, Hb. reflexivity.
  - unfold Dailydev.search_dailydev. destruct mock; [reflexivity |].
    rewrite Hdd. reflexivity.
  - unfold Dailydev.search_dailydev. rewrite Hdd. reflexivity.
  - unfold Tubelab_yt.search_youtube. destruct mock; [reflexivity |].
    rewrite Hyt. reflexivity.
  - unfold Tubelab_yt.search_youtube. rewrite Hyt. reflexivity.
Qed.

Lemma unknown_depth_is_default_witness :
  Twitterapi_x.build_query "rust" "2026-01-01" "2026-01-31" "extreme"
  = Ok "rust since:2026-01-01 until:2026-01-31 lang:en -filter:retweets min_faves:3".
Proof.
  refine (proj1 (proj2 (@unknown_depth_is_default lib0 scripted "extreme" "key"
                          "rust" "2026-01-01" "2026-01-31" None _ _ _)));
    discriminate.
Defined.

(** ** Transport errors in [search_x] *)

Section Search_x_errors.
Context {L : PyLib} {T : Transport}.
Variables (query : string) (headers : list (string * string)).

Lemma pages_full_page (s1 s2 : loop_state) (n : nat) :
  full_page query headers s1 s2 ->
  let '(page1, cursor1, all1, w1) := s1 in
  let '(page2, cursor2, all2, w2) := s2 in
  Twitterapi_x.pages (S n) page1 query headers cursor1 all1 w1
  = Twitterapi_x.pages n page2 query headers cursor2 all2 w2.
Proof.
  intros H. destruct H as [page cursor all_tweets w response w' ts Hget Htw Hit Hnext Hcur].
  cbn [Twitterapi_x.pages]. unfold page_url in Hget.
  rewrite Hget, Htw, Hit, Hnext, Hcur. reflexivity.
Qed.

Lemma pages_full_pages (k : nat) (s1 s2 : loop_state) :
  full_pages query headers k s1 s2 ->
  forall n,
    let '(page1, cursor1, all1, w1) := s1 in
    let '(page2, cursor2, all2, w2) := s2 in
    page2 = (page1 + k)%nat
    /\ Twitterapi_x.pages (k + n) page1 query headers cursor1 all1 w1
       = Twitterapi_x.pages n page2 query headers cursor2 all2 w2.
Proof.
  induction 1 as [[[[page cursor] all_tweets] w]
                 | k [[[p1 c1] a1] w1] [[[p2 c2] a2] w2] [[[p3 c3] a3] w3] Hstep Hrest IH];
    intros n.
  - split; [lia | reflexivity].
  - specialize (IH n). destruct IH as [Hp IH].
    pose proof (pages_full_page _ _ (k + n) Hstep) as Hone. cbn beta iota in Hone.
    assert (Hp2 : p2 = S p1) by (inversion Hstep; reflexivity).
    split; [lia |].
    change (S k + n)%nat with (S (k + n)). rewrite Hone. exact IH.
Qed.

Lemma pages_http_error (n page : nat) (cursor : pyval) (all_tweets : list pyval)
    (w w' : world) (msg : string) :
  http_get (page_url query cursor) headers 30 w = (Raise (HTTPError msg), w') ->
  Twitterapi_x.pages (S n) page query headers cursor all_tweets w
  = (if Nat.eqb page 0 then Raise (HTTPError msg) else Ok all_tweets, w').
Proof.
  intros Hget. cbn [Twitterapi_x.pages]. unfold page_url in Hget.
  rewrite Hget. cbn [is_HTTPError]. destruct (Nat.eqb page 0); reflexivity.
Qed.

End Search_x_errors.

(** C4. In [search_x], when the request for the first page fails with an
    HTTP error the error is raised to the caller; when [k >= 1] pages were
    fetched and the request for the next page, still under the page cap,
    fails with an HTTP error, the search returns the tweets of those [k]
    pages. *)
Theorem search_x_http_error {L : PyLib} {T : Transport}
    (api_key topic from_date to_date depth query : string) (c : Z * Z)
    (k : nat) (cursor : pyval) (all_tweets : list pyval)
    (w w1 w' : world) (msg : string) :
  config_get Twitterapi_x.DEPTH_CONFIG depth = Ok c ->
  Twitterapi_x.build_query topic from_date to_date depth = Ok query ->
  full_pages query [("X-API-Key", api_key)] k (0%nat, PNone, [], w)
             (k, cursor, all_tweets, w1) ->
  (k < Z.to_nat (snd c))%nat ->
  http_get (page_url query cursor) [("X-API-Key", api_key)] 30 w1
  = (Raise (HTTPError msg), w') ->
  Twitterapi_x.search_x api_key topic from_date to_date depth None w
  = (if Nat.eqb k 0 then Raise (HTTPError msg)
     else Ok [("tweets", PList all_tweets)], w').
Proof.
  intros Hc Hq Hrun Hk Hget.
  unfold Twitterapi_x.search_x, iobind, lift. rewrite Hc, Hq.
  destruct (Z.to_nat (snd c)) as [| cap] eqn:Hcap; [lia |].
  pose proof (pages_full_pages query _ k _ _ Hrun (S (cap - k))) as Hpages.
  cbn beta iota in Hpages. destruct Hpages as [_ Hpages].
  replace (k + S (cap - k))%nat with (S cap) in Hpages by lia.
  rewrite Hpages.
  rewrite (pages_http_error query _ (cap - k) k cursor all_tweets w1 w' msg Hget).
  destruct (Nat.eqb k 0); reflexivity.
Qed.

Lemma search_x_http_error_witness :
  @Twitterapi_x.search_x lib0 scripted "key" "rust" "2026-01-01" "2026-01-31" "default" None
    [Ok [("tweets", PList [PStr "t1"; PStr "t2"]);
         ("has_next_page", PBool true); ("next_cursor", PStr "c2")];
     Raise (HTTPError "HTTP 500")]
  = (Ok [("tweets", PList [PStr "t1"; PStr "t2"])], []).
Proof.
  refine (@search_x_http_error lib0 scripted "key" "rust" "2026-01-01" "2026-01-31"
            "default" _ (3, 2) 1%nat (PStr "c2") [PStr "t1"; PStr "t2"]
            _ [Raise (HTTPError "HTTP 500")] [] "HTTP 500" _ _ _ _ _).
  - reflexivity.
  - reflexivity.
  - eapply full_pages_S; [| apply full_pages_O].
    exact (@full_page_intro lib0 scripted _ _ 0%nat PNone []
             [Ok [("tweets", PList [PStr "t1"; PStr "t2"]);
                  ("has_next_page", PBool true); ("next_cursor", PStr "c2")];
              Raise (HTTPError "HTTP 500")]
             [("tweets", PList [PStr "t1"; PStr "t2"]);
              ("has_next_page", PBool true); ("next_cursor", PStr "c2")]
             [Raise (HTTPError "HTTP 500")] [PStr "t1"; PStr "t2"]
             eq_refl eq_refl eq_refl eq_refl eq_refl).
  - simpl. lia.
  - reflexivity.
Defined.

(** ** Evaluation of the numeric helpers *)

(** Decide the comparisons of real constants met while evaluating a definition. *)
Ltac real_decide :=
  repeat match goal with
    | |- context [Rlt_dec ?a ?b] => destruct (Rlt_dec a b); try lra
    | |- context [Rle_dec ?a ?b] => destruct (Rle_dec a b); try lra
    | |- context [Req_dec_T ?a ?b] => destruct (Req_dec_T a b); try lra
    end.

Lemma py_max0_int (z : Z) : py_max0 (PInt z) = Ok (PInt (Z.max 0 z)).
Proof.
  unfold py_max0, num_val, ebind.
  destruct (Rlt_dec 0 (IZR z)) as [H | H].
  - apply lt_IZR in H. rewrite Z.max_r by lia. reflexivity.
  - assert (z <= 0)%Z by (apply le_IZR; lra). rewrite Z.max_l by lia. reflexivity.
Qed.

Ltac small := first [lia | reflexivity | assumption].

Lemma float_of_int_fits (z : Z) : fits_float z -> float_of_int z = Ok (IZR z).
Proof. unfold fits_float, float_of_int. intros ->. reflexivity. Qed.

Lemma float_of_int_inv (z : Z) (r : R) :
  float_of_int z = Ok r -> fits_float z /\ r = IZR z.
Proof.
  unfold fits_float, float_of_int. destruct (Z.abs z <? float_limit); [| discriminate].
  intros E. injection E as <-. split; reflexivity.
Qed.

Lemma as_float_num_val (v : pyval) (r : R) : as_float v = Ok r -> num_val v = Ok r.
Proof.
  destruct v; cbn [as_float num_val]; try exact (fun H => H).
  intros H. apply float_of_int_inv in H. destruct H as [_ ->]. reflexivity.
Qed.

Lemma log1p_int (z : Z) :
  0 <= z -> fits_float z -> log1p (PInt z) = Ok (ln (1 + IZR z)).
Proof.
  intros Hz Hf. unfold log1p. cbn [as_float]. rewrite (float_of_int_fits z Hf).
  cbn [ebind]. apply IZR_le in Hz. real_decide. reflexivity.
Qed.

Lemma log1p_int_inv (z : Z) (r : R) : log1p (PInt z) = Ok r -> 0 <= z.
Proof.
  unfold log1p. cbn [as_float].
  destruct (float_of_int z) as [x |] eqn:E; cbn [ebind]; [| discriminate].
  apply float_of_int_inv in E. destruct E as [_ ->].
  destruct (Rle_dec (IZR z) (-1)) as [H | H]; [discriminate |].
  intros _. assert (-1 < z)%Z by (apply lt_IZR; lra). lia.
Qed.


Lemma py_div_int_inv (v : pyval) (n : Z) (q : R) :
  py_div_int v n = Ok q -> exists x, num_val v = Ok x /\ q = (x / IZR n)%R.
Proof.
  destruct v as [| b | z | r | | |]; cbn [py_div_int num_val ebind];
    try discriminate.
  - intros E. injection E as <-. eexists. split; reflexivity.
  - destruct (Z.abs z <? n * float_limit); [| discriminate].
    intros E. injection E as <-. eexists. split; reflexivity.
  - intros E. injection E as <-. eexists. split; reflexivity.
Qed.

Lemma py_div_int_small (z n : Z) :
  (Z.abs z <? n * float_limit) = true ->
  py_div_int (PInt z) n = Ok (IZR z / IZR n)%R.
Proof. cbn [py_div_int]. intros ->. reflexivity. Qed.

Lemma log1p_num_val (v : pyval) (r : R) :
  log1p v = Ok r -> exists x, num_val v = Ok x.
Proof.
  unfold log1p. destruct (as_float v) as [x |] eqn:E; cbn [ebind]; [| discriminate].
  intros _. exists x. exact (as_float_num_val v x E).
Qed.

Lemma log1p_nonneg (v : pyval) (x r : R) :
  num_val v = Ok x -> (0 <= x)%R -> log1p v = Ok r -> (0 <= r)%R.
Proof.
  intros Hv Hx. unfold log1p.
  destruct (as_float v) as [x' |] eqn:Hv'; cbn [ebind]; [| discriminate].
  apply as_float_num_val in Hv'. rewrite Hv in Hv'. injection Hv' as <-.
  destruct (Rle_dec x (-1)); [discriminate |].
  intros E. injection E as <-.
  rewrite <- ln_1. destruct (Req_dec_T x 0) as [-> | Hne].
  - rewrite Rplus_0_r. lra.
  - left. apply ln_increasing; lra.
Qed.

Lemma py_min_int_int (z n : Z) : py_min_int (PInt z) n = Ok (PInt (Z.min z n)).
Proof.
  unfold py_min_int, num_val, ebind.
  destruct (Rlt_dec (IZR n) (IZR z)) as [H | H].
  - apply lt_IZR in H. rewrite Z.min_r by lia. reflexivity.
  - assert (z <= n)%Z by (apply le_IZR; lra). rewrite Z.min_l by lia. reflexivity.
Qed.

Lemma clamp01_bounds (x : R) : (0 <= clamp01 x <= 1)%R.
Proof.
  unfold clamp01, Rmin, Rmax.
  destruct (Rle_dec 0 x); destruct (Rle_dec 1 _); lra.
Qed.

Lemma clamp01_id (x : R) : (0 <= x <= 1)%R -> clamp01 x = x.
Proof.
  intros H. unfold clamp01, Rmin, Rmax.
  destruct (Rle_dec 0 x); destruct (Rle_dec 1 _); lra.
Qed.

(** ** Position and relevance *)

Section Position.
Local Open Scope R_scope.

(** The position term at the first and at the last position of [N >= 2]
    results. *)
Lemma first_fraction (N : Z) : IZR 0 / IZR (N - 1) = 0.
Proof. unfold Rdiv. apply Rmult_0_l. Qed.

Lemma last_fraction (N : Z) : (1 < N)%Z -> IZR (N - 1) / IZR (N - 1) = 1.
Proof.
  intros H. unfold Rdiv. apply Rinv_r.
  apply not_0_IZR. lia.
Qed.

(** Break the sequence of possibly raising steps of a relevance formula,
    keeping the runs in which every step returns. *)
Ltac split_steps H :=
  repeat match type of H with
    | context [ebind ?m _] =>
        let E := fresh "E" in
        destruct m eqn:E; cbn [ebind] in H |- *; [| discriminate H]
    end.

Lemma x_relevance_position (N : Z) (tweet : dict) (r1 : R) :
  (1 <= N)%Z ->
  Twitterapi_x._compute_relevance (N - 1) N tweet = Ok r1 ->
  exists r0, Twitterapi_x._compute_relevance 0 N tweet = Ok r0 /\ r1 <= r0.
Proof.
  intros HN H. unfold Twitterapi_x._compute_relevance in *.
  split_steps H. injection H as <-.
  eexists. split; [reflexivity |].
  destruct (Z.leb_spec N 1) as [Hle | Hgt].
  - lra.
  - rewrite first_fraction, (last_fraction N Hgt). lra.
Qed.

Lemma dailydev_relevance_position (N : Z) (post : dict) (r1 : R) :
  (1 <= N)%Z ->
  Dailydev._compute_relevance (N - 1) N post = Ok r1 ->
  exists r0, Dailydev._compute_relevance 0 N post = Ok r0 /\ r1 <= r0.
Proof.
  intros HN H. unfold Dailydev._compute_relevance in *.
  split_steps H. injection H as <-.
  eexists. split; [reflexivity |].
  destruct (Z.leb_spec N 1) as [Hle | Hgt].
  - lra.
  - rewrite first_fraction, (last_fraction N Hgt).
    unfold Rmax. real_decide.
Qed.

Lemma youtube_relevance_position (N : Z) (video : dict) (r1 : R) :
  (1 <= N)%Z ->
  Tubelab_yt._compute_relevance (N - 1) N video = Ok r1 ->
  exists r0, Tubelab_yt._compute_relevance 0 N video = Ok r0 /\ r1 <= r0.
Proof.
  intros HN H. unfold Tubelab_yt._compute_relevance in *.
  split_steps H. injection H as <-.
  eexists. split; [reflexivity |].
  destruct (Z.leb_spec N 1) as [Hle | Hgt].
  - lra.
  - rewrite first_fraction, (last_fraction N Hgt).
    unfold Rmax. real_decide.
Qed.

(** The relevance of an entry without engagement fields. *)
Lemma x_relevance_plain (position total : Z) :
  Twitterapi_x._compute_relevance position total []
  = Ok (0.6 * (if (total <=? 1)%Z then 1
               else 1 - 0.5 * (IZR position / IZR (total - 1)))
        + 0.4 * Rmin 1 ((0.55 * ln (1 + 0) + 0.25 * ln (1 + 0)
                         + 0.15 * ln (1 + 0) + 0.05 * ln (1 + 0)) / 7)).
Proof.
  unfold Twitterapi_x._compute_relevance.
  cbn [dict_get lookup py_or truthy Z.eqb negb].
  rewrite py_max0_int. cbn [ebind Z.max Z.compare].
  rewrite log1p_int by small. reflexivity.
Qed.

Lemma dailydev_relevance_plain (position total : Z) :
  Dailydev._compute_relevance position total []
  = Ok (0.5 * (if (total <=? 1)%Z then 1
               else Rmax 0.1 (1 - (IZR position / IZR (total - 1)) * 0.9))
        + 0.5 * Rmin 1 ((0.55 * ln (1 + 0) + 0.40 * ln (1 + 0)
                         + 0.05 * (0 / 20)) / 7)).
Proof.
  unfold Dailydev._compute_relevance.
  cbn [dict_get lookup py_or truthy Z.eqb negb].
  rewrite py_min_int_int. cbn [ebind Z.min Z.compare].
  rewrite log1p_int by small. reflexivity.
Qed.

Lemma youtube_relevance_plain (position total : Z) :
  Tubelab_yt._compute_relevance position total []
  = Ok (0.4 * (if (total <=? 1)%Z then 1
               else Rmax 0.1 (1 - (IZR position / IZR (total - 1)) * 0.9))
        + 0.6 * Rmin 1 ((0.50 * ln (1 + 0) + 0.30 * ln (1 + 0)
                         + 0.20 * ln (1 + 0)) / 14)).
Proof.
  unfold Tubelab_yt._compute_relevance.
  cbn [dict_get lookup py_or truthy Z.eqb negb].
  rewrite log1p_int by small. reflexivity.
Qed.

End Position.

(** C7. For each of the three relevance formulas and any total [N >= 1]:
    for a fixed entry, whenever the formula returns at position [N - 1] it
    returns at position 0 as well, and the relevance at position 0 is at
    least the relevance at position [N - 1]. *)
Theorem position_zero_dominates (N : Z) :
  1 <= N ->
  (forall tweet r1,
      Twitterapi_x._compute_relevance (N - 1) N tweet = Ok r1 ->
      exists r0, Twitterapi_x._compute_relevance 0 N tweet = Ok r0 /\ (r1 <= r0)%R)
  /\ (forall post r1,
         Dailydev._compute_relevance (N - 1) N post = Ok r1 ->
         exists r0, Dailydev._compute_relevance 0 N post = Ok r0 /\ (r1 <= r0)%R)
  /\ (forall video r1,
         Tubelab_yt._compute_relevance (N - 1) N video = Ok r1 ->
         exists r0, Tubelab_yt._compute_relevance 0 N video = Ok r0 /\ (r1 <= r0)%R).
Proof.
  intros HN. repeat split.
  - intros tweet r1. exact (x_relevance_position N tweet r1 HN).
  - intros post r1. exact (dailydev_relevance_position N post r1 HN).
  - intros video r1. exact (youtube_relevance_position N video r1 HN).
Qed.

Lemma position_zero_dominates_witness :
  (exists r0, Twitterapi_x._compute_relevance 0 10 [] = Ok r0
              /\ (0.6 * (1 - 0.5 * (IZR 9 / IZR 9))
                  + 0.4 * Rmin 1 ((0.55 * ln (1 + 0) + 0.25 * ln (1 + 0)
                                   + 0.15 * ln (1 + 0) + 0.05 * ln (1 + 0)) / 7)
                  <= r0)%R)
  /\ (exists r0, Dailydev._compute_relevance 0 10 [] = Ok r0
                 /\ (0.5 * Rmax 0.1 (1 - (IZR 9 / IZR 9) * 0.9)
                     + 0.5 * Rmin 1 ((0.55 * ln (1 + 0) + 0.40 * ln (1 + 0)
                                      + 0.05 * (0 / 20)) / 7)
                     <= r0)%R)
  /\ (exists r0, Tubelab_yt._compute_relevance 0 10 [] = Ok r0
                 /\ (0.4 * Rmax 0.1 (1 - (IZR 9 / IZR 9) * 0.9)
                     + 0.6 * Rmin 1 ((0.50 * ln (1 + 0) + 0.30 * ln (1 + 0)
                                      + 0.20 * ln (1 + 0)) / 14)
                     <= r0)%R).
Proof.
  destruct (position_zero_dominates 10 ltac:(lia)) as (Hx & Hd & Hy).
  split; [| split].
  - exact (Hx [] _ (x_relevance_plain 9 10)).
  - exact (Hd [] _ (dailydev_relevance_plain 9 10)).
  - exact (Hy [] _ (youtube_relevance_plain 9 10)).
Defined.

(** ** Evaluation of the parse functions on concrete responses *)

(** Replace the string operations on literals by their values. *)
Ltac eval_strings :=
  repeat match goal with
    | |- context [strip ?s] =>
        let v := eval vm_compute in (strip s) in progress change (strip s) with v
    | |- context [lstrip ?c ?s] =>
        let v := eval vm_compute in (lstrip c s) in progress change (lstrip c s) with v
    | |- context [str_take ?n ?s] =>
        let v := eval vm_compute in (str_take n s) in progress change (str_take n s) with v
    | |- context [str_of_Z ?z] =>
        let v := eval vm_compute in (str_of_Z z) in progress change (str_of_Z z) with v
    | |- context [str_contains ?a ?s] =>
        let v := eval vm_compute in (str_contains a s) in
        progress change (str_contains a s) with v
    | |- context [Openai_reddit.date_match ?s] =>
        let v := eval vm_compute in (Openai_reddit.date_match s) in
        progress change (Openai_reddit.date_match s) with v
    end.

(** Run the steps of a parse function that do not touch real numbers. *)
Ltac eval_py :=
  cbn [dict_get dict_has dict_item lookup String.eqb Ascii.eqb Bool.eqb truthy negb orb
       andb py_or py_len py_iter py_strip py_take py_get py_str py_int py_float
       py_contains py_subscript py_eq_str is_not_none is_dict date_prefix num_val
       ebind for_each List.length String.length Nat.leb Z.eqb Z.leb Z.of_nat Z.add Z.max
       Z.min Z.compare Pos.compare Pos.compare_cont Pos.add Pos.of_succ_nat Pos.succ
       append map fst snd].

Ltac eval_parse := repeat (progress (eval_py; eval_strings)).

Lemma ln_1_0 : ln (1 + 0) = 0%R.
Proof. rewrite Rplus_0_r. apply ln_1. Qed.

(** C1. The article adapter returns a relevance outside [0, 1]: for the
    response with the single post [{"title": "T", "url":
    "https://example.com/a", "readTime": -10000}], [parse_dailydev_response]
    returns one item whose relevance is [-9/7], a negative number. *)
Theorem dailydev_relevance_negative {L : PyLib} :
  exists it,
    Dailydev.parse_dailydev_response
      [("posts", PList [PDict [("title", PStr "T");
                               ("url", PStr "https://example.com/a");
                               ("readTime", PInt (-10000))]])]
    = Ok [it]
    /\ Dailydev.relevance it = (- 9 / 7)%R
    /\ (Dailydev.relevance it < 0)%R.
Proof.
  unfold Dailydev.parse_dailydev_response. eval_parse.
  unfold Dailydev.parse_post. eval_parse.
  unfold Dailydev._compute_relevance. eval_parse.
  rewrite py_min_int_int. eval_parse.
  rewrite log1p_int by small. eval_parse.
  eexists. split; [reflexivity |].
  cbn [Dailydev.relevance]. rewrite ln_1_0. eval_py.
  rewrite Rmin_right by lra. split; lra.
Qed.

(** C6. The article and the video adapter pass a malformed date through:
    with ["createdAt": "sometime last week"] the item's date is the string
    ["sometime l"], which is not of the form YYYY-MM-DD; and a [createdAt]
    that is a number makes [parse_dailydev_response] raise. *)
Theorem malformed_date_kept {L : PyLib} :
  (exists it,
      Dailydev.parse_dailydev_response
        [("posts", PList [PDict [("title", PStr "T");
                                 ("url", PStr "https://example.com/a");
                                 ("createdAt", PStr "sometime last week")]])]
      = Ok [it]
      /\ Dailydev.date it = Some (PStr "sometime l"))
  /\ (exists it,
         Tubelab_yt.parse_youtube_response
           [("videos", PList [PDict [("id", PStr "abc");
                                     ("title", PStr "T");
                                     ("publishedAt", PStr "sometime last week")]])]
         = Ok [it]
         /\ Tubelab_yt.date it = Some (PStr "sometime l"))
  /\ Openai_reddit.date_match "sometime l" = false
  /\ Dailydev.parse_dailydev_response
       [("posts", PList [PDict [("title", PStr "T");
                                ("url", PStr "https://example.com/a");
                                ("createdAt", PInt 20260115)]])]
     = Raise (TypeError "object has no len()").
Proof.
  split; [| split; [| split]].
  - unfold Dailydev.parse_dailydev_response. eval_parse.
    unfold Dailydev.parse_post. eval_parse.
    unfold Dailydev._compute_relevance. eval_parse.
    rewrite py_min_int_int. eval_parse.
    rewrite log1p_int by small. eval_parse.
    eexists. split; reflexivity.
  - unfold Tubelab_yt.parse_youtube_response. eval_parse.
    unfold Tubelab_yt.parse_video. eval_parse.
    unfold Tubelab_yt._compute_relevance. eval_parse.
    rewrite log1p_int by small. eval_parse.
    eexists. split; reflexivity.
  - reflexivity.
  - unfold Dailydev.parse_dailydev_response. eval_parse.
    unfold Dailydev.parse_post. eval_parse. reflexivity.
Qed.

(** ** The loop over the entries *)

Lemma for_each_In {A B : Type} (body : nat -> A -> exc (option B))
    (l : list A) (i : nat) (out : list B) (b : B) :
  for_each body i l = Ok out -> In b out ->
  exists j x, nth_error l j = Some x /\ body (i + j)%nat x = Ok (Some b).
Proof.
  revert i out. induction l as [| x l IH]; intros i out Hrun Hin.
  - cbn in Hrun. injection Hrun as <-. destruct Hin.
  - cbn [for_each] in Hrun.
    destruct (body i x) as [o |] eqn:Hb; cbn [ebind] in Hrun; [| discriminate].
    destruct (for_each body (S i) l) as [rest |] eqn:Hrest; cbn [ebind] in Hrun;
      [| discriminate].
    injection Hrun as <-.
    assert (Hcase : o = Some b \/ In b rest).
    { destruct o as [b' |]; [| right; exact Hin].
      destruct Hin as [-> | Hin]; [left; reflexivity | right; exact Hin]. }
    destruct Hcase as [-> | Hin'].
    + exists 0%nat, x. split; [reflexivity |].
      rewrite Nat.add_0_r. exact Hb.
    + destruct (IH (S i) rest Hrest Hin') as (j & y & Hnth & Hy).
      exists (S j), y. split; [exact Hnth |].
      rewrite Nat.add_succ_r. exact Hy.
Qed.

(** ** Engagement counters *)

Lemma Int_part_nonneg (r : R) : (0 <= r)%R -> 0 <= Int_part r.
Proof.
  intros Hr. unfold Int_part.
  destruct (archimed r) as [Hup _].
  assert (0 < up r) by (apply lt_IZR; lra). lia.
Qed.

Lemma py_int_nonneg {L : PyLib} (v : pyval) (z : Z) :
  raw_nonneg v -> py_int (py_or v (PInt 0)) = Ok z -> 0 <= z.
Proof.
  intros Hv. unfold py_or.
  destruct v as [| b | n | r | s | l | d]; cbn [raw_nonneg] in Hv; try contradiction.
  - cbn. intros E. injection E as <-. lia.
  - destruct b; cbn; intros E; injection E as <-; lia.
  - cbn [truthy]. destruct (n =? 0); cbn; intros E; injection E as <-; lia.
  - cbn [truthy]. destruct (Req_dec_T r 0); cbn [py_int]; intros E; injection E as <-.
    + lia.
    + unfold Rtrunc. destruct (Rle_dec 0 r); [| contradiction].
      apply Int_part_nonneg. exact Hv.
Qed.

(** A counter that passed [log1p(counter or 0)] and is an integer is not
    negative. *)
Lemma counter_nonneg (d : dict) (k : string) (r : R) :
  log1p (py_or (dict_get d k (PInt 0)) (PInt 0)) = Ok r ->
  null_or_int (dict_get d k PNone) -> null_or_nonneg_int (dict_get d k PNone).
Proof.
  unfold dict_get. destruct (lookup k d) as [v |]; [| intros _ _; exact I].
  destruct v as [| b | n | x | s | l | d']; cbn [null_or_int null_or_nonneg_int];
    try contradiction; try (intros _ _; exact I).
  unfold py_or. cbn [truthy]. destruct (Z.eqb_spec n 0) as [-> | Hn]; cbn [negb].
  - intros _ _. lia.
  - intros Hl _. exact (log1p_int_inv n r Hl).
Qed.

Section Counters.
Context {L : PyLib}.

Lemma parse_tweet_counters (total : Z) (i : nat) (t : dict) (it : Twitterapi_x.item) :
  Twitterapi_x.parse_tweet total i (PDict t) = Ok (Some it) ->
  py_int (py_or (dict_get t "likeCount" (PInt 0)) (PInt 0))
  = Ok (Twitterapi_x.likes (Twitterapi_x.item_engagement it))
  /\ py_int (py_or (dict_get t "retweetCount" (PInt 0)) (PInt 0))
     = Ok (Twitterapi_x.reposts (Twitterapi_x.item_engagement it))
  /\ py_int (py_or (dict_get t "replyCount" (PInt 0)) (PInt 0))
     = Ok (Twitterapi_x.replies (Twitterapi_x.item_engagement it))
  /\ py_int (py_or (dict_get t "quoteCount" (PInt 0)) (PInt 0))
     = Ok (Twitterapi_x.quotes (Twitterapi_x.item_engagement it)).
Proof.
  unfold Twitterapi_x.parse_tweet. intros H.
  match type of H with
  | ebind ?m _ = _ => destruct m as [[u |] |] eqn:Hu; cbn [ebind] in H; try discriminate
  end.
  repeat match type of H with
    | ebind ?m _ = _ =>
        let E := fresh "E" in
        destruct m eqn:E; cbn [ebind] in H; [| discriminate H]
    end.
  injection H as <-. cbn. repeat split; reflexivity.
Qed.

Lemma parse_post_counters (total : Z) (i : nat) (p : dict) (it : Dailydev.item)
    (e : Dailydev.engagement) :
  Dailydev.parse_post total i (PDict p) = Ok (Some it) ->
  Dailydev.item_engagement it = Some e ->
  Dailydev.score e = dict_get p "upvotes" PNone
  /\ Dailydev.num_comments e = dict_get p "comments" PNone
  /\ (null_or_int (Dailydev.score e) -> null_or_nonneg_int (Dailydev.score e))
  /\ (null_or_int (Dailydev.num_comments e)
      -> null_or_nonneg_int (Dailydev.num_comments e)).
Proof.
  unfold Dailydev.parse_post. intros H He.
  destruct (py_strip (dict_get p "title" (PStr ""))) as [t |]; cbn [ebind] in H;
    [| discriminate].
  destruct (py_strip (dict_get p "url" (PStr ""))) as [u |]; cbn [ebind] in H;
    [| discriminate].
  destruct ((t =? "")%string || (u =? "")%string); [discriminate |].
  repeat match type of H with
    | ebind ?m _ = _ =>
        let E := fresh "E" in
        destruct m eqn:E; cbn [ebind] in H; [| discriminate H]
    end.
  injection H as <-. cbn [Dailydev.item_engagement] in He.
  destruct (is_not_none (dict_get p "upvotes" PNone)
            || is_not_none (dict_get p "comments" PNone)); [| discriminate].
  injection He as <-. cbn [Dailydev.score Dailydev.num_comments].
  match goal with
  | E : Dailydev._compute_relevance _ _ _ = Ok _ |- _ =>
      unfold Dailydev._compute_relevance in E;
      repeat match type of E with
        | ebind ?m _ = _ =>
            let E' := fresh "E" in
            destruct m eqn:E'; cbn [ebind] in E; [| discriminate E]
        end
  end.
  repeat split; eauto using counter_nonneg.
Qed.

Lemma parse_video_counters (total : Z) (i : nat) (v : dict) (it : Tubelab_yt.item)
    (e : Tubelab_yt.engagement) :
  Tubelab_yt.parse_video total i (PDict v) = Ok (Some it) ->
  Tubelab_yt.item_engagement it = Some e ->
  Tubelab_yt.views e = dict_get v "views" PNone
  /\ Tubelab_yt.likes e = dict_get v "likes" PNone
  /\ Tubelab_yt.num_comments e = dict_get v "comments" PNone
  /\ (null_or_int (Tubelab_yt.views e) -> null_or_nonneg_int (Tubelab_yt.views e))
  /\ (null_or_int (Tubelab_yt.likes e) -> null_or_nonneg_int (Tubelab_yt.likes e))
  /\ (null_or_int (Tubelab_yt.num_comments e)
      -> null_or_nonneg_int (Tubelab_yt.num_comments e)).
Proof.
  unfold Tubelab_yt.parse_video. intros H He.
  destruct (py_strip (dict_get v "title" (PStr ""))) as [t |]; cbn [ebind] in H;
    [| discriminate].
  match type of H with
  | (if ?c then _ else _) = _ => destruct c; [discriminate |]
  end.
  repeat match type of H with
    | ebind ?m _ = _ =>
        let E := fresh "E" in
        destruct m eqn:E; cbn [ebind] in H; [| discriminate H]
    end.
  injection H as <-. cbn [Tubelab_yt.item_engagement] in He.
  match type of He with
  | (if ?c then _ else _) = _ => destruct c; [| discriminate]
  end.
  injection He as <-. cbn [Tubelab_yt.views Tubelab_yt.likes Tubelab_yt.num_comments].
  match goal with
  | E : Tubelab_yt._compute_relevance _ _ _ = Ok _ |- _ =>
      unfold Tubelab_yt._compute_relevance in E;
      repeat match type of E with
        | ebind ?m _ = _ =>
            let E' := fresh "E" in
            destruct m eqn:E'; cbn [ebind] in E; [| discriminate E]
        end
  end.
  repeat split; eauto using counter_nonneg.
Qed.

End Counters.

Section Counters_of_parse.
Context {L : PyLib}.

Lemma parse_x_entry (response : dict) (items : list Twitterapi_x.item)
    (it : Twitterapi_x.item) :
  Twitterapi_x.parse_x_response response = Ok items -> In it items ->
  exists total i t,
    entry_of response "tweets" t
    /\ Twitterapi_x.parse_tweet total i (PDict t) = Ok (Some it).
Proof.
  unfold Twitterapi_x.parse_x_response, entry_of. intros H Hin.
  destruct (truthy (dict_get response "tweets" (PList []))); cbn [negb] in H.
  - destruct (py_len _) as [n |]; cbn [ebind] in H; [| discriminate].
    destruct (py_iter _) as [ts |]; cbn [ebind] in H; [| discriminate].
    destruct (for_each_In _ _ _ _ _ H Hin) as (j & x & Hnth & Hx).
    destruct x as [| | | | | | t]; cbn in Hx; try discriminate.
    exists (Z.of_nat n), (0 + j)%nat, t. split; [| exact Hx].
    exists ts. split; [reflexivity | exact (nth_error_In _ _ Hnth)].
  - injection H as <-. destruct Hin.
Qed.

Lemma parse_dailydev_entry (response : dict) (items : list Dailydev.item)
    (it : Dailydev.item) :
  Dailydev.parse_dailydev_response response = Ok items -> In it items ->
  exists total i p,
    entry_of response "posts" p
    /\ Dailydev.parse_post total i (PDict p) = Ok (Some it).
Proof.
  unfold Dailydev.parse_dailydev_response, entry_of. intros H Hin.
  destruct (truthy (dict_get response "posts" (PList []))); cbn [negb] in H.
  - destruct (py_len _) as [n |]; cbn [ebind] in H; [| discriminate].
    destruct (py_iter _) as [ts |]; cbn [ebind] in H; [| discriminate].
    destruct (for_each_In _ _ _ _ _ H Hin) as (j & x & Hnth & Hx).
    destruct x as [| | | | | | p]; cbn in Hx; try discriminate.
    exists (Z.of_nat n), (0 + j)%nat, p. split; [| exact Hx].
    exists ts. split; [reflexivity | exact (nth_error_In _ _ Hnth)].
  - injection H as <-. destruct Hin.
Qed.

Lemma parse_youtube_entry (response : dict) (items : list Tubelab_yt.item)
    (it : Tubelab_yt.item) :
  Tubelab_yt.parse_youtube_response response = Ok items -> In it items ->
  exists total i v,
    entry_of response "videos" v
    /\ Tubelab_yt.parse_video total i (PDict v) = Ok (Some it).
Proof.
  unfold Tubelab_yt.parse_youtube_response, entry_of. intros H Hin.
  destruct (truthy (dict_get response "videos" (PList []))); cbn [negb] in H.
  - destruct (py_len _) as [n |]; cbn [ebind] in H; [| discriminate].
    destruct (py_iter _) as [ts |]; cbn [ebind] in H; [| discriminate].
    destruct (for_each_In _ _ _ _ _ H Hin) as (j & x & Hnth & Hx).
    destruct x as [| | | | | | v]; cbn in Hx; try discriminate.
    exists (Z.of_nat n), (0 + j)%nat, v. split; [| exact Hx].
    exists ts. split; [reflexivity | exact (nth_error_In _ _ Hnth)].
  - injection H as <-. destruct Hin.
Qed.

End Counters_of_parse.

(** ** Relevance of the adapters that clamp *)

Section Clamped.
Context {L : PyLib}.

Lemma clean_item_relevance (i : nat) (x : pyval) (it : Openai_reddit.item) :
  Openai_reddit.clean_item i x = Ok (Some it) ->
  (0 <= Openai_reddit.relevance it <= 1)%R.
Proof.
  unfold Openai_reddit.clean_item. intros H.
  destruct x as [| | | | | | d]; try discriminate.
  destruct (negb (truthy (dict_get d "url" (PStr "")))); [discriminate |].
  destruct (py_contains _ _) as [[|] |]; cbn [ebind negb] in H; try discriminate.
  destruct (py_float _) as [r |]; cbn [ebind] in H; [| discriminate].
  injection H as <-. apply clamp01_bounds.
Qed.

(** Every item of [parse_reddit_response] has its relevance in [0, 1]. *)
Lemma reddit_relevance_bounded (response : pyval) (out : list Openai_reddit.item)
    (it : Openai_reddit.item) :
  Openai_reddit.parse_reddit_response response = Ok out -> In it out ->
  (0 <= Openai_reddit.relevance it <= 1)%R.
Proof.
  unfold Openai_reddit.parse_reddit_response. intros H Hin.
  destruct (Openai_reddit.find_output_text response) as [ot |]; cbn [ebind] in H;
    [| discriminate].
  destruct (negb (truthy ot)).
  - injection H as <-. destruct Hin.
  - destruct (Openai_reddit.extract_items ot) as [items |]; cbn [ebind] in H;
      [| discriminate].
    unfold Openai_reddit.clean_items in H.
    destruct (py_iter items) as [its |]; cbn [ebind] in H; [| discriminate].
    destruct (for_each_In _ _ _ _ _ H Hin) as (j & x & _ & Hx).
    exact (clean_item_relevance _ x it Hx).
Qed.

(** Every item of [parse_x_response] has its relevance in [0, 1]. *)
Lemma x_relevance_bounded (response : dict) (out : list Twitterapi_x.item)
    (it : Twitterapi_x.item) :
  Twitterapi_x.parse_x_response response = Ok out -> In it out ->
  (0 <= Twitterapi_x.relevance it <= 1)%R.
Proof.
  intros H Hin.
  destruct (parse_x_entry response out it H Hin) as (total & i & t & _ & Ht).
  unfold Twitterapi_x.parse_tweet in Ht.
  match type of Ht with
  | ebind ?m _ = _ => destruct m as [[u |] |]; cbn [ebind] in Ht; try discriminate
  end.
  repeat match type of Ht with
    | ebind ?m _ = _ => destruct m; cbn [ebind] in Ht; [| discriminate Ht]
    end.
  injection Ht as <-. apply clamp01_bounds.
Qed.

End Clamped.

(** The response with one tweet that reports -5 likes. *)
Lemma x_parse_negative_likes {L : PyLib} :
  exists r,
    Twitterapi_x.parse_x_response
      [("tweets", PList [PDict [("url", PStr "https://x.com/a/status/1");
                                ("likeCount", PInt (-5))]])]
    = Ok [{| Twitterapi_x.id := "X1";
             Twitterapi_x.text := "";
             Twitterapi_x.url := PStr "https://x.com/a/status/1";
             Twitterapi_x.author_handle := "";
             Twitterapi_x.date := None;
             Twitterapi_x.item_engagement :=
               {| Twitterapi_x.likes := -5; Twitterapi_x.reposts := 0;
                  Twitterapi_x.replies := 0; Twitterapi_x.quotes := 0 |};
             Twitterapi_x.why_relevant := "";
             Twitterapi_x.relevance := r |}].
Proof.
  unfold Twitterapi_x.parse_x_response. eval_parse.
  unfold Twitterapi_x.parse_tweet. eval_parse.
  unfold Twitterapi_x._parse_created_at. eval_parse.
  unfold Twitterapi_x._compute_relevance. eval_parse.
  rewrite !py_max0_int. eval_parse.
  rewrite log1p_int by small. eval_parse.
  eexists. reflexivity.
Qed.

(** The claim of C8 fails on the social adapter: a tweet that reports -5
    likes yields an item whose [likes] counter is -5. *)
Lemma x_negative_counter :
  exists it,
    @Twitterapi_x.parse_x_response lib0
      [("tweets", PList [PDict [("url", PStr "https://x.com/a/status/1");
                                ("likeCount", PInt (-5))]])]
    = Ok [it]
    /\ Twitterapi_x.likes (Twitterapi_x.item_engagement it) < 0.
Proof.
  destruct (@x_parse_negative_likes lib0) as [r Hr].
  eexists. split; [exact Hr |]. cbn. lia.
Qed.

(** C8, amended. For every response on which the parse function returns:
    each engagement counter of an item of [parse_x_response] is the integer
    [int(raw or 0)] of the raw field of one of the tweets, and is
    non-negative when that raw field is absent, null or a non-negative
    number; each engagement counter of an item of
    [parse_dailydev_response] or [parse_youtube_response] is the raw field
    of one of the entries, unchanged, and is null or a non-negative integer
    when that raw field is null or an integer. *)
Theorem engagement_counters {L : PyLib}
    (rx : dict) (xs : list Twitterapi_x.item) (x : Twitterapi_x.item)
    (rd : dict) (ds : list Dailydev.item) (d : Dailydev.item) (ed : Dailydev.engagement)
    (ry : dict) (ys : list Tubelab_yt.item) (y : Tubelab_yt.item)
    (ey : Tubelab_yt.engagement) :
  Twitterapi_x.parse_x_response rx = Ok xs -> In x xs ->
  Dailydev.parse_dailydev_response rd = Ok ds -> In d ds ->
  Dailydev.item_engagement d = Some ed ->
  Tubelab_yt.parse_youtube_response ry = Ok ys -> In y ys ->
  Tubelab_yt.item_engagement y = Some ey ->
  (exists t, entry_of rx "tweets" t
             /\ x_counters_of t (Twitterapi_x.item_engagement x)
             /\ x_nonneg_kept t (Twitterapi_x.item_engagement x))
  /\ (exists p, entry_of rd "posts" p /\ dailydev_counters_of p ed)
  /\ (exists v, entry_of ry "videos" v /\ youtube_counters_of v ey).
Proof.
  intros Hx Hinx Hd Hind Hed Hy Hiny Hey. split; [| split].
  - destruct (parse_x_entry rx xs x Hx Hinx) as (total & i & t & Hent & Ht).
    exists t. split; [exact Hent |].
    pose proof (parse_tweet_counters total i t x Ht) as Hc.
    split; [exact Hc |].
    destruct Hc as (Hl & Hrp & Hrl & Hq).
    unfold x_nonneg_kept. repeat split; intros Hraw; eapply py_int_nonneg; eassumption.
  - destruct (parse_dailydev_entry rd ds d Hd Hind) as (total & i & p & Hent & Hp).
    exists p. split; [exact Hent |].
    exact (parse_post_counters total i p d ed Hp Hed).
  - destruct (parse_youtube_entry ry ys y Hy Hiny) as (total & i & v & Hent & Hv).
    exists v. split; [exact Hent |].
    exact (parse_video_counters total i v y ey Hv Hey).
Qed.

(** A post with 3 upvotes and a video with 10 views. *)
Lemma dailydev_parse_upvotes {L : PyLib} :
  exists r,
    Dailydev.parse_dailydev_response
      [("posts", PList [PDict [("title", PStr "T");
                               ("url", PStr "https://example.com/a");
                               ("upvotes", PInt 3)]])]
    = Ok [{| Dailydev.id := "DD1";
             Dailydev.title := "T";
             Dailydev.url := "https://example.com/a";
             Dailydev.source_name := PStr "";
             Dailydev.author_name := PStr "";
             Dailydev.author_username := PStr "";
             Dailydev.date := None;
             Dailydev.summary := PStr "";
             Dailydev.tags := PList [];
             Dailydev.read_time := PNone;
             Dailydev.item_engagement :=
               Some {| Dailydev.score := PInt 3; Dailydev.num_comments := PNone |};
             Dailydev.why_relevant := "";
             Dailydev.relevance := r |}].
Proof.
  unfold Dailydev.parse_dailydev_response. eval_parse.
  unfold Dailydev.parse_post. eval_parse.
  unfold Dailydev._compute_relevance. eval_parse.
  rewrite py_min_int_int. eval_parse.
  rewrite !log1p_int by small. eval_parse.
  eexists. reflexivity.
Qed.

Lemma youtube_parse_views {L : PyLib} :
  exists r,
    Tubelab_yt.parse_youtube_response
      [("videos", PList [PDict [("id", PStr "abc");
                                ("title", PStr "T");
                                ("views", PInt 10)]])]
    = Ok [{| Tubelab_yt.id := "YT1";
             Tubelab_yt.title := "T";
             Tubelab_yt.url := "https://www.youtube.com/watch?v=abc";
             Tubelab_yt.channel_name := PStr "";
             Tubelab_yt.channel_id := PStr "";
             Tubelab_yt.date := None;
             Tubelab_yt.duration := PNone;
             Tubelab_yt.thumbnail := PStr "";
             Tubelab_yt.item_engagement :=
               Some {| Tubelab_yt.views := PInt 10; Tubelab_yt.likes := PNone;
                       Tubelab_yt.num_comments := PNone |};
             Tubelab_yt.why_relevant := "";
             Tubelab_yt.relevance := r |}].
Proof.
  unfold Tubelab_yt.parse_youtube_response. eval_parse.
  unfold Tubelab_yt.parse_video. eval_parse.
  unfold Tubelab_yt._compute_relevance. eval_parse.
  rewrite !log1p_int by small. eval_parse.
  eexists. reflexivity.
Qed.

Lemma engagement_counters_witness :
  (exists t,
      entry_of [("tweets", PList [PDict [("url", PStr "https://x.com/a/status/1");
                                         ("likeCount", PInt (-5))]])] "tweets" t
      /\ @x_counters_of lib0 t
           {| Twitterapi_x.likes := -5; Twitterapi_x.reposts := 0;
              Twitterapi_x.replies := 0; Twitterapi_x.quotes := 0 |}
      /\ x_nonneg_kept t
           {| Twitterapi_x.likes := -5; Twitterapi_x.reposts := 0;
              Twitterapi_x.replies := 0; Twitterapi_x.quotes := 0 |})
  /\ (exists p,
         entry_of [("posts", PList [PDict [("title", PStr "T");
                                           ("url", PStr "https://example.com/a");
                                           ("upvotes", PInt 3)]])] "posts" p
         /\ dailydev_counters_of p
              {| Dailydev.score := PInt 3; Dailydev.num_comments := PNone |})
  /\ (exists v,
         entry_of [("videos", PList [PDict [("id", PStr "abc");
                                            ("title", PStr "T");
                                            ("views", PInt 10)]])] "videos" v
         /\ youtube_counters_of v
              {| Tubelab_yt.views := PInt 10; Tubelab_yt.likes := PNone;
                 Tubelab_yt.num_comments := PNone |}).
Proof.
  destruct (@x_parse_negative_likes lib0) as [rx Hx].
  destruct (@dailydev_parse_upvotes lib0) as [rd Hd].
  destruct (@youtube_parse_views lib0) as [ry Hy].
  exact (@engagement_counters lib0 _ _ _ _ _ _ _ _ _ _ _
           Hx (or_introl eq_refl) Hd (or_introl eq_refl) eq_refl
           Hy (or_introl eq_refl) eq_refl).
Defined.

(** ** The URL filter of the discussion adapter *)

Section Reddit_urls.
Context {L : PyLib}.

Lemma for_each_clean_urls (its : list pyval) (i : nat) (out : list Openai_reddit.item) :
  for_each Openai_reddit.clean_item i its = Ok out ->
  map Openai_reddit.url out = map raw_url (filter has_reddit_url its).
Proof.
  revert i out. induction its as [| x its IH]; intros i out H.
  - cbn in H. injection H as <-. reflexivity.
  - cbn [for_each] in H.
    destruct (Openai_reddit.clean_item i x) as [o |] eqn:Hx; cbn [ebind] in H;
      [| discriminate].
    destruct (for_each Openai_reddit.clean_item (S i) its) as [rest |] eqn:Hrest;
      cbn [ebind] in H; [| discriminate].
    injection H as <-. specialize (IH (S i) rest Hrest).
    cbn [filter]. unfold Openai_reddit.clean_item in Hx.
    destruct x as [| | | | | | d]; try (injection Hx as <-; exact IH).
    cbn [has_reddit_url].
    destruct (truthy (dict_get d "url" (PStr ""))); cbn [negb andb] in Hx |- *;
      [| injection Hx as <-; exact IH].
    destruct (py_contains "reddit.com" (dict_get d "url" (PStr ""))) as [[|] |];
      cbn [ebind negb] in Hx; try discriminate.
    + destruct (py_float _) as [r |]; cbn [ebind] in Hx; [| discriminate].
      injection Hx as <-. cbn [map Openai_reddit.url raw_url]. rewrite IH. reflexivity.
    + injection Hx as <-. exact IH.
Qed.

Lemma clean_two_items (dA dB : dict) (uA uB : string) (rA : R) :
  dict_get dA "url" (PStr "") = PStr uA ->
  str_contains "reddit.com" uA = true ->
  py_float (dict_get dA "relevance" (PFloat 0.5)) = Ok rA ->
  dict_get dB "url" (PStr "") = PStr uB ->
  str_contains "reddit.com" uB = false ->
  exists a,
    Openai_reddit.clean_items (PList [PDict dA; PDict dB]) = Ok [a]
    /\ Openai_reddit.id a = "R1"
    /\ Openai_reddit.url a = PStr uA
    /\ Openai_reddit.title a = strip (py_str (dict_get dA "title" (PStr ""))).
Proof.
  intros HA HA2 HA3 HB HB2.
  assert (HuA : uA <> "") by (intros ->; discriminate HA2).
  unfold Openai_reddit.clean_items. cbn [py_iter ebind for_each].
  unfold Openai_reddit.clean_item.
  rewrite HA, HB, HA3. cbn [truthy py_contains ebind]. rewrite HA2, HB2.
  destruct (String.eqb_spec uA "") as [E | _]; [contradiction |].
  cbn [negb ebind].
  destruct (negb (negb (uB =? "")%string)); cbn [ebind];
    (eexists; split; [reflexivity | repeat split; reflexivity]).
Qed.

End Reddit_urls.

(** C2. [parse_reddit_response] keeps exactly the entries whose URL is not
    empty and contains "reddit.com": the URLs of the items it returns are,
    in order, the URLs of those entries of the payload.  For a payload of
    two entries, the first with a URL containing "reddit.com" and the
    second with a URL that does not contain it, the result is the single
    item made from the first entry, with id "R1". *)
Theorem reddit_url_filter {L : PyLib}
    (resp : pyval) (out : list Openai_reddit.item)
    (response output_text : pyval) (dA dB : dict) (uA uB : string) (rA : R) :
  Openai_reddit.parse_reddit_response resp = Ok out ->
  Openai_reddit.find_output_text response = Ok output_text ->
  truthy output_text = true ->
  Openai_reddit.extract_items output_text = Ok (PList [PDict dA; PDict dB]) ->
  dict_get dA "url" (PStr "") = PStr uA ->
  str_contains "reddit.com" uA = true ->
  py_float (dict_get dA "relevance" (PFloat 0.5)) = Ok rA ->
  dict_get dB "url" (PStr "") = PStr uB ->
  str_contains "reddit.com" uB = false ->
  (exists its,
      payload_entries resp = Ok its
      /\ map Openai_reddit.url out = map raw_url (filter has_reddit_url its))
  /\ exists a,
       Openai_reddit.parse_reddit_response response = Ok [a]
       /\ Openai_reddit.id a = "R1"
       /\ Openai_reddit.url a = PStr uA
       /\ Openai_reddit.title a = strip (py_str (dict_get dA "title" (PStr ""))).
Proof.
  intros Hparse Htext Htruthy Hextract HA HA2 HA3 HB HB2. split.
  - unfold Openai_reddit.parse_reddit_response in Hparse. unfold payload_entries.
    destruct (Openai_reddit.find_output_text resp) as [ot |]; cbn [ebind] in Hparse |- *;
      [| discriminate].
    destruct (negb (truthy ot)).
    + injection Hparse as <-. exists []. split; reflexivity.
    + destruct (Openai_reddit.extract_items ot) as [items |]; cbn [ebind] in Hparse |- *;
        [| discriminate].
      unfold Openai_reddit.clean_items in Hparse.
      destruct (py_iter items) as [its |]; cbn [ebind] in Hparse; [| discriminate].
      exists its. split; [reflexivity |].
      exact (for_each_clean_urls its 0 out Hparse).
  - unfold Openai_reddit.parse_reddit_response.
    rewrite Htext. cbn [ebind]. rewrite Htruthy. cbn [negb].
    rewrite Hextract. cbn [ebind].
    exact (clean_two_items dA dB uA uB rA HA HA2 HA3 HB HB2).
Qed.

Lemma reddit_url_filter_witness :
  (exists its,
      @payload_entries (lib_decoding payload_AB) (PDict [("output", PStr "payload")])
      = Ok its
      /\ map Openai_reddit.url [item_A] = map raw_url (filter has_reddit_url its))
  /\ exists a,
       @Openai_reddit.parse_reddit_response (lib_decoding payload_AB)
         (PDict [("output", PStr "payload")])
       = Ok [a]
       /\ Openai_reddit.id a = "R1"
       /\ Openai_reddit.url a = PStr "https://www.reddit.com/r/rust/comments/1"
       /\ Openai_reddit.title a = "X".
Proof.
  refine (@reddit_url_filter (lib_decoding payload_AB)
            (PDict [("output", PStr "payload")]) [item_A]
            (PDict [("output", PStr "payload")]) (PStr "payload")
            entry_A entry_B
            "https://www.reddit.com/r/rust/comments/1" "https://example.com/post"
            0.9%R _ _ _ _ _ _ _ _ _); reflexivity.
Defined.

(** ** The discussion search and its retry *)

(** C5. The search of the discussion adapter has the parameters [api_key],
    [model], [topic] and [mock_response] only: the call that passes the
    window bounds and the depth, as the search task makes it, raises
    [TypeError] before any request, and so does a call that passes the
    window bounds alone. *)
Theorem search_reddit_rejects_window {L : PyLib} {T : Transport}
    (api_key model topic from_date to_date depth : pyval) (w : world) :
  Openai_reddit.search_reddit [api_key; model; topic; from_date; to_date]
    [("depth", depth)] w
  = (Raise (TypeError "search_reddit() got an unexpected keyword argument 'depth'"), w)
  /\ Openai_reddit.search_reddit [api_key; model; topic; from_date; to_date] [] w
     = (Raise (TypeError "search_reddit() takes fewer positional arguments than were given"),
        w)
  /\ lookup "from_date" Openai_reddit.search_reddit_params = None
  /\ lookup "to_date" Openai_reddit.search_reddit_params = None
  /\ lookup "depth" Openai_reddit.search_reddit_params = None.
Proof. repeat split; reflexivity. Qed.

Section Retry.
Context {L : PyLib} {T : Transport}.

Lemma call_search_reddit_raises (config selected_models : dict)
    (topic from_date to_date depth : string) (w : world) :
  exists e,
    is_HTTPError e = false
    /\ Last30days.call_search_reddit config selected_models topic from_date to_date depth w
       = (Raise e, w).
Proof.
  unfold Last30days.call_search_reddit, iobind, lift, dict_item.
  destruct (lookup "OPENAI_API_KEY" config) as [key |].
  - destruct (lookup "openai" selected_models) as [model |].
    + eexists. split; [| reflexivity]. reflexivity.
    + eexists. split; [| reflexivity]. reflexivity.
  - eexists. split; [| reflexivity]. reflexivity.
Qed.

Lemma parse_error_response (msg : string) :
  Openai_reddit.parse_reddit_response (py_or (PDict [("error", PStr msg)]) (PDict []))
  = Ok [].
Proof. reflexivity. Qed.

Lemma error_text_not_empty (e : exn) :
  is_HTTPError e = false -> ((exn_name e ++ ": " ++ exn_str e) =? "")%string = false.
Proof.
  intros _. destruct (exn_name e); reflexivity.
Qed.

End Retry.

(** Outside mock mode the discussion search task never reaches its
    retry: the first call of [search_reddit] raises an exception that is
    not an HTTP error before any request is made, so the task returns no
    item, the error response and an error text, the world is unchanged,
    and no query, first or retry, is issued. *)
Theorem search_reddit_task_never_retries {L : PyLib} {T : Transport}
    (topic : string) (config selected_models : dict)
    (from_date to_date depth : string) (w : world) :
  exists e,
    is_HTTPError e = false
    /\ Last30days._search_reddit topic config selected_models from_date to_date depth
         false w
       = (Ok ([], PDict [("error", PStr (exn_str e))],
              Some (exn_name e ++ ": " ++ exn_str e)), w).
Proof.
  destruct (call_search_reddit_raises config selected_models topic from_date to_date
              depth w) as (e & He & Hcall).
  exists e. split; [exact He |].
  unfold Last30days._search_reddit, iobind, try_except, ret.
  rewrite Hcall, He. cbn [fst snd lift].
  rewrite parse_error_response. cbn [List.length Nat.ltb Nat.leb negb andb].
  rewrite (error_text_not_empty e He). reflexivity.
Qed.

(** ** The merge of the retry *)

Section Merge.
Context {L : PyLib} {T : Transport}.

(** The merge keeps the first-pass items, in order, and appends only retry
    items whose URL is not among the first-pass URLs. *)
Lemma append_new_extends (existing_urls : list pyval)
    (retry_items reddit_items : list Openai_reddit.item) :
  exists added,
    snd (Last30days.append_new existing_urls retry_items reddit_items)
    = (reddit_items ++ added)%list
    /\ forall it, In it added ->
         In it retry_items
         /\ exists k, hash_key (Openai_reddit.url it) = Ok k
                      /\ existsb (scalar_eqb k) existing_urls = false.
Proof.
  revert reddit_items. induction retry_items as [| it rest IH]; intros reddit_items.
  - exists []. split; [cbn; rewrite app_nil_r; reflexivity | intros ? []].
  - cbn [Last30days.append_new].
    destruct (hash_key (Openai_reddit.url it)) as [k |] eqn:Hk.
    + destruct (existsb (scalar_eqb k) existing_urls) eqn:Hex.
      * destruct (IH reddit_items) as (added & Heq & Hall).
        exists added. split; [exact Heq |].
        intros it' Hin. destruct (Hall it' Hin) as [Hr Hk']. split; [right; exact Hr | exact Hk'].
      * destruct (IH (reddit_items ++ [it])%list) as (added & Heq & Hall).
        exists (it :: added). split.
        -- rewrite Heq, <- app_assoc. reflexivity.
        -- intros it' [<- | Hin].
           ++ split; [left; reflexivity | exists k; split; assumption].
           ++ destruct (Hall it' Hin) as [Hr Hk']. split; [right; exact Hr | exact Hk'].
    + exists []. split; [cbn; rewrite app_nil_r; reflexivity | intros ? []].
Qed.

(** As [search_reddit] is defined, the call of the retry raises as well, and
    the retry leaves the first-pass items as they are. *)
Lemma retry_keeps_items (config selected_models : dict)
    (core from_date to_date depth : string)
    (reddit_items : list Openai_reddit.item) (w : world) :
  Last30days.retry config selected_models core from_date to_date depth reddit_items w
  = (Ok reddit_items, w).
Proof.
  unfold Last30days.retry.
  destruct (call_search_reddit_raises config selected_models core from_date to_date
              depth w) as (e & _ & Hcall).
  rewrite Hcall. reflexivity.
Qed.

End Merge.

(** * Further properties of the adapters *)

(** ** Entries, indexes and totals *)

Lemma for_each_In_bound {A B : Type} (body : nat -> A -> exc (option B))
    (l : list A) (out : list B) (b : B) :
  for_each body 0 l = Ok out -> In b out ->
  exists j x, nth_error l j = Some x /\ body j x = Ok (Some b) /\ (j < List.length l)%nat.
Proof.
  intros H Hin. destruct (for_each_In body l 0 out b H Hin) as (j & x & Hnth & Hx).
  exists j, x. repeat split; [exact Hnth | exact Hx |].
  apply nth_error_Some. rewrite Hnth. discriminate.
Qed.

Lemma length_chars (s : string) :
  List.length (list_ascii_of_string s) = String.length s.
Proof. induction s as [| c s IH]; cbn; [reflexivity | rewrite IH; reflexivity]. Qed.

Lemma len_iter (v : pyval) (n : nat) (es : list pyval) :
  py_len v = Ok n -> py_iter v = Ok es -> List.length es = n.
Proof.
  destruct v as [| | | | s | l | d]; cbn; try discriminate;
    intros Hn Hes; injection Hn as <-; injection Hes as <-.
  - rewrite length_map. apply length_chars.
  - reflexivity.
  - apply length_map.
Qed.

Section Entries.
Context {L : PyLib}.

Lemma parse_x_entry_bounded (response : dict) (items : list Twitterapi_x.item)
    (it : Twitterapi_x.item) :
  Twitterapi_x.parse_x_response response = Ok items -> In it items ->
  exists n i t,
    entry_of response "tweets" t
    /\ Twitterapi_x.parse_tweet (Z.of_nat n) i (PDict t) = Ok (Some it)
    /\ (i < n)%nat.
Proof.
  unfold Twitterapi_x.parse_x_response, entry_of. intros H Hin.
  destruct (truthy (dict_get response "tweets" (PList []))); cbn [negb] in H.
  - destruct (py_len _) as [n |] eqn:Hn; cbn [ebind] in H; [| discriminate].
    destruct (py_iter _) as [ts |] eqn:Hts; cbn [ebind] in H; [| discriminate].
    destruct (for_each_In_bound _ _ _ _ H Hin) as (j & x & Hnth & Hx & Hj).
    destruct x as [| | | | | | t]; cbn in Hx; try discriminate.
    exists n, j, t. rewrite (len_iter _ _ _ Hn Hts) in Hj.
    repeat split; [| exact Hx | exact Hj].
    exists ts. split; [reflexivity | exact (nth_error_In _ _ Hnth)].
  - injection H as <-. destruct Hin.
Qed.

Lemma parse_dailydev_entry_bounded (response : dict) (items : list Dailydev.item)
    (it : Dailydev.item) :
  Dailydev.parse_dailydev_response response = Ok items -> In it items ->
  exists n i p,
    entry_of response "posts" p
    /\ Dailydev.parse_post (Z.of_nat n) i (PDict p) = Ok (Some it)
    /\ (i < n)%nat.
Proof.
  unfold Dailydev.parse_dailydev_response, entry_of. intros H Hin.
  destruct (truthy (dict_get response "posts" (PList []))); cbn [negb] in H.
  - destruct (py_len _) as [n |] eqn:Hn; cbn [ebind] in H; [| discriminate].
    destruct (py_iter _) as [ts |] eqn:Hts; cbn [ebind] in H; [| discriminate].
    destruct (for_each_In_bound _ _ _ _ H Hin) as (j & x & Hnth & Hx & Hj).
    destruct x as [| | | | | | t]; cbn in Hx; try discriminate.
    exists n, j, t. rewrite (len_iter _ _ _ Hn Hts) in Hj.
    repeat split; [| exact Hx | exact Hj].
    exists ts. split; [reflexivity | exact (nth_error_In _ _ Hnth)].
  - injection H as <-. destruct Hin.
Qed.

Lemma parse_youtube_entry_bounded (response : dict) (items : list Tubelab_yt.item)
    (it : Tubelab_yt.item) :
  Tubelab_yt.parse_youtube_response response = Ok items -> In it items ->
  exists n i v,
    entry_of response "videos" v
    /\ Tubelab_yt.parse_video (Z.of_nat n) i (PDict v) = Ok (Some it)
    /\ (i < n)%nat.
Proof.
  unfold Tubelab_yt.parse_youtube_response, entry_of. intros H Hin.
  destruct (truthy (dict_get response "videos" (PList []))); cbn [negb] in H.
  - destruct (py_len _) as [n |] eqn:Hn; cbn [ebind] in H; [| discriminate].
    destruct (py_iter _) as [ts |] eqn:Hts; cbn [ebind] in H; [| discriminate].
    destruct (for_each_In_bound _ _ _ _ H Hin) as (j & x & Hnth & Hx & Hj).
    destruct x as [| | | | | | t]; cbn in Hx; try discriminate.
    exists n, j, t. rewrite (len_iter _ _ _ Hn Hts) in Hj.
    repeat split; [| exact Hx | exact Hj].
    exists ts. split; [reflexivity | exact (nth_error_In _ _ Hnth)].
  - injection H as <-. destruct Hin.
Qed.

End Entries.

(** ** Ranges of the relevance formulas *)

Section Ranges.
Local Open Scope R_scope.

(** The fraction [position / (total - 1)] of a position of the list. *)
Lemma fraction_range (position total : Z) :
  (1 < total)%Z -> (0 <= position < total)%Z ->
  0 <= IZR position / IZR (total - 1) <= 1.
Proof.
  intros Ht [Hp0 Hp].
  assert (Hd : 0 < IZR (total - 1)) by (apply IZR_lt; lia).
  assert (Hn : 0 <= IZR position) by (apply IZR_le; lia).
  assert (Hle : IZR position <= IZR (total - 1)) by (apply IZR_le; lia).
  pose proof (Rinv_0_lt_compat _ Hd) as Hinv.
  pose proof (Rinv_r (IZR (total - 1)) ltac:(lra)) as Hone.
  unfold Rdiv. split; nra.
Qed.

Lemma max0_log1p_nonneg (v m : pyval) (l : R) :
  py_max0 v = Ok m -> log1p m = Ok l -> 0 <= l.
Proof.
  unfold py_max0. destruct (num_val v) as [x |] eqn:Hx; cbn [ebind]; [| discriminate].
  destruct (Rlt_dec 0 x) as [Hpos | Hneg]; intros E; injection E as <-.
  - apply (log1p_nonneg v x l Hx). lra.
  - apply (log1p_nonneg (PInt 0) 0 l eq_refl). lra.
Qed.

Lemma x_formula_range (position total : Z) (tweet : dict) (r : R) :
  (0 <= position < total)%Z ->
  Twitterapi_x._compute_relevance position total tweet = Ok r ->
  0.3 <= r <= 1.
Proof.
  intros Hp H. unfold Twitterapi_x._compute_relevance in H.
  destruct (py_max0 (py_or (dict_get tweet "likeCount" (PInt 0)) (PInt 0)))
    as [m1 |] eqn:E1; cbn [ebind] in H; [| discriminate].
  destruct (log1p m1) as [l1 |] eqn:F1; cbn [ebind] in H; [| discriminate].
  destruct (py_max0 (py_or (dict_get tweet "retweetCount" (PInt 0)) (PInt 0)))
    as [m2 |] eqn:E2; cbn [ebind] in H; [| discriminate].
  destruct (log1p m2) as [l2 |] eqn:F2; cbn [ebind] in H; [| discriminate].
  destruct (py_max0 (py_or (dict_get tweet "replyCount" (PInt 0)) (PInt 0)))
    as [m3 |] eqn:E3; cbn [ebind] in H; [| discriminate].
  destruct (log1p m3) as [l3 |] eqn:F3; cbn [ebind] in H; [| discriminate].
  destruct (py_max0 (py_or (dict_get tweet "quoteCount" (PInt 0)) (PInt 0)))
    as [m4 |] eqn:E4; cbn [ebind] in H; [| discriminate].
  destruct (log1p m4) as [l4 |] eqn:F4; cbn [ebind] in H; [| discriminate].
  injection H as <-.
  pose proof (max0_log1p_nonneg _ _ _ E1 F1).
  pose proof (max0_log1p_nonneg _ _ _ E2 F2).
  pose proof (max0_log1p_nonneg _ _ _ E3 F3).
  pose proof (max0_log1p_nonneg _ _ _ E4 F4).
  set (raw := 0.55 * l1 + 0.25 * l2 + 0.15 * l3 + 0.05 * l4).
  assert (Hraw : 0 <= raw / 7) by (unfold raw; lra).
  assert (He : 0 <= Rmin 1 (raw / 7) <= 1).
  { split; [apply Rmin_glb; lra | apply Rmin_l]. }
  destruct (Z.leb_spec total 1) as [Hle | Hgt].
  - lra.
  - pose proof (fraction_range position total Hgt Hp). lra.
Qed.

Lemma log1p_or_nonneg (v : pyval) (l : R) :
  not_negative v -> log1p (py_or v (PInt 0)) = Ok l -> 0 <= l.
Proof.
  intros Hv. unfold py_or. destruct (truthy v).
  - intros Hl. destruct (log1p_num_val v l Hl) as [x Hx].
    exact (log1p_nonneg v x l Hx (Hv x Hx) Hl).
  - intros Hl. apply (log1p_nonneg (PInt 0) 0 l eq_refl); [lra | exact Hl].
Qed.

Lemma position_score_range (position total : Z) :
  (0 <= position < total)%Z ->
  0.1 <= (if (total <=? 1)%Z then 1
          else Rmax 0.1 (1 - (IZR position / IZR (total - 1)) * 0.9)) <= 1.
Proof.
  intros Hp. destruct (Z.leb_spec total 1) as [Hle | Hgt]; [lra |].
  pose proof (fraction_range position total Hgt Hp).
  split; [apply Rmax_l | apply Rmax_lub; lra].
Qed.

Lemma dailydev_formula_range (position total : Z) (post : dict) (r : R) :
  (0 <= position < total)%Z ->
  Dailydev._compute_relevance position total post = Ok r ->
  r <= 1
  /\ (not_negative (dict_get post "upvotes" (PInt 0)) ->
      not_negative (dict_get post "comments" (PInt 0)) ->
      not_negative (dict_get post "readTime" (PInt 0)) ->
      0.05 <= r).
Proof.
  intros Hp H. unfold Dailydev._compute_relevance in H.
  destruct (py_min_int (py_or (dict_get post "readTime" (PInt 0)) (PInt 0)) 20)
    as [m |] eqn:Em; cbn [ebind] in H; [| discriminate].
  destruct (log1p (py_or (dict_get post "upvotes" (PInt 0)) (PInt 0)))
    as [lu |] eqn:Eu; cbn [ebind] in H; [| discriminate].
  destruct (log1p (py_or (dict_get post "comments" (PInt 0)) (PInt 0)))
    as [lc |] eqn:Ec; cbn [ebind] in H; [| discriminate].
  destruct (py_div_int m 20) as [q |] eqn:Eq; cbn [ebind] in H; [| discriminate].
  destruct (py_div_int_inv m 20 q Eq) as (rt & Ert & ->).
  injection H as <-.
  pose proof (position_score_range position total Hp) as Hpos.
  set (eng := (0.55 * lu + 0.40 * lc + 0.05 * (rt / 20)) / 7).
  pose proof (Rmin_l 1 eng) as Hmin.
  split; [lra |].
  intros Hu Hc Hr.
  pose proof (log1p_or_nonneg _ _ Hu Eu).
  pose proof (log1p_or_nonneg _ _ Hc Ec).
  assert (Hrt : 0 <= rt).
  { unfold py_min_int in Em.
    destruct (num_val (py_or (dict_get post "readTime" (PInt 0)) (PInt 0)))
      as [x |] eqn:Hx; cbn [ebind] in Em; [| discriminate].
    destruct (Rlt_dec 20 x); injection Em as <-.
    - cbn in Ert. injection Ert as <-. lra.
    - rewrite Hx in Ert. injection Ert as <-.
      unfold py_or in Hx. destruct (truthy (dict_get post "readTime" (PInt 0))).
      + exact (Hr x Hx).
      + cbn in Hx. injection Hx as <-. lra. }
  assert (0 <= Rmin 1 eng) by (apply Rmin_glb; unfold eng; lra).
  lra.
Qed.

Lemma youtube_formula_range (position total : Z) (video : dict) (r : R) :
  (0 <= position < total)%Z ->
  Tubelab_yt._compute_relevance position total video = Ok r ->
  r <= 1
  /\ (not_negative (dict_get video "views" (PInt 0)) ->
      not_negative (dict_get video "likes" (PInt 0)) ->
      not_negative (dict_get video "comments" (PInt 0)) ->
      0.04 <= r).
Proof.
  intros Hp H. unfold Tubelab_yt._compute_relevance in H.
  destruct (log1p (py_or (dict_get video "views" (PInt 0)) (PInt 0)))
    as [lv |] eqn:Ev; cbn [ebind] in H; [| discriminate].
  destruct (log1p (py_or (dict_get video "likes" (PInt 0)) (PInt 0)))
    as [ll |] eqn:El; cbn [ebind] in H; [| discriminate].
  destruct (log1p (py_or (dict_get video "comments" (PInt 0)) (PInt 0)))
    as [lc |] eqn:Ec; cbn [ebind] in H; [| discriminate].
  injection H as <-.
  pose proof (position_score_range position total Hp) as Hpos.
  set (eng := (0.50 * lv + 0.30 * ll + 0.20 * lc) / 14).
  pose proof (Rmin_l 1 eng) as Hmin.
  split; [lra |].
  intros Hv Hl Hc.
  pose proof (log1p_or_nonneg _ _ Hv Ev).
  pose proof (log1p_or_nonneg _ _ Hl El).
  pose proof (log1p_or_nonneg _ _ Hc Ec).
  assert (0 <= Rmin 1 eng) by (apply Rmin_glb; unfold eng; lra).
  lra.
Qed.

End Ranges.

Section Relevance_of_items.
Context {L : PyLib}.

Lemma parse_tweet_relevance (total : Z) (i : nat) (t : dict) (it : Twitterapi_x.item) :
  Twitterapi_x.parse_tweet total i (PDict t) = Ok (Some it) ->
  exists r,
    Twitterapi_x._compute_relevance (Z.of_nat i) total t = Ok r
    /\ Twitterapi_x.relevance it = clamp01 r.
Proof.
  unfold Twitterapi_x.parse_tweet. intros H.
  match type of H with
  | ebind ?m _ = _ => destruct m as [[u |] |]; cbn [ebind] in H; try discriminate
  end.
  repeat match type of H with
    | ebind ?m _ = _ =>
        let E := fresh "E" in
        destruct m eqn:E; cbn [ebind] in H; [| discriminate H]
    end.
  injection H as <-. eexists. split; reflexivity.
Qed.

Lemma parse_post_relevance (total : Z) (i : nat) (p : dict) (it : Dailydev.item) :
  Dailydev.parse_post total i (PDict p) = Ok (Some it) ->
  Dailydev._compute_relevance (Z.of_nat i) total p = Ok (Dailydev.relevance it).
Proof.
  unfold Dailydev.parse_post. intros H.
  destruct (py_strip (dict_get p "title" (PStr ""))) as [t |]; cbn [ebind] in H;
    [| discriminate].
  destruct (py_strip (dict_get p "url" (PStr ""))) as [u |]; cbn [ebind] in H;
    [| discriminate].
  destruct ((t =? "")%string || (u =? "")%string); [discriminate |].
  repeat match type of H with
    | ebind ?m _ = _ =>
        let E := fresh "E" in
        destruct m eqn:E; cbn [ebind] in H; [| discriminate H]
    end.
  injection H as <-. reflexivity.
Qed.

Lemma parse_video_relevance (total : Z) (i : nat) (v : dict) (it : Tubelab_yt.item) :
  Tubelab_yt.parse_video total i (PDict v) = Ok (Some it) ->
  Tubelab_yt._compute_relevance (Z.of_nat i) total v = Ok (Tubelab_yt.relevance it).
Proof.
  unfold Tubelab_yt.parse_video. intros H.
  destruct (py_strip (dict_get v "title" (PStr ""))) as [t |]; cbn [ebind] in H;
    [| discriminate].
  match type of H with
  | (if ?c then _ else _) = _ => destruct c; [discriminate |]
  end.
  repeat match type of H with
    | ebind ?m _ = _ =>
        let E := fresh "E" in
        destruct m eqn:E; cbn [ebind] in H; [| discriminate H]
    end.
  injection H as <-. reflexivity.
Qed.

End Relevance_of_items.

(** X1. Every item returned by [parse_reddit_response] has a relevance
    between 0 and 1, whatever the payload gives as relevance. *)
Theorem reddit_relevance_in_unit {L : PyLib} (response : pyval)
    (out : list Openai_reddit.item) (it : Openai_reddit.item) :
  Openai_reddit.parse_reddit_response response = Ok out -> In it out ->
  (0 <= Openai_reddit.relevance it <= 1)%R.
Proof. apply reddit_relevance_bounded. Qed.

Lemma reddit_relevance_in_unit_witness :
  (0 <= Openai_reddit.relevance item_A <= 1)%R.
Proof.
  refine (@reddit_relevance_in_unit (lib_decoding payload_AB)
            (PDict [("output", PStr "payload")]) [item_A] item_A _ _).
  - reflexivity.
  - left. reflexivity.
Defined.

(** X2. Every item returned by [parse_x_response] has a relevance between
    0.3 and 1: the position of a tweet lies within the list, so its
    position score is at least 0.5, and its engagement score is between 0
    and 1. *)
Theorem x_relevance_range {L : PyLib} (response : dict)
    (out : list Twitterapi_x.item) (it : Twitterapi_x.item) :
  Twitterapi_x.parse_x_response response = Ok out -> In it out ->
  (0.3 <= Twitterapi_x.relevance it <= 1)%R.
Proof.
  intros H Hin.
  destruct (parse_x_entry_bounded response out it H Hin) as (n & i & t & _ & Ht & Hi).
  destruct (parse_tweet_relevance _ _ _ _ Ht) as (r & Hr & ->).
  assert (Hrange : (0.3 <= r <= 1)%R).
  { apply (x_formula_range (Z.of_nat i) (Z.of_nat n) t r); [lia | exact Hr]. }
  rewrite clamp01_id by lra. exact Hrange.
Qed.

Lemma x_relevance_range_witness :
  exists it,
    @Twitterapi_x.parse_x_response lib0
      [("tweets", PList [PDict [("url", PStr "https://x.com/a/status/1");
                                ("likeCount", PInt (-5))]])]
    = Ok [it]
    /\ (0.3 <= Twitterapi_x.relevance it <= 1)%R.
Proof.
  destruct (@x_parse_negative_likes lib0) as [r Hr].
  eexists. split; [exact Hr |].
  exact (@x_relevance_range lib0 _ _ _ Hr (or_introl eq_refl)).
Defined.


Lemma fits_float_iff (z : Z) : 0 <= z -> (fits_float z <-> z < float_limit).
Proof.
  intros Hz. unfold fits_float. rewrite Z.ltb_lt, Z.abs_eq by exact Hz. reflexivity.
Qed.




(** X4. Every item returned by [parse_dailydev_response] has a relevance
    of at most 1; it is at least 0.05 when no post of the response has a
    negative number as [upvotes], [comments] or [readTime]. *)
Theorem dailydev_relevance_range (response : dict)
    (out : list Dailydev.item) (it : Dailydev.item) :
  Dailydev.parse_dailydev_response response = Ok out -> In it out ->
  (Dailydev.relevance it <= 1)%R
  /\ ((forall p, entry_of response "posts" p ->
         not_negative (dict_get p "upvotes" (PInt 0))
         /\ not_negative (dict_get p "comments" (PInt 0))
         /\ not_negative (dict_get p "readTime" (PInt 0))) ->
      (0.05 <= Dailydev.relevance it)%R).
Proof.
  intros H Hin.
  destruct (parse_dailydev_entry_bounded response out it H Hin)
    as (n & i & p & Hent & Hp & Hi).
  pose proof (parse_post_relevance _ _ _ _ Hp) as Hr.
  destruct (dailydev_formula_range (Z.of_nat i) (Z.of_nat n) p _ ltac:(lia) Hr)
    as [Hup Hlow].
  split; [exact Hup |].
  intros Hall. destruct (Hall p Hent) as (Hu & Hc & Ht). exact (Hlow Hu Hc Ht).
Qed.

Lemma dailydev_relevance_range_witness :
  exists it,
    Dailydev.parse_dailydev_response
      [("posts", PList [PDict [("title", PStr "T");
                               ("url", PStr "https://example.com/a");
                               ("upvotes", PInt 3)]])]
    = Ok [it]
    /\ (Dailydev.relevance it <= 1)%R.
Proof.
  destruct (@dailydev_parse_upvotes lib0) as [r Hr].
  eexists. split; [exact Hr |].
  exact (proj1 (dailydev_relevance_range _ _ _ Hr (or_introl eq_refl))).
Defined.

(** X5. Every item returned by [parse_youtube_response] has a relevance of
    at most 1; it is at least 0.04 when no video of the response has a
    negative number as [views], [likes] or [comments]. *)
Theorem youtube_relevance_range {L : PyLib} (response : dict)
    (out : list Tubelab_yt.item) (it : Tubelab_yt.item) :
  Tubelab_yt.parse_youtube_response response = Ok out -> In it out ->
  (Tubelab_yt.relevance it <= 1)%R
  /\ ((forall v, entry_of response "videos" v ->
         not_negative (dict_get v "views" (PInt 0))
         /\ not_negative (dict_get v "likes" (PInt 0))
         /\ not_negative (dict_get v "comments" (PInt 0))) ->
      (0.04 <= Tubelab_yt.relevance it)%R).
Proof.
  intros H Hin.
  destruct (parse_youtube_entry_bounded response out it H Hin)
    as (n & i & v & Hent & Hv & Hi).
  pose proof (parse_video_relevance _ _ _ _ Hv) as Hr.
  destruct (youtube_formula_range (Z.of_nat i) (Z.of_nat n) v _ ltac:(lia) Hr)
    as [Hup Hlow].
  split; [exact Hup |].
  intros Hall. destruct (Hall v Hent) as (Hvw & Hl & Hc). exact (Hlow Hvw Hl Hc).
Qed.

Lemma youtube_relevance_range_witness :
  exists it,
    @Tubelab_yt.parse_youtube_response lib0
      [("videos", PList [PDict [("id", PStr "abc");
                                ("title", PStr "T");
                                ("views", PInt 10)]])]
    = Ok [it]
    /\ (Tubelab_yt.relevance it <= 1)%R.
Proof.
  destruct (@youtube_parse_views lib0) as [r Hr].
  eexists. split; [exact Hr |].
  exact (proj1 (@youtube_relevance_range lib0 _ _ _ Hr (or_introl eq_refl))).
Defined.

(** ** More engagement, more relevance *)

Section Monotone.
Local Open Scope R_scope.

Lemma ln1p_mono (z z' : Z) : (0 <= z <= z')%Z -> ln (1 + IZR z) <= ln (1 + IZR z').
Proof.
  intros [H0 Hle]. destruct (Z.eq_dec z z') as [-> | Hne]; [lra |].
  left. apply ln_increasing.
  - apply IZR_le in H0. lra.
  - assert (IZR z < IZR z') by (apply IZR_lt; lia). lra.
Qed.

Lemma count_term (z : Z) :
  (0 <= z < float_limit)%Z -> log1p (py_or (PInt z) (PInt 0)) = Ok (ln (1 + IZR z)).
Proof.
  intros [Hz Hlim]. unfold py_or. cbn [truthy].
  destruct (Z.eqb_spec z 0) as [-> | Hne]; cbn [negb]; apply log1p_int;
    first [lia | reflexivity | apply fits_float_iff; lia].
Qed.

Lemma like_term_int (z : Z) :
  (0 <= z < float_limit)%Z ->
  (m <- py_max0 (py_or (PInt z) (PInt 0)) ;; log1p m) = Ok (ln (1 + IZR z)).
Proof.
  intros [Hz Hlim]. unfold py_or. cbn [truthy].
  destruct (Z.eqb_spec z 0) as [-> | Hne]; cbn [negb]; rewrite py_max0_int;
    cbn [ebind].
  - rewrite log1p_int by small. reflexivity.
  - rewrite Z.max_r by lia. apply log1p_int; [lia | apply fits_float_iff; lia].
Qed.

Lemma Rmin_mono (a b : R) : a <= b -> Rmin 1 a <= Rmin 1 b.
Proof. intros H. unfold Rmin. destruct (Rle_dec 1 a); destruct (Rle_dec 1 b); lra. Qed.

(** Look a literal key up in a dict that starts with a literal key. *)
Ltac dict_steps :=
  repeat match goal with
    | |- context [dict_get ((?k', ?v) :: ?d) ?k ?dflt] =>
        let b := eval vm_compute in (String.eqb k k') in
        lazymatch b with
        | true => change (dict_get ((k', v) :: d) k dflt) with v
        | false => change (dict_get ((k', v) :: d) k dflt) with (dict_get d k dflt)
        end
    end.

Ltac same_steps H :=
  repeat match type of H with
    | context [ebind ?m _] =>
        destruct m; cbn [ebind] in H |- *; [| discriminate H]
    end.

(** X6. With the other fields of the entry fixed, a larger like count
    (social), upvote count (article) or view count (video) never lowers the
    relevance: for counts [0 <= z <= z'] with [z'] below [float_limit], when
    the formula returns at [z] it returns at [z'] as well, with a relevance
    that is at least as large. *)
Theorem engagement_monotone (z z' position total : Z) (tweet post video : dict) :
  (0 <= z <= z')%Z -> (z' < float_limit)%Z ->
  (forall r,
      Twitterapi_x._compute_relevance position total (("likeCount", PInt z) :: tweet)
      = Ok r ->
      exists r',
        Twitterapi_x._compute_relevance position total (("likeCount", PInt z') :: tweet)
        = Ok r' /\ r <= r')
  /\ (forall r,
         Dailydev._compute_relevance position total (("upvotes", PInt z) :: post) = Ok r ->
         exists r',
           Dailydev._compute_relevance position total (("upvotes", PInt z') :: post)
           = Ok r' /\ r <= r')
  /\ (forall r,
         Tubelab_yt._compute_relevance position total (("views", PInt z) :: video) = Ok r ->
         exists r',
           Tubelab_yt._compute_relevance position total (("views", PInt z') :: video)
           = Ok r' /\ r <= r').
Proof.
  intros Hz Hlim. pose proof (ln1p_mono z z' Hz) as Hln.
  split; [| split]; intros r H.
  - unfold Twitterapi_x._compute_relevance in *.
    revert H. dict_steps. intros H.
    rewrite like_term_int in H |- * by lia. cbn [ebind] in H |- *.
    same_steps H. injection H as <-.
    eexists. split; [reflexivity |].
    apply Rplus_le_compat_l. apply Rmult_le_compat_l; [lra |].
    apply Rmin_mono. lra.
  - unfold Dailydev._compute_relevance in *.
    revert H. dict_steps. intros H.
    rewrite count_term in H |- * by lia.
    same_steps H. injection H as <-.
    eexists. split; [reflexivity |].
    apply Rplus_le_compat_l. apply Rmult_le_compat_l; [lra |].
    apply Rmin_mono. lra.
  - unfold Tubelab_yt._compute_relevance in *.
    revert H. dict_steps. intros H.
    rewrite count_term in H |- * by lia. cbn [ebind] in H |- *.
    same_steps H. injection H as <-.
    eexists. split; [reflexivity |].
    apply Rplus_le_compat_l. apply Rmult_le_compat_l; [lra |].
    apply Rmin_mono. lra.
Qed.

End Monotone.

Lemma engagement_monotone_witness :
  exists r',
    Dailydev._compute_relevance 5 10 [("upvotes", PInt 500)] = Ok r'
    /\ (0.5 * Rmax 0.1 (1 - (IZR 5 / IZR (10 - 1)) * 0.9)
        + 0.5 * Rmin 1 ((0.55 * ln (1 + IZR 1) + 0.40 * ln (1 + 0)
                         + 0.05 * (0 / 20)) / 7)
        <= r')%R.
Proof.
  destruct (engagement_monotone 1 500 5 10 [] [] [] ltac:(lia) eq_refl) as (_ & Hd & _).
  apply Hd. unfold Dailydev._compute_relevance.
  cbn [dict_get lookup String.eqb Ascii.eqb Bool.eqb py_or truthy Z.eqb negb].
  rewrite py_min_int_int. cbn [ebind Z.min Z.compare].
  rewrite !log1p_int by small. reflexivity.
Defined.

(** ** Identifiers of the items *)





(** Break a run of a loop body that returned an item into its steps. *)
Ltac crunch H :=
  repeat match type of H with
    | ebind ?m _ = _ => destruct m; cbn [ebind] in H; [| discriminate H]
    | (if ?c then _ else _) = _ => destruct c; try discriminate H
    | match ?x with _ => _ end = _ => destruct x; try discriminate H
    end.

Section Ids.
Context {L : PyLib}.





End Ids.










(** ** Fields of the items *)

Lemma lstrip_by_head (p : ascii -> bool) (s : string) :
  match lstrip_by p s with
  | EmptyString => True
  | String c _ => p c = false
  end.
Proof.
  induction s as [| c s IH]; cbn; [exact I |].
  destruct (p c) eqn:Hc; [exact IH | exact Hc].
Qed.

Lemma lstrip_no_prefix (chars : string) (c : ascii) (s : string) :
  in_chars chars c = true ->
  String.prefix (String c EmptyString) (lstrip chars s) = false.
Proof.
  intros Hc. unfold lstrip. pose proof (lstrip_by_head (in_chars chars) s) as H.
  destruct (lstrip_by (in_chars chars) s) as [| c' s']; [reflexivity |].
  cbn. destruct (Ascii.ascii_dec c c') as [<- | Hne]; [congruence |].
  destruct (Ascii.ascii_dec c c'); [contradiction | reflexivity].
Qed.

Lemma length_substring (n : nat) (s : string) :
  (String.length (substring 0 n s) <= n)%nat.
Proof.
  revert s. induction n as [| n IH]; intros s.
  - destruct s; cbn; lia.
  - destruct s as [| c s]; cbn; [lia |]. specialize (IH s). lia.
Qed.

Section Fields.
Context {L : PyLib}.

Lemma parse_tweet_fields (total : Z) (i : nat) (t : dict) (it : Twitterapi_x.item) :
  Twitterapi_x.parse_tweet total i (PDict t) = Ok (Some it) ->
  truthy (Twitterapi_x.url it) = true
  /\ (if truthy (dict_get t "url" (PStr ""))
      then Twitterapi_x.url it = dict_get t "url" (PStr "")
      else Twitterapi_x.url it = status_url t)
  /\ (String.length (Twitterapi_x.text it) <= 500)%nat
  /\ String.prefix "@" (Twitterapi_x.author_handle it) = false
  /\ Twitterapi_x.why_relevant it = "".
Proof.
  unfold Twitterapi_x.parse_tweet, status_url. intros H.
  destruct (truthy (dict_get t "url" (PStr ""))) eqn:Hu; cbn [ebind] in H.
  - crunch H. injection H as <-.
    cbn [Twitterapi_x.url Twitterapi_x.text Twitterapi_x.author_handle
         Twitterapi_x.why_relevant].
    refine (conj Hu (conj eq_refl (conj _ (conj _ eq_refl)))).
    + apply length_substring.
    + apply lstrip_no_prefix. reflexivity.
  - destruct (dict_get t "author" (PDict [])) as [| | | | | | a]; cbn [is_dict py_get ebind] in H;
      try (cbn in H; discriminate).
    destruct (truthy (dict_get a "userName" (PStr "")) && truthy (dict_get t "id" (PStr "")));
      cbn [ebind] in H; [| discriminate].
    crunch H. injection H as <-.
    cbn [Twitterapi_x.url Twitterapi_x.text Twitterapi_x.author_handle
         Twitterapi_x.why_relevant].
    refine (conj eq_refl (conj eq_refl (conj _ (conj _ eq_refl)))).
    + apply length_substring.
    + apply lstrip_no_prefix. reflexivity.
Qed.

End Fields.

(** The tweet of the test [test_tweet_without_url_builds_from_author]. *)
Lemma x_parse_built_url {L : PyLib} :
  exists r,
    Twitterapi_x.parse_x_response
      [("tweets", PList [PDict [("id", PStr "456");
                                ("text", PStr "tweet without url");
                                ("author", PDict [("userName", PStr "user1")]);
                                ("likeCount", PInt 5)]])]
    = Ok [{| Twitterapi_x.id := "X1";
             Twitterapi_x.text := "tweet without url";
             Twitterapi_x.url := PStr "https://x.com/user1/status/456";
             Twitterapi_x.author_handle := "user1";
             Twitterapi_x.date := None;
             Twitterapi_x.item_engagement :=
               {| Twitterapi_x.likes := 5; Twitterapi_x.reposts := 0;
                  Twitterapi_x.replies := 0; Twitterapi_x.quotes := 0 |};
             Twitterapi_x.why_relevant := "";
             Twitterapi_x.relevance := r |}].
Proof.
  unfold Twitterapi_x.parse_x_response. eval_parse.
  unfold Twitterapi_x.parse_tweet. eval_parse.
  unfold Twitterapi_x._parse_created_at. eval_parse.
  unfold Twitterapi_x._compute_relevance. eval_parse.
  rewrite !py_max0_int. eval_parse.
  rewrite !log1p_int by small. eval_parse.
  eexists. reflexivity.
Qed.



(** X9. Every item of [parse_x_response] has a text of at most 500
    characters, an author handle that does not start with "@" and an
    empty [why_relevant]. *)
Theorem x_item_text_and_handle {L : PyLib} (response : dict)
    (out : list Twitterapi_x.item) (it : Twitterapi_x.item) :
  Twitterapi_x.parse_x_response response = Ok out -> In it out ->
  (String.length (Twitterapi_x.text it) <= 500)%nat
  /\ String.prefix "@" (Twitterapi_x.author_handle it) = false
  /\ Twitterapi_x.why_relevant it = "".
Proof.
  intros H Hin.
  destruct (parse_x_entry response out it H Hin) as (total & i & t & Hent & Ht).
  destruct (parse_tweet_fields total i t it Ht) as (_ & _ & Hlen & Hat & Hwhy).
  exact (conj Hlen (conj Hat Hwhy)).
Qed.

Lemma x_item_text_and_handle_witness :
  exists it,
    @Twitterapi_x.parse_x_response lib0
      [("tweets", PList [PDict [("id", PStr "456");
                                ("text", PStr "tweet without url");
                                ("author", PDict [("userName", PStr "user1")]);
                                ("likeCount", PInt 5)]])]
    = Ok [it]
    /\ (String.length (Twitterapi_x.text it) <= 500)%nat.
Proof.
  destruct (@x_parse_built_url lib0) as [r Hr].
  eexists. split; [exact Hr |].
  exact (proj1 (@x_item_text_and_handle lib0 _ _ _ Hr (or_introl eq_refl))).
Defined.

Section Reddit_fields.
Context {L : PyLib}.

Lemma clean_item_fields (i : nat) (x : pyval) (it : Openai_reddit.item) :
  Openai_reddit.clean_item i x = Ok (Some it) ->
  String.prefix "r" (Openai_reddit.subreddit it) = false
  /\ String.prefix "/" (Openai_reddit.subreddit it) = false
  /\ (truthy (Openai_reddit.date it) = false
      \/ Openai_reddit.date_match (py_str (Openai_reddit.date it)) = true).
Proof.
  unfold Openai_reddit.clean_item. intros H.
  destruct x as [| | | | | | d]; try discriminate.
  destruct (negb (truthy (dict_get d "url" (PStr "")))); [discriminate |].
  destruct (py_contains _ _) as [[|] |]; cbn [ebind negb] in H; try discriminate.
  destruct (py_float _) as [r |]; cbn [ebind] in H; [| discriminate].
  injection H as <-.
  cbn [Openai_reddit.subreddit Openai_reddit.date].
  refine (conj _ (conj _ _)).
  - apply lstrip_no_prefix. reflexivity.
  - apply lstrip_no_prefix. reflexivity.
  - destruct (truthy (dict_get d "date" PNone)) eqn:Ht; cbn [andb].
    + destruct (Openai_reddit.date_match (py_str (dict_get d "date" PNone))) eqn:Hm;
        cbn [negb].
      * right. exact Hm.
      * left. reflexivity.
    + left. exact Ht.
Qed.

Lemma parse_reddit_entry (response : pyval) (out : list Openai_reddit.item)
    (it : Openai_reddit.item) :
  Openai_reddit.parse_reddit_response response = Ok out -> In it out ->
  exists i x, Openai_reddit.clean_item i x = Ok (Some it).
Proof.
  unfold Openai_reddit.parse_reddit_response. intros H Hin.
  destruct (Openai_reddit.find_output_text response) as [ot |]; cbn [ebind] in H;
    [| discriminate].
  destruct (negb (truthy ot)).
  - injection H as <-. destruct Hin.
  - destruct (Openai_reddit.extract_items ot) as [items |]; cbn [ebind] in H;
      [| discriminate].
    unfold Openai_reddit.clean_items in H.
    destruct (py_iter items) as [its |]; cbn [ebind] in H; [| discriminate].
    destruct (for_each_In _ _ _ _ _ H Hin) as (j & x & _ & Hx).
    exists (0 + j)%nat, x. exact Hx.
Qed.

End Reddit_fields.

Lemma reddit_parse_rust :
  @Openai_reddit.parse_reddit_response (lib_decoding payload_rust)
    (PDict [("output", PStr "payload")])
  = Ok [{| Openai_reddit.id := "R1";
           Openai_reddit.title := "Borrow checker tips";
           Openai_reddit.url := PStr "https://www.reddit.com/r/rust/comments/2";
           Openai_reddit.subreddit := "ust";
           Openai_reddit.date := PNone;
           Openai_reddit.why_relevant := "";
           Openai_reddit.relevance := clamp01 0.5 |}].
Proof. reflexivity. Qed.

(** X10. The [subreddit] of an item of [parse_reddit_response] never
    starts with "r" or "/": [lstrip("r/")] removes every leading "r" and
    "/", so that the subreddit "r/rust" is stored as "ust". *)
Theorem reddit_subreddit_stripped {L : PyLib} (response : pyval)
    (out : list Openai_reddit.item) (it : Openai_reddit.item) :
  Openai_reddit.parse_reddit_response response = Ok out -> In it out ->
  String.prefix "r" (Openai_reddit.subreddit it) = false
  /\ String.prefix "/" (Openai_reddit.subreddit it) = false.
Proof.
  intros H Hin. destruct (parse_reddit_entry response out it H Hin) as (i & x & Hx).
  destruct (clean_item_fields i x it Hx) as (Hr & Hs & _). split; assumption.
Qed.

Lemma reddit_subreddit_stripped_witness :
  String.prefix "r" "ust" = false /\ String.prefix "/" "ust" = false.
Proof.
  exact (@reddit_subreddit_stripped _ _ _ _ reddit_parse_rust (or_introl eq_refl)).
Defined.

(** X11. A date kept by [parse_reddit_response] is validated: the date of
    an item is either a false value (null, or an empty value taken as it
    is) or a value whose text matches the pattern of four digits, two
    digits and two digits separated by "-"; any other date is replaced by
    null. *)
Theorem reddit_date_validated {L : PyLib} (response : pyval)
    (out : list Openai_reddit.item) (it : Openai_reddit.item) :
  Openai_reddit.parse_reddit_response response = Ok out -> In it out ->
  truthy (Openai_reddit.date it) = false
  \/ Openai_reddit.date_match (py_str (Openai_reddit.date it)) = true.
Proof.
  intros H Hin. destruct (parse_reddit_entry response out it H Hin) as (i & x & Hx).
  destruct (clean_item_fields i x it Hx) as (_ & _ & Hd). exact Hd.
Qed.

Lemma reddit_date_validated_witness :
  truthy PNone = false
  \/ Openai_reddit.date_match (@py_str (lib_decoding payload_rust) PNone) = true.
Proof.
  exact (@reddit_date_validated _ _ _ _ reddit_parse_rust (or_introl eq_refl)).
Defined.

(** ** Dates of the social adapter *)

Lemma iso_match_prefix (s y m d : string) :
  Twitterapi_x.iso_match s = Some (y, m, d) ->
  y ++ "-" ++ m ++ "-" ++ d = str_take 10 s
  /\ Openai_reddit.date_match (str_take 10 s) = true.
Proof.
  unfold Twitterapi_x.iso_match.
  destruct s as [| y1 s]; [discriminate |]. destruct s as [| y2 s]; [discriminate |].
  destruct s as [| y3 s]; [discriminate |]. destruct s as [| y4 s]; [discriminate |].
  destruct s as [| h1 s]; [discriminate |]. destruct s as [| m1 s]; [discriminate |].
  destruct s as [| m2 s]; [discriminate |]. destruct s as [| h2 s]; [discriminate |].
  destruct s as [| d1 s]; [discriminate |]. destruct s as [| d2 s]; [discriminate |].
  destruct (forallb is_digit [y1; y2; y3; y4; m1; m2; d1; d2]) eqn:Hdig;
    cbn [andb]; [| discriminate].
  destruct (Ascii.eqb_spec h1 "-") as [-> | _]; cbn [andb]; [| discriminate].
  destruct (Ascii.eqb_spec h2 "-") as [-> | _]; [| discriminate].
  intros E. injection E as <- <- <-.
  assert (Htake : str_take 10 (String y1 (String y2 (String y3 (String y4 (String "-"
                    (String m1 (String m2 (String "-" (String d1 (String d2 s))))))))))
                  = String y1 (String y2 (String y3 (String y4 (String "-"
                    (String m1 (String m2 (String "-" (String d1 (String d2 "")))))))))).
  { unfold str_take. cbn [substring]. destruct s; reflexivity. }
  rewrite Htake. split; [reflexivity |].
  unfold Openai_reddit.date_match. rewrite Hdig. reflexivity.
Qed.

Section X_dates.
Context {L : PyLib}.

(** X12. [_parse_created_at] returns null for a value that is not a
    string or is empty, and for a text that begins, after stripping, with
    an ISO date it returns the first ten characters of the stripped text,
    which have the form YYYY-MM-DD; the rest of the text is ignored. *)
Theorem parse_created_at_iso (s y m d : string) :
  Twitterapi_x.iso_match (strip s) = Some (y, m, d) ->
  Twitterapi_x._parse_created_at (PStr s) = Ok (Some (str_take 10 (strip s)))
  /\ Openai_reddit.date_match (str_take 10 (strip s)) = true
  /\ (forall v, is_str v = false \/ truthy v = false ->
        Twitterapi_x._parse_created_at v = Ok None).
Proof.
  intros Hiso. destruct (iso_match_prefix _ _ _ _ Hiso) as [Htake Hmatch].
  refine (conj _ (conj Hmatch _)).
  - unfold Twitterapi_x._parse_created_at. cbn [truthy].
    destruct (String.eqb_spec s "") as [-> | Hne]; [discriminate Hiso |].
    cbn [negb]. rewrite Hiso, Htake. reflexivity.
  - intros v [Hv | Hv]; unfold Twitterapi_x._parse_created_at.
    + destruct v; try reflexivity. discriminate Hv.
    + destruct v; try reflexivity. rewrite Hv. reflexivity.
Qed.

Lemma parse_tweet_date (total : Z) (i : nat) (t : dict) (it : Twitterapi_x.item) :
  Twitterapi_x.parse_tweet total i (PDict t) = Ok (Some it) ->
  Twitterapi_x._parse_created_at (dict_get t "createdAt" PNone)
  = Ok (Twitterapi_x.date it).
Proof.
  unfold Twitterapi_x.parse_tweet. intros H.
  match type of H with
  | ebind ?m _ = _ => destruct m as [[u |] |]; cbn [ebind] in H; try discriminate
  end.
  repeat match type of H with
    | ebind ?m _ = _ =>
        let E := fresh "E" in
        destruct m eqn:E; cbn [ebind] in H; [| discriminate H]
    end.
  injection H as <-. reflexivity.
Qed.

Lemma parse_created_at_shape (v : pyval) (d : string) :
  Twitterapi_x._parse_created_at v = Ok (Some d) ->
  Openai_reddit.date_match d = true
  \/ exists dt, d = strftime dt "%Y-%m-%d".
Proof.
  unfold Twitterapi_x._parse_created_at.
  destruct v as [| | | | s | |]; try discriminate.
  destruct (negb (truthy (PStr s))); [discriminate |].
  destruct (Twitterapi_x.iso_match (strip s)) as [[[y m] d'] |] eqn:Hiso.
  - destruct (iso_match_prefix _ _ _ _ Hiso) as [Htake Hmatch].
    intros E.
    assert (Hd : y ++ "-" ++ m ++ "-" ++ d' = d) by congruence.
    left. rewrite <- Hd, Htake. exact Hmatch.
  - destruct (strptime (strip s) "%a %b %d %H:%M:%S %z %Y") as [dt | e].
    + intros E. injection E as <-. right. exists dt. reflexivity.
    + destruct e; discriminate.
Qed.

End X_dates.

Lemma parse_created_at_iso_witness :
  @Twitterapi_x._parse_created_at lib0 (PStr "2026-01-15T14:30:00Z")
  = Ok (Some (str_take 10 (strip "2026-01-15T14:30:00Z")))
  /\ Openai_reddit.date_match (str_take 10 (strip "2026-01-15T14:30:00Z")) = true
  /\ (forall v, is_str v = false \/ truthy v = false ->
        @Twitterapi_x._parse_created_at lib0 v = Ok None).
Proof.
  refine (@parse_created_at_iso lib0 "2026-01-15T14:30:00Z" "2026" "01" "15" _).
  reflexivity.
Defined.

(** X13. The date of an item of [parse_x_response] is null, or has the
    form YYYY-MM-DD, or is what [strftime("%Y-%m-%d")] printed for the
    parsed Twitter timestamp: a text that is no date is never passed on. *)
Theorem x_date_shape {L : PyLib} (response : dict)
    (out : list Twitterapi_x.item) (it : Twitterapi_x.item) (d : string) :
  Twitterapi_x.parse_x_response response = Ok out -> In it out ->
  Twitterapi_x.date it = Some d ->
  Openai_reddit.date_match d = true
  \/ exists dt, d = strftime dt "%Y-%m-%d".
Proof.
  intros H Hin Hd.
  destruct (parse_x_entry response out it H Hin) as (total & i & t & _ & Ht).
  pose proof (parse_tweet_date total i t it Ht) as Hdate. rewrite Hd in Hdate.
  exact (parse_created_at_shape _ d Hdate).
Qed.

Lemma x_parse_dated {L : PyLib} :
  exists r,
    Twitterapi_x.parse_x_response
      [("tweets", PList [PDict [("url", PStr "https://x.com/a/status/1");
                                ("createdAt", PStr "2026-01-15T14:30:00Z")]])]
    = Ok [{| Twitterapi_x.id := "X1";
             Twitterapi_x.text := "";
             Twitterapi_x.url := PStr "https://x.com/a/status/1";
             Twitterapi_x.author_handle := "";
             Twitterapi_x.date := Some "2026-01-15";
             Twitterapi_x.item_engagement :=
               {| Twitterapi_x.likes := 0; Twitterapi_x.reposts := 0;
                  Twitterapi_x.replies := 0; Twitterapi_x.quotes := 0 |};
             Twitterapi_x.why_relevant := "";
             Twitterapi_x.relevance := r |}].
Proof.
  unfold Twitterapi_x.parse_x_response. eval_parse.
  unfold Twitterapi_x.parse_tweet. eval_parse.
  unfold Twitterapi_x._parse_created_at. eval_parse.
  change (Twitterapi_x.iso_match "2026-01-15T14:30:00Z")
    with (Some ("2026", "01", "15")). eval_parse.
  unfold Twitterapi_x._compute_relevance. eval_parse.
  rewrite !py_max0_int. eval_parse.
  rewrite !log1p_int by small. eval_parse.
  eexists. reflexivity.
Qed.

Lemma x_date_shape_witness :
  Openai_reddit.date_match "2026-01-15" = true
  \/ exists dt, "2026-01-15" = @strftime lib0 dt "%Y-%m-%d".
Proof.
  destruct (@x_parse_dated lib0) as [r Hr].
  exact (@x_date_shape lib0 _ _ _ "2026-01-15" Hr (or_introl eq_refl) eq_refl).
Defined.

(** ** Payloads that cannot be read *)

(** X14. A response whose output text holds no JSON object with "items",
    or holds one that [json.loads] rejects, parses to the empty list:
    [parse_reddit_response] does not raise on it. *)
Theorem reddit_unreadable_payload {L : PyLib} (response : pyval) (s : string) :
  Openai_reddit.find_output_text response = Ok (PStr s) ->
  s <> "" ->
  re_search ("\{[\s\S]*" ++ quoted "items" ++ "[\s\S]*\}") s = None
  \/ (exists m msg,
         re_search ("\{[\s\S]*" ++ quoted "items" ++ "[\s\S]*\}") s = Some m
         /\ json_loads m = Raise (JSONDecodeError msg)) ->
  Openai_reddit.parse_reddit_response response = Ok [].
Proof.
  intros Htext Hs Hbad. unfold Openai_reddit.parse_reddit_response.
  rewrite Htext. cbn [ebind truthy].
  destruct (String.eqb_spec s "") as [E | _]; [contradiction |]. cbn [negb].
  unfold Openai_reddit.extract_items.
  destruct Hbad as [-> | (m & msg & -> & ->)]; reflexivity.
Qed.

Lemma reddit_unreadable_payload_witness :
  @Openai_reddit.parse_reddit_response lib_broken_json
    (PDict [("output", PStr "Sorry, I found nothing.")])
  = Ok [].
Proof.
  refine (@reddit_unreadable_payload lib_broken_json _ "Sorry, I found nothing." _ _ _).
  - reflexivity.
  - discriminate.
  - right. exists "Sorry, I found nothing.", "Expecting value". split; reflexivity.
Defined.

(** ** An entry that makes the whole parse fail *)

Lemma for_each_all_ok {A B : Type} (body : nat -> A -> exc (option B))
    (l : list A) (i : nat) (out : list B) (x : A) :
  for_each body i l = Ok out -> In x l -> exists j o, body j x = Ok o.
Proof.
  revert i out. induction l as [| y l IH]; intros i out H Hin; [destruct Hin |].
  cbn [for_each] in H.
  destruct (body i y) as [o |] eqn:Hb; cbn [ebind] in H; [| discriminate].
  destruct (for_each body (S i) l) as [rest |] eqn:Hrest; cbn [ebind] in H;
    [| discriminate].
  destruct Hin as [-> | Hin].
  - exists i, o. exact Hb.
  - exact (IH (S i) rest Hrest Hin).
Qed.

(** X15. One post with a title, a URL and a negative integer as [upvotes]
    makes [parse_dailydev_response] raise: no item of the response is
    returned, the valid ones included. *)
Theorem dailydev_negative_upvotes_abort (response : dict) (p : dict)
    (t u : string) (z : Z) :
  entry_of response "posts" p ->
  py_strip (dict_get p "title" (PStr "")) = Ok t -> t <> "" ->
  py_strip (dict_get p "url" (PStr "")) = Ok u -> u <> "" ->
  dict_get p "upvotes" (PInt 0) = PInt z -> z < 0 ->
  exists e, Dailydev.parse_dailydev_response response = Raise e.
Proof.
  intros (es & Hes & Hin) Ht Htne Hu Hune Hup Hz.
  destruct (Dailydev.parse_dailydev_response response) as [out | e] eqn:Hparse;
    [| exists e; reflexivity].
  exfalso. unfold Dailydev.parse_dailydev_response in Hparse.
  destruct (negb (truthy (dict_get response "posts" (PList [])))) eqn:Htr.
  - destruct (dict_get response "posts" (PList [])) as [| | | | s | l | d];
      cbn in Htr, Hes; try discriminate.
    + destruct s; [| discriminate]. injection Hes as <-. destruct Hin.
    + destruct l; [| discriminate]. injection Hes as <-. destruct Hin.
    + destruct d; [| discriminate]. injection Hes as <-. destruct Hin.
  - destruct (py_len _) as [n |]; cbn [ebind] in Hparse; [| discriminate].
    rewrite Hes in Hparse. cbn [ebind] in Hparse.
    destruct (for_each_all_ok _ _ _ _ _ Hparse Hin) as (j & o & Hbody).
    unfold Dailydev.parse_post in Hbody. rewrite Ht, Hu in Hbody. cbn [ebind] in Hbody.
    destruct (String.eqb_spec t "") as [E | _]; [contradiction |].
    destruct (String.eqb_spec u "") as [E | _]; [contradiction |].
    cbn [orb] in Hbody.
    destruct (date_prefix _) as [ds |]; cbn [ebind] in Hbody; [| discriminate].
    destruct (py_get _ "name" _) as [an |]; cbn [ebind] in Hbody; [| discriminate].
    destruct (py_get _ "username" _) as [au |]; cbn [ebind] in Hbody; [| discriminate].
    destruct (py_get _ "name" _) as [sn |]; cbn [ebind] in Hbody; [| discriminate].
    destruct (Dailydev._compute_relevance (Z.of_nat j) (Z.of_nat n) p) as [r |] eqn:Hr;
      cbn [ebind] in Hbody; [| discriminate].
    unfold Dailydev._compute_relevance in Hr. rewrite Hup in Hr.
    destruct (py_min_int _ 20) as [m |]; cbn [ebind] in Hr; [| discriminate].
    unfold py_or in Hr. cbn [truthy] in Hr.
    destruct (Z.eqb_spec z 0) as [E | _]; [lia |]. cbn [negb] in Hr.
    destruct (log1p (PInt z)) as [lu |] eqn:Hl; cbn [ebind] in Hr; [| discriminate].
    pose proof (log1p_int_inv z lu Hl). lia.
Qed.

Lemma dailydev_negative_upvotes_abort_witness :
  exists e,
    Dailydev.parse_dailydev_response
      [("posts", PList [PDict [("title", PStr "Good"); ("url", PStr "https://e.com/1");
                               ("upvotes", PInt 12)];
                        PDict [("title", PStr "Odd"); ("url", PStr "https://e.com/2");
                               ("upvotes", PInt (-1))]])]
    = Raise e.
Proof.
  refine (dailydev_negative_upvotes_abort _
            [("title", PStr "Odd"); ("url", PStr "https://e.com/2");
             ("upvotes", PInt (-1))] "Odd" "https://e.com/2" (-1) _ _ _ _ _ _ _).
  - eexists. split; [reflexivity |]. right. left. reflexivity.
  - vm_compute. reflexivity.
  - discriminate.
  - vm_compute. reflexivity.
  - discriminate.
  - reflexivity.
  - lia.
Defined.

(** ** The page loop of [search_x]: where it stops *)

Lemma depth_config_cases (depth : string) :
  exists c, config_get Twitterapi_x.DEPTH_CONFIG depth = Ok c /\ 1 <= snd c <= 3.
Proof.
  unfold config_get, Twitterapi_x.DEPTH_CONFIG. cbn [lookup].
  change ("default" =? "quick")%string with false.
  change ("default" =? "default")%string with true. cbn iota.
  destruct (depth =? "quick")%string; [eexists; split; [reflexivity | cbn; lia] |].
  destruct (depth =? "default")%string; [eexists; split; [reflexivity | cbn; lia] |].
  destruct (depth =? "deep")%string; eexists; (split; [reflexivity | cbn; lia]).
Qed.

Section Page_stops.
Context {L : PyLib} {T : Transport}.
Variables (query : string) (headers : list (string * string)).

Lemma pages_last_page (n page : nat) (cursor : pyval) (all_tweets result : list pyval)
    (w w' : world) :
  last_page query headers (page, cursor, all_tweets, w) result w' ->
  Twitterapi_x.pages (S n) page query headers cursor all_tweets w = (Ok result, w').
Proof.
  intros H. inversion H as [? ? ? ? response ? Hget Htw
                           | ? ? ? ? response ? ts Hget Htw Hit Hstop]; subst;
    cbn [Twitterapi_x.pages]; unfold page_url in Hget; rewrite Hget, Htw; cbn [negb].
  - reflexivity.
  - rewrite Hit. destruct Hstop as [Hnext | Hcur].
    + rewrite Hnext. reflexivity.
    + rewrite Hcur. destruct (truthy (dict_get response "has_next_page" PNone));
        reflexivity.
Qed.

End Page_stops.

(** X16. After [k] pages that let the loop go on, a page below the page
    cap that has no tweets, announces no next page or gives no cursor ends
    [search_x]: the result holds the tweets of all the pages fetched, in
    the order of the pages, and nothing is requested after that page. *)
Theorem search_x_last_page {L : PyLib} {T : Transport}
    (api_key topic from_date to_date depth query : string) (c : Z * Z)
    (k : nat) (cursor : pyval) (all_tweets result : list pyval) (w w1 w' : world) :
  config_get Twitterapi_x.DEPTH_CONFIG depth = Ok c ->
  Twitterapi_x.build_query topic from_date to_date depth = Ok query ->
  full_pages query [("X-API-Key", api_key)] k (0%nat, PNone, [], w)
             (k, cursor, all_tweets, w1) ->
  (k < Z.to_nat (snd c))%nat ->
  last_page query [("X-API-Key", api_key)] (k, cursor, all_tweets, w1) result w' ->
  Twitterapi_x.search_x api_key topic from_date to_date depth None w
  = (Ok [("tweets", PList result)], w').
Proof.
  intros Hc Hq Hrun Hk Hlast.
  unfold Twitterapi_x.search_x, iobind, lift. rewrite Hc, Hq.
  destruct (Z.to_nat (snd c)) as [| cap] eqn:Hcap; [lia |].
  pose proof (pages_full_pages query _ k _ _ Hrun (S (cap - k))) as Hpages.
  cbn beta iota in Hpages. destruct Hpages as [_ Hpages].
  replace (k + S (cap - k))%nat with (S cap) in Hpages by lia.
  rewrite Hpages.
  rewrite (pages_last_page query _ (cap - k) k cursor all_tweets result w1 w' Hlast).
  reflexivity.
Qed.

Lemma search_x_last_page_witness :
  @Twitterapi_x.search_x lib0 scripted "key" "rust" "2026-01-01" "2026-01-31" "deep" None
    [Ok [("tweets", PList [PStr "t1"]);
         ("has_next_page", PBool true); ("next_cursor", PStr "c2")];
     Ok [("tweets", PList [PStr "t2"; PStr "t3"]); ("has_next_page", PBool false)];
     Ok [("tweets", PList [PStr "t4"])]]
  = (Ok [("tweets", PList [PStr "t1"; PStr "t2"; PStr "t3"])],
     [Ok [("tweets", PList [PStr "t4"])]]).
Proof.
  refine (@search_x_last_page lib0 scripted "key" "rust" "2026-01-01" "2026-01-31"
            "deep" _ (2, 3) 1%nat (PStr "c2") [PStr "t1"] _ _
            [Ok [("tweets", PList [PStr "t2"; PStr "t3"]); ("has_next_page", PBool false)];
             Ok [("tweets", PList [PStr "t4"])]]
            [Ok [("tweets", PList [PStr "t4"])]] _ _ _ _ _).
  - reflexivity.
  - reflexivity.
  - eapply full_pages_S; [| apply full_pages_O].
    exact (@full_page_intro lib0 scripted _ _ 0%nat PNone []
             [Ok [("tweets", PList [PStr "t1"]);
                  ("has_next_page", PBool true); ("next_cursor", PStr "c2")];
              Ok [("tweets", PList [PStr "t2"; PStr "t3"]);
                  ("has_next_page", PBool false)];
              Ok [("tweets", PList [PStr "t4"])]]
             [("tweets", PList [PStr "t1"]);
              ("has_next_page", PBool true); ("next_cursor", PStr "c2")]
             [Ok [("tweets", PList [PStr "t2"; PStr "t3"]);
                  ("has_next_page", PBool false)];
              Ok [("tweets", PList [PStr "t4"])]]
             [PStr "t1"] eq_refl eq_refl eq_refl eq_refl eq_refl).
  - simpl. lia.
  - exact (@last_page_end lib0 scripted _ _ 1%nat (PStr "c2") [PStr "t1"]
             [Ok [("tweets", PList [PStr "t2"; PStr "t3"]);
                  ("has_next_page", PBool false)];
              Ok [("tweets", PList [PStr "t4"])]]
             [("tweets", PList [PStr "t2"; PStr "t3"]); ("has_next_page", PBool false)]
             [Ok [("tweets", PList [PStr "t4"])]]
             [PStr "t2"; PStr "t3"] eq_refl eq_refl eq_refl (or_introl eq_refl)).
Defined.

(** X17. When as many pages as the page cap of the depth were fetched and
    each of them lets the loop go on, [search_x] returns their tweets and
    requests no further page, although a next page is announced. *)
Theorem search_x_cap_reached {L : PyLib} {T : Transport}
    (api_key topic from_date to_date depth query : string) (c : Z * Z)
    (cursor : pyval) (all_tweets : list pyval) (w w1 : world) :
  config_get Twitterapi_x.DEPTH_CONFIG depth = Ok c ->
  Twitterapi_x.build_query topic from_date to_date depth = Ok query ->
  full_pages query [("X-API-Key", api_key)] (Z.to_nat (snd c)) (0%nat, PNone, [], w)
             (Z.to_nat (snd c), cursor, all_tweets, w1) ->
  Twitterapi_x.search_x api_key topic from_date to_date depth None w
  = (Ok [("tweets", PList all_tweets)], w1).
Proof.
  intros Hc Hq Hrun.
  unfold Twitterapi_x.search_x, iobind, lift. rewrite Hc, Hq.
  pose proof (pages_full_pages query _ _ _ _ Hrun 0%nat) as Hpages.
  cbn beta iota in Hpages. destruct Hpages as [_ Hpages].
  rewrite Nat.add_0_r in Hpages. rewrite Hpages. reflexivity.
Qed.

Lemma search_x_cap_reached_witness :
  @Twitterapi_x.search_x lib0 scripted "key" "rust" "2026-01-01" "2026-01-31" "quick" None
    [Ok [("tweets", PList [PStr "t1"]);
         ("has_next_page", PBool true); ("next_cursor", PStr "c2")];
     Ok [("tweets", PList [PStr "t2"])]]
  = (Ok [("tweets", PList [PStr "t1"])], [Ok [("tweets", PList [PStr "t2"])]]).
Proof.
  refine (@search_x_cap_reached lib0 scripted "key" "rust" "2026-01-01" "2026-01-31"
            "quick" _ (5, 1) (PStr "c2") [PStr "t1"] _
            [Ok [("tweets", PList [PStr "t2"])]] _ _ _).
  - reflexivity.
  - reflexivity.
  - eapply full_pages_S; [| apply full_pages_O].
    exact (@full_page_intro lib0 scripted _ _ 0%nat PNone []
             [Ok [("tweets", PList [PStr "t1"]);
                  ("has_next_page", PBool true); ("next_cursor", PStr "c2")];
              Ok [("tweets", PList [PStr "t2"])]]
             [("tweets", PList [PStr "t1"]);
              ("has_next_page", PBool true); ("next_cursor", PStr "c2")]
             [Ok [("tweets", PList [PStr "t2"])]]
             [PStr "t1"] eq_refl eq_refl eq_refl eq_refl eq_refl).
Defined.

(** ** The number of requests of [search_x] *)

Section Request_count.
Context {L : PyLib} (T : Transport).

Lemma pages_count (k page : nat) (query : string) (headers : list (string * string))
    (cursor : pyval) (all_tweets : list pyval) (w : @world T) (n : nat)
    (r : exc (list pyval)) (w' : @world T) (n' : nat) :
  @Twitterapi_x.pages L (counting T) k page query headers cursor all_tweets (w, n)
  = (r, (w', n')) ->
  (n <= n' <= n + k)%nat.
Proof.
  revert page cursor all_tweets w n.
  induction k as [| k IH]; intros page cursor all_tweets w n H.
  - cbn in H. injection H as _ _ <-. lia.
  - cbn [Twitterapi_x.pages] in H.
    cbn [http_get counting fst snd] in H.
    destruct (@http_get T _ headers 30 w) as [res w1].
    cbn [fst snd] in H.
    destruct res as [response | e].
    + destruct (negb (truthy (dict_get response "tweets" (PList []))));
        [injection H as _ _ <-; lia |].
      destruct (py_iter _) as [ts | e]; [| injection H as _ _ <-; lia].
      destruct (negb (truthy (dict_get response "has_next_page" PNone)));
        [injection H as _ _ <-; lia |].
      destruct (negb (truthy (dict_get response "next_cursor" PNone)));
        [injection H as _ _ <-; lia |].
      apply IH in H. lia.
    + destruct (is_HTTPError e); [destruct (Nat.eqb page 0) |];
        injection H as _ _ <-; lia.
Qed.

End Request_count.

(** X18. [search_x] makes at most as many requests as the page cap of its
    depth, hence at most three, and with a mock response it makes none:
    over a transport that counts its requests, the count grows by at most
    the cap. *)
Theorem search_x_request_cap {L : PyLib} (T : Transport)
    (api_key topic from_date to_date depth : string) (mock : option dict)
    (w w' : @world T) (n n' : nat) (r : exc dict) :
  @Twitterapi_x.search_x L (counting T) api_key topic from_date to_date depth mock (w, n)
  = (r, (w', n')) ->
  exists c,
    config_get Twitterapi_x.DEPTH_CONFIG depth = Ok c
    /\ (n <= n' <= n + Z.to_nat (snd c))%nat
    /\ (n' <= n + 3)%nat
    /\ (mock <> None -> n' = n).
Proof.
  intros H. destruct (depth_config_cases depth) as (c & Hc & Hcap).
  exists c. split; [exact Hc |].
  unfold Twitterapi_x.search_x in H. destruct mock as [m |].
  - cbn in H. injection H as _ _ <-. repeat split; try lia.
  - unfold iobind, lift in H. rewrite Hc in H.
    assert (Hq : exists q, Twitterapi_x.build_query topic from_date to_date depth = Ok q).
    { unfold Twitterapi_x.build_query. rewrite Hc. eexists. reflexivity. }
    destruct Hq as [q Hq]. rewrite Hq in H.
    destruct (@Twitterapi_x.pages L (counting T) (Z.to_nat (snd c)) 0 q
                [("X-API-Key", api_key)] PNone [] (w, n)) as [res [w2 n2]] eqn:Hp.
    apply pages_count in Hp.
    assert (n' = n2) by (destruct res; cbn in H; injection H as _ _ <-; reflexivity).
    subst n2. repeat split; try lia. intros Hm. contradiction.
Qed.

Lemma search_x_request_cap_witness :
  exists c,
    config_get Twitterapi_x.DEPTH_CONFIG "quick" = Ok c
    /\ (0 <= 1 <= 0 + Z.to_nat (snd c))%nat
    /\ (1 <= 0 + 3)%nat
    /\ (@None dict <> None -> 1%nat = 0%nat).
Proof.
  refine (@search_x_request_cap lib0 scripted "key" "rust" "2026-01-01" "2026-01-31"
            "quick" None
            [Ok [("tweets", PList [PStr "t1"]);
                 ("has_next_page", PBool true); ("next_cursor", PStr "c2")];
             Ok [("tweets", PList [PStr "t2"])]]
            [Ok [("tweets", PList [PStr "t2"])]] 0%nat 1%nat
            (Ok [("tweets", PList [PStr "t1"])]) _).
  reflexivity.
Defined.

(** ** The search tasks of the other three sources *)

Section Tasks.
Context {L : PyLib} {T : Transport}.

Lemma search_x_partial (api_key topic from_date to_date depth query : string)
    (c : Z * Z) (k : nat) (cursor : pyval) (all_tweets : list pyval)
    (w w1 w' : world) (msg : string) :
  config_get Twitterapi_x.DEPTH_CONFIG depth = Ok c ->
  Twitterapi_x.build_query topic from_date to_date depth = Ok query ->
  full_pages query [("X-API-Key", api_key)] (S k) (0%nat, PNone, [], w)
             (S k, cursor, all_tweets, w1) ->
  (S k < Z.to_nat (snd c))%nat ->
  http_get (page_url query cursor) [("X-API-Key", api_key)] 30 w1
  = (Raise (HTTPError msg), w') ->
  Twitterapi_x.search_x api_key topic from_date to_date depth None w
  = (Ok [("tweets", PList all_tweets)], w').
Proof.
  intros Hc Hq Hrun Hk Hget.
  unfold Twitterapi_x.search_x, iobind, lift. rewrite Hc, Hq.
  destruct (Z.to_nat (snd c)) as [| cap] eqn:Hcap; [lia |].
  pose proof (pages_full_pages query _ (S k) _ _ Hrun (S (cap - S k))) as Hpages.
  cbn beta iota in Hpages. destruct Hpages as [_ Hpages].
  replace (S k + S (cap - S k))%nat with (S cap) in Hpages by lia.
  rewrite Hpages.
  rewrite (pages_http_error query _ (cap - S k) (S k) cursor all_tweets w1 w' msg Hget).
  reflexivity.
Qed.

End Tasks.



(** X20. When a later page of the social search fails with an HTTP error,
    the search task reports no error: its items are the parse of the
    tweets of the pages fetched before and its error text is null. *)
Theorem search_x_task_keeps_partial {L : PyLib} {T : Transport}
    (topic from_date to_date depth query : string) (config selected_models : dict)
    (key : pyval) (c : Z * Z) (k : nat) (cursor : pyval) (all_tweets : list pyval)
    (items : list Twitterapi_x.item) (w w1 w' : world) (msg : string) :
  dict_item config "TWITTERAPI_IO_KEY" = Ok key ->
  config_get Twitterapi_x.DEPTH_CONFIG depth = Ok c ->
  Twitterapi_x.build_query topic from_date to_date depth = Ok query ->
  full_pages query [("X-API-Key", Last30days.credential key)] (S k)
             (0%nat, PNone, [], w) (S k, cursor, all_tweets, w1) ->
  (S k < Z.to_nat (snd c))%nat ->
  http_get (page_url query cursor) [("X-API-Key", Last30days.credential key)] 30 w1
  = (Raise (HTTPError msg), w') ->
  Twitterapi_x.parse_x_response [("tweets", PList all_tweets)] = Ok items ->
  Last30days._search_x topic config selected_models from_date to_date depth false w
  = (Ok (items, [("tweets", PList all_tweets)], None), w').
Proof.
  intros Hkey Hc Hq Hrun Hk Hget Hparse.
  unfold Last30days._search_x, iobind, try_except, lift, ret. rewrite Hkey.
  rewrite (search_x_partial _ topic from_date to_date depth query c k cursor all_tweets
             w w1 w' msg Hc Hq Hrun Hk Hget).
  cbn [fst snd]. rewrite Hparse. reflexivity.
Qed.

Lemma search_x_task_keeps_partial_witness :
  @Last30days._search_x lib0 scripted "rust" [("TWITTERAPI_IO_KEY", PStr "k1")] []
    "2026-01-01" "2026-01-31" "default" false
    [Ok [("tweets", PList [PStr "t1"; PStr "t2"]);
         ("has_next_page", PBool true); ("next_cursor", PStr "c2")];
     Raise (HTTPError "HTTP 500")]
  = (Ok ([], [("tweets", PList [PStr "t1"; PStr "t2"])], None), []).
Proof.
  refine (@search_x_task_keeps_partial lib0 scripted "rust" "2026-01-01" "2026-01-31"
            "default" _ [("TWITTERAPI_IO_KEY", PStr "k1")] [] (PStr "k1") (3, 2)
            0%nat (PStr "c2") [PStr "t1"; PStr "t2"] []
            _ [Raise (HTTPError "HTTP 500")] [] "HTTP 500" _ _ _ _ _ _ _).
  - reflexivity.
  - reflexivity.
  - reflexivity.
  - eapply full_pages_S; [| apply full_pages_O].
    exact (@full_page_intro lib0 scripted _ _ 0%nat PNone []
             [Ok [("tweets", PList [PStr "t1"; PStr "t2"]);
                  ("has_next_page", PBool true); ("next_cursor", PStr "c2")];
              Raise (HTTPError "HTTP 500")]
             [("tweets", PList [PStr "t1"; PStr "t2"]);
              ("has_next_page", PBool true); ("next_cursor", PStr "c2")]
             [Raise (HTTPError "HTTP 500")] [PStr "t1"; PStr "t2"]
             eq_refl eq_refl eq_refl eq_refl eq_refl).
  - simpl. lia.
  - reflexivity.
  - reflexivity.
Defined.

(** X21. The configuration that [get_config] builds holds none of the keys
    the social, article and video search tasks read: with it, outside mock
    mode, each of these tasks makes no request and returns no item, the
    error response and the text of the [KeyError]. *)
Theorem search_tasks_miss_config_keys {L : PyLib} {T : Transport}
    (environ : list (string * string)) (file : option (list string))
    (topic from_date to_date depth : string) (selected_models : dict) (w : world) :
  Last30days._search_x topic (Env.get_config environ file) selected_models
    from_date to_date depth false w
  = (Ok ([], [("error", PStr "'TWITTERAPI_IO_KEY'")],
         Some "KeyError: 'TWITTERAPI_IO_KEY'"), w)
  /\ Last30days._search_dailydev topic (Env.get_config environ file)
       from_date to_date depth false w
     = (Ok ([], [("error", PStr "'DAILYDEV_API_KEY'")],
            Some "KeyError: 'DAILYDEV_API_KEY'"), w)
  /\ Last30days._search_youtube topic (Env.get_config environ file)
       from_date to_date depth false w
     = (Ok ([], [("error", PStr "'TUBELAB_API_KEY'")],
            Some "KeyError: 'TUBELAB_API_KEY'"), w).
Proof. repeat split; reflexivity. Qed.

(** ** The configuration *)

Lemma lookup_set_item {A : Type} (k k' : string) (v : A) (d : list (string * A)) :
  lookup k (set_item k' v d) = if String.eqb k k' then Some v else lookup k d.
Proof.
  induction d as [| [k0 v0] d IH]; cbn [set_item lookup].
  - destruct (String.eqb k k'); reflexivity.
  - destruct (String.eqb_spec k' k0) as [-> | Hne]; cbn [lookup].
    + destruct (String.eqb k k0); reflexivity.
    + destruct (String.eqb_spec k k0) as [-> | Hne'].
      * destruct (String.eqb_spec k0 k') as [E | _]; [congruence | reflexivity].
      * exact IH.
Qed.

Lemma load_line_filled (env : list (string * string)) (line : string) :
  all_filled env -> all_filled (Env.load_line env line).
Proof.
  intros Henv. unfold Env.load_line.
  destruct (_ || _); [exact Henv |].
  destruct (Env.partition "=" (strip line)) as [[key0 value0] |]; [| exact Henv].
  destruct (String.eqb_spec (strip key0) "") as [E | Hk]; cbn [negb andb]; [exact Henv |].
  destruct (String.eqb_spec (Env.unquote (strip value0)) "") as [E | Hv]; cbn [negb];
    [exact Henv |].
  intros k v. rewrite lookup_set_item.
  destruct (String.eqb_spec k (strip key0)) as [-> | _].
  - intros E. injection E as <-. split; assumption.
  - apply Henv.
Qed.

Lemma load_lines_filled (file_lines : list string) (env : list (string * string)) :
  all_filled env -> all_filled (fold_left Env.load_line file_lines env).
Proof.
  revert env. induction file_lines as [| line rest IH]; intros env Henv; [exact Henv |].
  cbn [fold_left]. apply IH. apply load_line_filled. exact Henv.
Qed.

(** X22. Every key and every value that [load_env_file] returns is a
    non-empty text, and a path that does not exist gives the empty
    mapping. *)
Theorem load_env_file_filled (file : option (list string)) (k v : string) :
  lookup k (Env.load_env_file file) = Some v ->
  k <> "" /\ v <> "" /\ Env.load_env_file None = [].
Proof.
  intros H.
  assert (Hall : all_filled (Env.load_env_file file)).
  { destruct file as [file_lines |]; cbn [Env.load_env_file].
    - apply load_lines_filled. intros ? ? E. discriminate E.
    - intros ? ? E. discriminate E. }
  destruct (Hall k v H) as [Hk Hv]. repeat split; assumption.
Qed.

Lemma load_env_file_filled_witness :
  "OPENAI_API_KEY" <> "" /\ "sk-1" <> "" /\ Env.load_env_file None = [].
Proof.
  refine (load_env_file_filled
            (Some ["# keys" ++ nl; "OPENAI_API_KEY = " ++ quoted "sk-1" ++ nl; "EMPTY=" ++ nl])
            "OPENAI_API_KEY" "sk-1" _).
  vm_compute. reflexivity.
Defined.

(** X23. A line that is blank, starts with "#" or has no "=" does not
    change what [load_env_file] returns. *)
Theorem load_env_file_skips (before after : list string) (line : string) :
  strip line = "" \/ String.prefix "#" (strip line) = true
  \/ Env.partition "=" (strip line) = None ->
  Env.load_env_file (Some (before ++ line :: after)%list)
  = Env.load_env_file (Some (before ++ after)%list).
Proof.
  intros Hskip. cbn [Env.load_env_file]. rewrite !fold_left_app. cbn [fold_left].
  f_equal. unfold Env.load_line.
  destruct Hskip as [-> | [-> | ->]].
  - reflexivity.
  - rewrite orb_true_r. reflexivity.
  - destruct (_ || _); reflexivity.
Qed.

Lemma load_env_file_skips_witness :
  Env.load_env_file
    (Some ([("A=1" ++ nl)%string]
           ++ ("  # a comment" ++ nl)%string :: [("B=2" ++ nl)%string])%list)
  = Env.load_env_file (Some ([("A=1" ++ nl)%string] ++ [("B=2" ++ nl)%string])%list).
Proof.
  refine (load_env_file_skips _ _ _ _). right. left. vm_compute. reflexivity.
Defined.

(** ** Reading an assignment back *)















(** ** The configuration values and the sources *)

Lemma py_or_filled (a b : pyval) :
  (a = PNone \/ exists v, a = PStr v) ->
  (b = PNone \/ exists v, b = PStr v /\ v <> "") ->
  py_or a b = PNone \/ exists v, py_or a b = PStr v /\ v <> "".
Proof.
  intros Ha Hb. unfold py_or. destruct Ha as [-> | [v ->]]; cbn [truthy].
  - exact Hb.
  - destruct (String.eqb_spec v "") as [E | Hne]; cbn [negb]; [exact Hb |].
    right. exists v. split; [reflexivity | exact Hne].
Qed.

Lemma env_get_cases (m : list (string * string)) (k : string) :
  Env.env_get m k = PNone \/ exists v, Env.env_get m k = PStr v.
Proof.
  unfold Env.env_get. destruct (lookup k m) as [v |]; [right; exists v |]; auto.
Qed.

Lemma file_get_filled (file : option (list string)) (k : string) :
  Env.env_get (Env.load_env_file file) k = PNone
  \/ exists v, Env.env_get (Env.load_env_file file) k = PStr v /\ v <> "".
Proof.
  unfold Env.env_get. destruct (lookup k (Env.load_env_file file)) as [v |] eqn:E.
  - right. exists v. split; [reflexivity |].
    destruct file as [file_lines |]; [| discriminate E].
    exact (proj2 (load_lines_filled file_lines [] ltac:(intros ? ? X; discriminate X)
                    k v E)).
  - left. reflexivity.
Qed.

Lemma file_get_default_filled (file : option (list string)) (k dflt : string) :
  dflt <> "" ->
  exists v, Env.env_get_default (Env.load_env_file file) k dflt = PStr v /\ v <> "".
Proof.
  intros Hd. unfold Env.env_get_default.
  destruct (lookup k (Env.load_env_file file)) as [v |] eqn:E.
  - exists v. split; [reflexivity |].
    destruct file as [file_lines |]; [| discriminate E].
    exact (proj2 (load_lines_filled file_lines [] ltac:(intros ? ? X; discriminate X)
                    k v E)).
  - exists dflt. split; [reflexivity | exact Hd].
Qed.

(** X25. A variable of the environment that is set to a non-empty value
    overrides the configuration file: [get_config] gives that value for
    each of its six keys. *)
Theorem config_environment_first (environ : list (string * string))
    (file : option (list string)) (k v : string) :
  In k ["OPENAI_API_KEY"; "XAI_API_KEY"; "OPENAI_MODEL_POLICY"; "OPENAI_MODEL_PIN";
        "XAI_MODEL_POLICY"; "XAI_MODEL_PIN"] ->
  lookup k environ = Some v -> v <> "" ->
  dict_get (Env.get_config environ file) k PNone = PStr v.
Proof.
  intros Hk Hv Hne.
  assert (Hor : forall b, py_or (Env.env_get environ k) b = PStr v).
  { intros b. unfold py_or, Env.env_get. rewrite Hv. cbn [truthy].
    destruct (String.eqb_spec v "") as [E | _]; [contradiction | reflexivity]. }
  cbn [In] in Hk.
  destruct Hk as [<- | [<- | [<- | [<- | [<- | [<- | []]]]]]];
    unfold Env.get_config; rewrite Hor; reflexivity.
Qed.

Lemma config_environment_first_witness :
  dict_get (Env.get_config [("XAI_API_KEY", "from-env")]
              (Some [("XAI_API_KEY=from-file" ++ nl)%string]))
    "XAI_API_KEY" PNone
  = PStr "from-env".
Proof.
  refine (config_environment_first _ _ "XAI_API_KEY" "from-env" _ _ _).
  - right. left. reflexivity.
  - reflexivity.
  - discriminate.
Defined.

(** X26. No value of the configuration is an empty text: each of the six
    values that [get_config] returns is null or a non-empty text, and the
    two model policies are never null ("auto" and "latest" are their
    defaults). *)
Theorem config_values_filled (environ : list (string * string))
    (file : option (list string)) :
  (forall k,
      dict_get (Env.get_config environ file) k PNone = PNone
      \/ exists v, dict_get (Env.get_config environ file) k PNone = PStr v /\ v <> "")
  /\ (exists v, dict_get (Env.get_config environ file) "OPENAI_MODEL_POLICY" PNone = PStr v
                /\ v <> "")
  /\ (exists v, dict_get (Env.get_config environ file) "XAI_MODEL_POLICY" PNone = PStr v
                /\ v <> "").
Proof.
  assert (Hkey : forall key,
             py_or (Env.env_get environ key) (Env.env_get (Env.load_env_file file) key)
             = PNone
             \/ exists v,
                 py_or (Env.env_get environ key)
                       (Env.env_get (Env.load_env_file file) key) = PStr v /\ v <> "").
  { intros key. apply py_or_filled; [apply env_get_cases |].
    apply file_get_filled. }
  assert (Hpol : forall key dflt, dflt <> "" ->
             exists v,
               py_or (Env.env_get environ key)
                     (Env.env_get_default (Env.load_env_file file) key dflt) = PStr v
               /\ v <> "").
  { intros key dflt Hd.
    destruct (file_get_default_filled file key dflt Hd) as (d & Hdv & Hdne).
    destruct (py_or_filled (Env.env_get environ key)
                (Env.env_get_default (Env.load_env_file file) key dflt))
      as [E | E]; [apply env_get_cases | right; exists d; auto | | exact E].
    unfold py_or in E. destruct (truthy (Env.env_get environ key)) eqn:Ht.
    - rewrite E in Ht. discriminate Ht.
    - rewrite Hdv in E. discriminate E. }
  split; [| split].
  - intros k. unfold dict_get, Env.get_config. cbn [lookup].
    destruct (String.eqb k "OPENAI_API_KEY"); [apply Hkey |].
    destruct (String.eqb k "XAI_API_KEY"); [apply Hkey |].
    destruct (String.eqb k "OPENAI_MODEL_POLICY");
      [right; apply Hpol; discriminate |].
    destruct (String.eqb k "OPENAI_MODEL_PIN"); [apply Hkey |].
    destruct (String.eqb k "XAI_MODEL_POLICY"); [right; apply Hpol; discriminate |].
    destruct (String.eqb k "XAI_MODEL_PIN"); [apply Hkey |].
    left. reflexivity.
  - apply (Hpol "OPENAI_MODEL_POLICY" "auto"). discriminate.
  - apply (Hpol "XAI_MODEL_POLICY" "latest"). discriminate.
Qed.

(** X27. [validate_sources] never selects a source whose key is missing:
    when it accepts a request of "auto", "reddit", "x" or "both" against
    the sources available for a configuration, the sources it returns are
    "reddit", "x" or "both", the OpenAI key is set if they include Reddit
    and the xAI key is set if they include X. *)
Theorem validate_sources_sound (config : dict) (requested s : string) :
  In requested ["auto"; "reddit"; "x"; "both"] ->
  Env.validate_sources requested (Env.get_available_sources config) = (s, None) ->
  In s ["reddit"; "x"; "both"]
  /\ (s = "reddit" \/ s = "both" -> truthy (dict_get config "OPENAI_API_KEY" PNone) = true)
  /\ (s = "x" \/ s = "both" -> truthy (dict_get config "XAI_API_KEY" PNone) = true).
Proof.
  intros Hreq H. unfold Env.get_available_sources in H.
  cbn [In] in Hreq.
  destruct (truthy (dict_get config "OPENAI_API_KEY" PNone));
    destruct (truthy (dict_get config "XAI_API_KEY" PNone));
    destruct Hreq as [<- | [<- | [<- | [<- | []]]]];
    vm_compute in H; try discriminate H; injection H as <-;
    (split; [cbn; tauto |]); split; intros [E | E]; try reflexivity; discriminate E.
Qed.

Lemma validate_sources_sound_witness :
  In "reddit" ["reddit"; "x"; "both"]
  /\ ("reddit" = "reddit" \/ "reddit" = "both" ->
      truthy (dict_get [("OPENAI_API_KEY", PStr "sk-1"); ("XAI_API_KEY", PNone)]
                "OPENAI_API_KEY" PNone) = true)
  /\ ("reddit" = "x" \/ "reddit" = "both" ->
      truthy (dict_get [("OPENAI_API_KEY", PStr "sk-1"); ("XAI_API_KEY", PNone)]
                "XAI_API_KEY" PNone) = true).
Proof.
  refine (validate_sources_sound
            [("OPENAI_API_KEY", PStr "sk-1"); ("XAI_API_KEY", PNone)] "auto" "reddit" _ _).
  - left. reflexivity.
  - reflexivity.
Defined.

(** X28. Whenever [validate_sources] returns an error message the
    effective sources are "none"; and, whatever the available sources are
    as long as they are not "none", a request of "auto" is not refused: it
    selects the available sources. *)
Theorem validate_sources_errors (requested available : string) :
  (forall s e, Env.validate_sources requested available = (s, Some e) -> s = "none")
  /\ (available <> "none" -> Env.validate_sources "auto" available = (available, None)).
Proof.
  split.
  - intros s e H. unfold Env.validate_sources in H.
    repeat match type of H with
      | (if ?c then _ else _) = _ => destruct c
      end; try discriminate H; injection H as <- _; reflexivity.
  - intros Hne. unfold Env.validate_sources.
    destruct (String.eqb_spec available "none") as [E | _]; [contradiction | reflexivity].
Qed.

Lemma validate_sources_errors_witness :
  "none" = "none"
  /\ Env.validate_sources "auto" "both" = ("both", None)
  /\ Env.validate_sources "auto" "x" = ("x", None).
Proof.
  refine (conj _ (conj _ _)).
  - refine (proj1 (validate_sources_errors "both" "reddit") "none"
              "Requested both sources but xAI key is missing. Use --sources=auto to use available keys."
              _).
    reflexivity.
  - refine (proj2 (validate_sources_errors "reddit" "both") _). discriminate.
  - refine (proj2 (validate_sources_errors "x" "x") _). discriminate.
Defined.

(** ** The merge of the retry, item by item *)

Section Merge_strings.
Context {L : PyLib} {T : Transport}.

Lemma url_set_strings (items : list Openai_reddit.item) :
  Forall (fun it => is_str (Openai_reddit.url it) = true) items ->
  Last30days.url_set items = Ok (map Openai_reddit.url items).
Proof.
  induction 1 as [| it items Hit _ IH]; [reflexivity |].
  cbn [Last30days.url_set map]. rewrite IH.
  destruct (Openai_reddit.url it); try discriminate Hit. reflexivity.
Qed.

Lemma append_new_strings (existing_urls : list pyval)
    (retry_items reddit_items : list Openai_reddit.item) :
  Forall (fun it => is_str (Openai_reddit.url it) = true) retry_items ->
  Last30days.append_new existing_urls retry_items reddit_items
  = (Ok tt,
     (reddit_items
      ++ filter (fun it => negb (existsb (scalar_eqb (Openai_reddit.url it)) existing_urls))
           retry_items)%list).
Proof.
  intros H. revert reddit_items.
  induction H as [| it rest Hit _ IH]; intros reddit_items.
  - cbn. rewrite app_nil_r. reflexivity.
  - cbn [Last30days.append_new filter].
    assert (Hk : hash_key (Openai_reddit.url it) = Ok (Openai_reddit.url it))
      by (destruct (Openai_reddit.url it); try discriminate Hit; reflexivity).
    rewrite Hk.
    destruct (existsb (scalar_eqb (Openai_reddit.url it)) existing_urls); cbn [negb].
    + apply IH.
    + rewrite IH, <- app_assoc. reflexivity.
Qed.

End Merge_strings.

(** X29. The merge of the retry of the discussion search task, on items
    whose URLs are texts: the first-pass items stay in front, in their
    order, followed by the retry items whose URL is not the URL of a
    first-pass item, in their order; a URL that occurs twice among the
    retry items is appended twice. *)
Theorem retry_merge_by_url (first retry_items : list Openai_reddit.item) :
  Forall (fun it => is_str (Openai_reddit.url it) = true) first ->
  Forall (fun it => is_str (Openai_reddit.url it) = true) retry_items ->
  Last30days.url_set first = Ok (map Openai_reddit.url first)
  /\ Last30days.append_new (map Openai_reddit.url first) retry_items first
     = (Ok tt,
        (first
         ++ filter (fun it => negb (existsb (scalar_eqb (Openai_reddit.url it))
                                      (map Openai_reddit.url first)))
              retry_items)%list).
Proof.
  intros Hf Hr. split; [apply url_set_strings | apply append_new_strings]; assumption.
Qed.

Lemma retry_merge_by_url_witness :
  Last30days.url_set [item_A] = Ok (map Openai_reddit.url [item_A])
  /\ Last30days.append_new (map Openai_reddit.url [item_A]) [item_A] [item_A]
     = (Ok tt,
        ([item_A]
         ++ filter (fun it => negb (existsb (scalar_eqb (Openai_reddit.url it))
                                      (map Openai_reddit.url [item_A])))
              [item_A])%list).
Proof.
  refine (retry_merge_by_url [item_A] [item_A] _ _);
    repeat constructor.
Defined.

(** ** Finding the output text *)

Lemma content_text_first (before after : list pyval) (part : dict) (ot : pyval) :
  Forall other_part before ->
  py_eq_str (dict_get part "type" PNone) "output_text" = true ->
  Openai_reddit.content_text (before ++ PDict part :: after)%list ot
  = dict_get part "text" (PStr "").
Proof.
  intros Hb Hp. induction Hb as [| c before Hc _ IH]; cbn [app Openai_reddit.content_text].
  - rewrite Hp. reflexivity.
  - destruct c as [| | | | | | d]; try exact IH.
    cbn [other_part] in Hc. rewrite Hc. exact IH.
Qed.

Lemma output_items_pass (before rest : list pyval) (ot : pyval) :
  Forall passed_over before -> truthy ot = false ->
  Openai_reddit.output_items (before ++ rest)%list ot
  = Openai_reddit.output_items rest ot.
Proof.
  intros Hb Hot. induction Hb as [| it before Hit _ IH]; [reflexivity |].
  cbn [app Openai_reddit.output_items].
  destruct it as [| | | | s | | d]; cbn [passed_over] in Hit; try contradiction;
    cbn [ebind]; try (rewrite Hot; exact IH).
  destruct Hit as [Hm Ht]. rewrite Hm, Ht. cbn [ebind]. rewrite Hot. exact IH.
Qed.

(** X30. In a response whose "output" is a list, elements that are not
    messages and carry no text (tool calls, for one) are passed over, and
    the output text is the "text" of the first output_text part of the
    first message, when that text is not empty; what follows in the list
    is not looked at. *)
Theorem output_text_of_message (response message part : dict)
    (before after parts_before parts_after : list pyval) (s : string) :
  lookup "output" response = Some (PList (before ++ PDict message :: after)%list) ->
  Forall passed_over before ->
  py_eq_str (dict_get message "type" PNone) "message" = true ->
  dict_get message "content" (PList [])
  = PList (parts_before ++ PDict part :: parts_after)%list ->
  Forall other_part parts_before ->
  py_eq_str (dict_get part "type" PNone) "output_text" = true ->
  dict_get part "text" (PStr "") = PStr s -> s <> "" ->
  Openai_reddit.find_output_text (PDict response) = Ok (PStr s).
Proof.
  intros Hout Hb Hm Hc Hpb Hp Ht Hs.
  unfold Openai_reddit.find_output_text.
  cbn [py_contains py_subscript]. unfold dict_has, dict_item. rewrite Hout. cbn [ebind].
  rewrite (output_items_pass before _ (PStr "") Hb eq_refl).
  cbn [Openai_reddit.output_items]. rewrite Hm, Hc. cbn [py_iter ebind].
  rewrite (content_text_first parts_before parts_after part _ Hpb Hp), Ht.
  assert (Htr : truthy (PStr s) = true).
  { cbn [truthy]. destruct (String.eqb_spec s "") as [E | _]; [contradiction | reflexivity]. }
  rewrite Htr. cbn [ebind negb]. rewrite Htr. reflexivity.
Qed.

Lemma output_text_of_message_witness :
  Openai_reddit.find_output_text
    (PDict [("id", PStr "resp_1");
            ("output",
             PList [PDict [("type", PStr "web_search_call"); ("status", PStr "completed")];
                    PDict [("type", PStr "message");
                           ("content",
                            PList [PDict [("type", PStr "output_text");
                                          ("text", PStr "{}")]])]])])
  = Ok (PStr "{}").
Proof.
  refine (@output_text_of_message _
            [("type", PStr "message");
             ("content", PList [PDict [("type", PStr "output_text"); ("text", PStr "{}")]])]
            [("type", PStr "output_text"); ("text", PStr "{}")]
            [PDict [("type", PStr "web_search_call"); ("status", PStr "completed")]]
            [] [] [] "{}" _ _ _ _ _ _ _ _).
  - reflexivity.
  - constructor; [split; reflexivity | constructor].
  - reflexivity.
  - reflexivity.
  - constructor.
  - reflexivity.
  - reflexivity.
  - discriminate.
Defined.
